(** * Google Spreadsheet MCP server: a shallow embedding of [server.py]

    The server is a collection of tool handlers that share one lazily
    authenticated session object and talk to the Sheets and Drive services
    through opaque client handles.  The embedding keeps the shape of the
    Python code:

    - Python values (request bodies, API replies, result dictionaries) are
      the untyped values of [pyval]; a dictionary is an insertion-ordered
      association list, as in Python;
    - every call that leaves the process (file system, OAuth libraries,
      the remote services) is a constructor of [ext]; the outside world is
      an oracle [run] that answers such a call with a value or a raised
      exception and a new world state;
    - handlers are computations in the monad [M]: state passing over the
      world, the call log and the shared [SpreadsheetContext], with raised
      exceptions as the left summand.  The state survives a raise, as
      Python's does. *)

From Stdlib Require Import String Ascii List ZArith Bool Lia DecimalString.
Import ListNotations.

Local Open Scope list_scope.
Local Open Scope string_scope.
Set Warnings "-register-all".

(** ** Python values *)

Inductive pyval : Type :=
| PNone
| PBool (b : bool)
| PInt (z : Z)
| PStr (s : string)
| PList (l : list pyval)
| PDict (d : list (string * pyval)).

Definition dict : Type := list (string * pyval).

(** Exceptions: all values below stand for instances of [Exception]. *)
Inductive exn_class : Type :=
| KeyError | TypeError | AttributeError | ValueError
| JSONDecodeError | HttpError | Exception.

Record exn : Type := mkExn {
  exn_kind : exn_class;
  exn_str : string;                 (* str(e) *)
  exn_content : option pyval        (* e.content, when hasattr(e, 'content') *)
}.

Definition py_raise (k : exn_class) (msg : string) : exn := mkExn k msg None.

Definition res (A : Type) : Type := (exn + A)%type.

Definition rbind {A B} (r : res A) (f : A -> res B) : res B :=
  match r with
  | inl e => inl e
  | inr a => f a
  end.

Declare Scope res_scope.
Delimit Scope res_scope with res.
Notation "x <~ c1 ;; c2" := (rbind c1 (fun x => c2))
  (at level 61, c1 at next level, right associativity) : res_scope.

(** *** Dictionaries *)

Fixpoint dict_get (k : string) (d : dict) : option pyval :=
  match d with
  | [] => None
  | (k', v) :: rest => if String.eqb k k' then Some v else dict_get k rest
  end.

(** [d[k] = v] on an ordered dictionary: an existing key keeps its place. *)
Fixpoint dict_set (k : string) (v : pyval) (d : dict) : dict :=
  match d with
  | [] => [(k, v)]
  | (k', v') :: rest =>
      if String.eqb k k' then (k', v) :: rest else (k', v') :: dict_set k v rest
  end.

Definition has_key (k : string) (d : dict) : bool :=
  match dict_get k d with
  | Some _ => true
  | None => false
  end.

(** [d.get(k)] on a value known to be a dictionary. *)
Definition dget (d : dict) (k : string) (default : pyval) : pyval :=
  match dict_get k d with
  | Some v => v
  | None => default
  end.

(** *** Built-in operations *)

Definition truthy (v : pyval) : bool :=
  match v with
  | PNone => false
  | PBool b => b
  | PInt z => negb (z =? 0)%Z
  | PStr s => negb (String.eqb s "")
  | PList l => match l with [] => false | _ => true end
  | PDict d => match d with [] => false | _ => true end
  end.

Definition is_none (v : pyval) : bool :=
  match v with
  | PNone => true
  | _ => false
  end.

Definition py_type_name (v : pyval) : string :=
  match v with
  | PNone => "NoneType"
  | PBool _ => "bool"
  | PInt _ => "int"
  | PStr _ => "str"
  | PList _ => "list"
  | PDict _ => "dict"
  end.

Definition dec (z : Z) : string := NilZero.string_of_int (Z.to_int z).

(** [repr]; the quoting of a string is Python's for a text without quote
    or escape characters. *)
Fixpoint py_repr (v : pyval) : string :=
  match v with
  | PNone => "None"
  | PBool true => "True"
  | PBool false => "False"
  | PInt z => dec z
  | PStr s => "'" ++ s ++ "'"
  | PList l => "[" ++ String.concat ", " (map py_repr l) ++ "]"
  | PDict d =>
      "{" ++ String.concat ", "
               (map (fun kv => "'" ++ fst kv ++ "': " ++ py_repr (snd kv)) d) ++ "}"
  end.

(** What an f-string interpolates: [str(v)]. *)
Definition py_format (v : pyval) : string :=
  match v with
  | PStr s => s
  | _ => py_repr v
  end.

(** [v == s] for a string [s]. *)
Definition py_eq_str (v : pyval) (s : string) : bool :=
  match v with
  | PStr t => String.eqb t s
  | _ => false
  end.

Fixpoint chars (s : string) : list pyval :=
  match s with
  | EmptyString => []
  | String c rest => PStr (String c EmptyString) :: chars rest
  end.

(** [v[k]] with a string key. *)
Definition subscript (v : pyval) (k : string) : res pyval :=
  match v with
  | PDict d =>
      match dict_get k d with
      | Some x => inr x
      | None => inl (py_raise KeyError ("'" ++ k ++ "'"))
      end
  | PList _ => inl (py_raise TypeError "list indices must be integers or slices, not str")
  | PStr _ => inl (py_raise TypeError "string indices must be integers, not 'str'")
  | _ => inl (py_raise TypeError ("'" ++ py_type_name v ++ "' object is not subscriptable"))
  end.

(** [v.get(k, default)]: only dictionaries have the method. *)
Definition py_get (v : pyval) (k : string) (default : pyval) : res pyval :=
  match v with
  | PDict d => inr (dget d k default)
  | _ => inl (py_raise AttributeError
                ("'" ++ py_type_name v ++ "' object has no attribute 'get'"))
  end.

(** The items a [for] loop (or a comprehension) draws from [v]. *)
Definition py_iter (v : pyval) : res (list pyval) :=
  match v with
  | PList l => inr l
  | PDict d => inr (map (fun kv => PStr (fst kv)) d)
  | PStr s => inr (chars s)
  | _ => inl (py_raise TypeError ("'" ++ py_type_name v ++ "' object is not iterable"))
  end.

(** ['k' in v]. *)
Definition py_contains (k : string) (v : pyval) : res bool :=
  match v with
  | PDict d => inr (has_key k d)
  | PList l => inr (existsb (fun x => py_eq_str x k) l)
  | PStr s => inr (match index 0 k s with Some _ => true | None => false end)
  | _ => inl (py_raise TypeError
                ("argument of type '" ++ py_type_name v ++ "' is not iterable"))
  end.

(** [v[0]] on a truthy value. *)
Definition py_first (v : pyval) : res pyval :=
  match v with
  | PList (x :: _) => inr x
  | PList [] => inl (py_raise Exception "list index out of range")
  | PStr (String c _) => inr (PStr (String c EmptyString))
  | PStr EmptyString => inl (py_raise Exception "string index out of range")
  | PDict _ => inl (py_raise KeyError "0")
  | _ => inl (py_raise TypeError ("'" ++ py_type_name v ++ "' object is not subscriptable"))
  end.

Definition py_len (v : pyval) : res Z :=
  match v with
  | PList l => inr (Z.of_nat (List.length l))
  | PDict d => inr (Z.of_nat (List.length d))
  | PStr s => inr (Z.of_nat (String.length s))
  | _ => inl (py_raise TypeError
                ("object of type '" ++ py_type_name v ++ "' has no len()"))
  end.

(** [v[1:hi]] for [hi >= 1]. *)
Definition py_slice_from1 (v : pyval) (hi : Z) : res pyval :=
  match v with
  | PList l => inr (PList (firstn (Z.to_nat (hi - 1)) (skipn 1 l)))
  | PStr s => inr (PStr (substring 1 (Z.to_nat (hi - 1)) s))
  | PDict _ => inl (py_raise TypeError "unhashable type: 'slice'")
  | _ => inl (py_raise TypeError ("'" ++ py_type_name v ++ "' object is not subscriptable"))
  end.

Fixpoint all_str (l : list pyval) : res (list string) :=
  match l with
  | [] => inr []
  | PStr s :: rest => (ss <~ all_str rest ;; inr (s :: ss))%res
  | v :: _ =>
      inl (py_raise TypeError
             ("sequence item: expected str instance, " ++ py_type_name v ++ " found"))
  end.

(** [sep.join(v)]. *)
Definition py_join (sep : string) (v : pyval) : res string :=
  (items <~ py_iter v ;;
   ss <~ all_str items ;;
   inr (String.concat sep ss))%res.

(** ** Credentials, service handles and the session *)

Record creds : Type := mkCreds {
  cred_source : string;
  valid : bool;
  expired : bool;
  refresh_token : option string
}.

Record service : Type := mkService {
  svc_name : string;
  svc_version : string;
  svc_creds : creds
}.

Record SpreadsheetContext : Type := mkContext {
  sheets_service : option service;
  drive_service : option service;
  folder_id : option string;
  _authenticated : bool
}.

(** The module constants, read from the environment when the module loads;
    [DEFAULT_SPREADSHEET_ID] is what [os.environ.get] finds at call time. *)
Record config : Type := mkConfig {
  CREDENTIALS_CONFIG : option string;
  TOKEN_PATH : string;
  CREDENTIALS_PATH : string;
  SERVICE_ACCOUNT_PATH : string;
  DRIVE_FOLDER_ID : string;
  DEFAULT_SPREADSHEET_ID : option string
}.

Definition SCOPES : list string :=
  ["https://www.googleapis.com/auth/spreadsheets";
   "https://www.googleapis.com/auth/drive"].

(** ** Calls that leave the process *)

Inductive ext : Type -> Type :=
| FromServiceAccountInfo (info : pyval) (scopes : list string) : ext creds
| PathExists (path : string) : ext bool
| FromServiceAccountFile (path : string) (scopes : list string) : ext creds
| ReadJsonFile (path : string) : ext pyval
| FromAuthorizedUserInfo (info : pyval) (scopes : list string) : ext creds
| Refresh (c : creds) : ext creds
| FlowFromClientSecrets (path : string) (scopes : list string) : ext string
| RunLocalServer (flow : string) : ext creds
| WriteTextFile (path : string) (c : creds) : ext unit
| GoogleAuthDefault (scopes : list string) : ext (creds * pyval)
| Build (name version : string) (c : creds) : ext service
| Execute (svc : service) (method : string) (params : dict) : ext pyval.

Inductive event : Type :=
| Called {R : Type} (c : ext R).

Definition oracle (W : Type) : Type :=
  forall R : Type, ext R -> W -> res R * W.

(** ** The handler monad *)

Record state (W : Type) : Type := mkState {
  world : W;
  log : list event;
  session : SpreadsheetContext     (* ctx.request_context.lifespan_context *)
}.
Arguments mkState {W} _ _ _.
Arguments world {W} _.
Arguments log {W} _.
Arguments session {W} _.

Definition M (W A : Type) : Type := state W -> res A * state W.

Definition ret {W A} (a : A) : M W A := fun s => (inr a, s).

Definition raise {W A} (e : exn) : M W A := fun s => (inl e, s).

Definition bind {W A B} (m : M W A) (f : A -> M W B) : M W B :=
  fun s =>
    match m s with
    | (inl e, s') => (inl e, s')
    | (inr a, s') => f a s'
    end.

(** [try: m  except Exception as e: h e]. *)
Definition try_except {W A} (m : M W A) (h : exn -> M W A) : M W A :=
  fun s =>
    match m s with
    | (inl e, s') => h e s'
    | (inr a, s') => (inr a, s')
    end.

Definition lift {W A} (r : res A) : M W A := fun s => (r, s).

Definition get_session {W} : M W SpreadsheetContext :=
  fun s => (inr (session s), s).

Definition set_session {W} (f : SpreadsheetContext -> SpreadsheetContext) : M W unit :=
  fun s => (inr tt, mkState (world s) (log s) (f (session s))).

Declare Scope py_scope.
Delimit Scope py_scope with py.
Notation "x <- c1 ;; c2" := (bind c1 (fun x => c2))
  (at level 61, c1 at next level, right associativity) : py_scope.
Notation "c1 ;; c2" := (bind c1 (fun _ => c2))
  (at level 61, right associativity) : py_scope.

(** The lifespan context as [spreadsheet_lifespan] creates it. *)
Definition initial_context (cfg : config) : SpreadsheetContext :=
  mkContext None None
    (if String.eqb (DRIVE_FOLDER_ID cfg) "" then None else Some (DRIVE_FOLDER_ID cfg))
    false.

Definition nonempty (s : string) : bool := negb (String.eqb s "").

(** The first attribute looked up on a client handle: the text of
    [method] before its first dot. *)
Fixpoint head_attr (method : string) : string :=
  match method with
  | EmptyString => EmptyString
  | String c rest =>
      if Ascii.eqb c "."%char then EmptyString else String c (head_attr rest)
  end.

(** The request body of [add_rows] and [add_columns]; the two handlers
    write the same literal and differ in [dimension] only. *)
Definition insert_dimension_body
    (dimension : string) (sheet_id : pyval) (start : option Z) (count : Z) : pyval :=
  PDict [("requests", PList [
    PDict [("insertDimension", PDict [
      ("range", PDict [
         ("sheetId", sheet_id);
         ("dimension", PStr dimension);
         ("startIndex", PInt (match start with Some s => s | None => 0%Z end));
         ("endIndex", PInt ((match start with Some s => s | None => 0%Z end) + count))]);
      ("inheritFromBefore",
         PBool (match start with Some s => (0 <? s)%Z | None => false end))])]])].

(** [for s in sheets: if s['properties']['title'] == sheet:
       sheet_id = s['properties']['sheetId']; break], from [sheet_id = None]. *)
Fixpoint find_sheet_id (sheets : list pyval) (sheet : string) : res pyval :=
  match sheets with
  | [] => inr PNone
  | s :: rest =>
      (props <~ subscript s "properties" ;;
       title <~ subscript props "title" ;;
       if py_eq_str title sheet
       then (props' <~ subscript s "properties" ;; subscript props' "sheetId")
       else find_sheet_id rest sheet)%res
  end.

(** The loop of [get_sheet_properties], which returns from inside. *)
Fixpoint find_sheet_properties (sheets : list pyval) (sheet : string) : res (option pyval) :=
  match sheets with
  | [] => inr None
  | s :: rest =>
      (props <~ subscript s "properties" ;;
       title <~ subscript props "title" ;;
       if py_eq_str title sheet
       then (props' <~ subscript s "properties" ;; inr (Some props'))
       else find_sheet_properties rest sheet)%res
  end.

(** [[sheet.get('properties', {}).get('title', 'Sheet1') for sheet in sheets]]. *)
Fixpoint sheet_titles (sheets : list pyval) : res (list pyval) :=
  match sheets with
  | [] => inr []
  | sheet :: rest =>
      (props <~ py_get sheet "properties" (PDict []) ;;
       title <~ py_get props "title" (PStr "Sheet1") ;;
       titles <~ sheet_titles rest ;;
       inr (title :: titles))%res
  end.

(** [json.loads(v)]: a text is parsed, anything else is a [TypeError]. *)
Definition json_loads_value (json_loads : string -> res pyval) (v : pyval) : res pyval :=
  match v with
  | PStr s => json_loads s
  | _ => inl (py_raise TypeError
                ("the JSON object must be str, bytes or bytearray, not "
                   ++ py_type_name v))
  end.

Definition is_JSONDecodeError (e : exn) : bool :=
  match exn_kind e with
  | JSONDecodeError => true
  | _ => false
  end.

(** The [except] block of [share_spreadsheet] up to the append: the inner
    [try] guards [json.loads] and the two [.get] calls against
    [json.JSONDecodeError] only. *)
Definition share_error_details (json_loads : string -> res pyval) (e : exn) : res pyval :=
  let error_details := PStr (exn_str e) in
  match exn_content e with
  | None => inr error_details
  | Some content =>
      match (error_content <~ json_loads_value json_loads content ;;
             err <~ py_get error_content "error" (PDict []) ;;
             py_get err "message" error_details)%res with
      | inr details => inr details
      | inl e' => if is_JSONDecodeError e' then inr error_details else inl e'
      end
  end.

(** ** Concrete worlds

    A small backend used to run the handlers on explicit inputs: one
    spreadsheet with the sheets [Sheet1] (id 0) and [Data] (id 7), a Drive
    that refuses to move files and that rejects one recipient with a JSON
    error body. *)

Module Scenario.

Definition dq : string := String (ascii_of_nat 34) EmptyString.

(** The text [{"error": "forbidden"}]. *)
Definition error_body : string :=
  "{" ++ dq ++ "error" ++ dq ++ ": " ++ dq ++ "forbidden" ++ dq ++ "}".

(** [json.loads] on the texts the scenarios meet: [error_body] parses to a
    dictionary, the other one is not JSON. *)
Definition json_loads (text : string) : res pyval :=
  if String.eqb text error_body
  then inr (PDict [("error", PStr "forbidden")])
  else inl (mkExn JSONDecodeError "Expecting value: line 1 column 1 (char 0)" None).

Definition cfg_default : config :=
  mkConfig None "token.json" "credentials.json" "service_account.json" "" None.

(** Both an inline blob (which is not JSON) and a service-account file. *)
Definition cfg_inline_broken : config :=
  mkConfig (Some "not json") "token.json" "credentials.json" "service_account.json"
    "" None.

Definition file_creds : creds := mkCreds "service_account.json" true false None.
Definition adc_creds : creds := mkCreds "application-default" true false None.

Definition sheet_entry (title : string) (id : Z) : pyval :=
  PDict [("properties", PDict [("sheetId", PInt id); ("title", PStr title)])].

Definition spreadsheet_abc : pyval :=
  PDict [("spreadsheetId", PStr "abc");
         ("properties", PDict [("title", PStr "Budget")]);
         ("sheets", PList [sheet_entry "Sheet1" 0; sheet_entry "Data" 7])].

Definition created_reply : dict :=
  [("spreadsheetId", PStr "new-1");
   ("properties", PDict [("title", PStr "Plan")]);
   ("sheets", PList [PDict [("properties", PDict [("title", PStr "Sheet1")])]])].

Definition http_error (msg : string) (body : option string) : exn :=
  mkExn HttpError msg (option_map PStr body).

Definition backend (method : string) (params : dict) : res pyval :=
  if String.eqb method "spreadsheets.get" then inr spreadsheet_abc
  else if String.eqb method "spreadsheets.values.get" then
    if py_eq_str (dget params "range" PNone) "Sheet1!A1:B2"
    then inr (PDict [("range", PStr "Sheet1!A1:B2");
                     ("values", PList [PList [PStr "name"; PStr "qty"];
                                       PList [PStr "pen"; PStr "3"]])])
    else inl (http_error "Unable to parse range" None)
  else if String.eqb method "spreadsheets.create" then inr (PDict created_reply)
  else if String.eqb method "spreadsheets.batchUpdate" then
    inr (PDict [("spreadsheetId", dget params "spreadsheetId" PNone);
                ("replies", PList [PDict []])])
  else if String.eqb method "files.get" then
    inl (http_error "File not found" None)
  else if String.eqb method "permissions.create" then
    match dget params "body" PNone with
    | PDict permission =>
        if py_eq_str (dget permission "emailAddress" PNone) "blocked@example.com"
        then inl (http_error "HttpError 403" (Some error_body))
        else inr (PDict [("id", PStr "perm-1")])
    | _ => inl (http_error "Bad Request" None)
    end
  else inl (http_error "Not Found" None).

(** The outside world: the files in [files] exist, the ambient default
    credentials are there when [adc] holds, no browser can be opened.  The
    world state counts the calls. *)
Definition remote (files : list string) (adc : bool) : oracle nat :=
  fun R c w =>
    (match c in ext R return res R with
     | FromServiceAccountInfo _ _ => inr (mkCreds "inline" true false None)
     | PathExists path => inr (existsb (String.eqb path) files)
     | FromServiceAccountFile path _ => inr (mkCreds path true false None)
     | ReadJsonFile _ => inr (PDict [])
     | FromAuthorizedUserInfo _ _ => inr (mkCreds "stored" true false None)
     | Refresh c => inr c
     | FlowFromClientSecrets _ _ => inl (py_raise Exception "No such file or directory")
     | RunLocalServer _ => inl (py_raise Exception "could not locate runnable browser")
     | WriteTextFile _ _ => inr tt
     | GoogleAuthDefault _ =>
         if adc then inr (adc_creds, PNone)
         else inl (py_raise Exception "Your default credentials were not found.")
     | Build name version c => inr (mkService name version c)
     | Execute _ method params => backend method params
     end, S w).

(** With a service-account file and ambient credentials. *)
Definition online : oracle nat := remote ["service_account.json"] true.

(** Nothing to authenticate with. *)
Definition offline : oracle nat := remote [] false.

Definition sheets_handle : service := mkService "sheets" "v4" file_creds.
Definition drive_handle : service := mkService "drive" "v3" file_creds.

Definition fresh : state nat := mkState 0%nat [] (initial_context cfg_default).

Definition authenticated : state nat :=
  mkState 0%nat [] (mkContext (Some sheets_handle) (Some drive_handle) None true).

Definition authenticated_in_folder : state nat :=
  mkState 0%nat []
    (mkContext (Some sheets_handle) (Some drive_handle) (Some "folder-1") true).

Definition query_ok : dict :=
  [("spreadsheet_id", PStr "abc"); ("sheet", PStr "Sheet1"); ("range", PStr "A1:B2")].

Definition query_bad_range : dict :=
  [("spreadsheet_id", PStr "abc"); ("sheet", PStr "Sheet1"); ("range", PStr "ZZ")].

Definition query_no_id : dict :=
  [("sheet", PStr "Sheet1"); ("range", PStr "A1:B2")].

(** A well-formed query that happens to carry a key named [error]. *)
Definition query_with_error_key : dict :=
  [("spreadsheet_id", PStr "abc"); ("sheet", PStr "Sheet1"); ("range", PStr "A1:B2");
   ("error", PStr "none so far")].

Definition recipient_ok : dict :=
  [("email_address", PStr "ann@example.com"); ("role", PStr "reader")].

Definition recipient_blocked : dict :=
  [("email_address", PStr "blocked@example.com"); ("role", PStr "writer")].

Definition recipient_no_email : dict := [("role", PStr "reader")].

(** *** A second backend *)

(** [json.loads] that also reads the blob [{}]. *)
Definition json_loads_inline (text : string) : res pyval :=
  if String.eqb text "{}" then inr (PDict []) else json_loads text.

(** An inline blob next to a service-account file. *)
Definition cfg_inline : config :=
  mkConfig (Some "{}") "token.json" "credentials.json" "service_account.json" "" None.

Definition cfg_with_default : config :=
  mkConfig None "token.json" "credentials.json" "service_account.json" "" (Some "abc").

(** A backend that also copies sheets, adds sheets and lists files. *)
Definition desk_backend (method : string) (params : dict) : res pyval :=
  if String.eqb method "spreadsheets.sheets.copyTo" then
    inr (PDict [("sheetId", PInt 99); ("title", PStr "Copy of Data")])
  else if String.eqb method "spreadsheets.batchUpdate" then
    inr (PDict [("spreadsheetId", dget params "spreadsheetId" PNone);
                ("replies",
                 PList [PDict [("addSheet",
                                PDict [("properties",
                                        PDict [("sheetId", PInt 12);
                                               ("title", PStr "Notes")])])]])])
  else if String.eqb method "files.list" then
    inr (PDict [("files",
                 PList [PDict [("id", PStr "f1"); ("name", PStr "Budget")];
                        PDict [("id", PStr "f2"); ("name", PStr "Plan")]])])
  else if String.eqb method "spreadsheets.values.get" then
    if py_eq_str (dget params "range" PNone) "Sheet1!A1:2"
    then inr (PDict [("values", PList [PList [PStr "name"; PStr "qty"];
                                       PList [PStr "pen"; PStr "3"];
                                       PList [PStr "ink"; PStr "1"]])])
    else backend method params
  else backend method params.

(** The outside world with a stored token whose credentials are [stored]
    and a refresh that makes them valid. *)
Definition world_with (files : list string) (adc : bool) (stored : creds)
    (answer : string -> dict -> res pyval) : oracle nat :=
  fun R c w =>
    (match c in ext R return res R with
     | FromServiceAccountInfo _ _ => inr (mkCreds "inline" true false None)
     | PathExists path => inr (existsb (String.eqb path) files)
     | FromServiceAccountFile path _ => inr (mkCreds path true false None)
     | ReadJsonFile _ => inr (PDict [])
     | FromAuthorizedUserInfo _ _ => inr stored
     | Refresh c => inr (mkCreds (cred_source c) true false (refresh_token c))
     | FlowFromClientSecrets _ _ => inl (py_raise Exception "No such file or directory")
     | RunLocalServer _ => inl (py_raise Exception "could not locate runnable browser")
     | WriteTextFile _ _ => inr tt
     | GoogleAuthDefault _ =>
         if adc then inr (adc_creds, PNone)
         else inl (py_raise Exception "Your default credentials were not found.")
     | Build name version c => inr (mkService name version c)
     | Execute _ method params => answer method params
     end, S w).

Definition desk : oracle nat :=
  world_with ["service_account.json"] true (mkCreds "stored" true false None)
    desk_backend.

Definition stale_creds : creds := mkCreds "stored" false true (Some "1//0g").

(** Only a stored token, which has expired and can be refreshed. *)
Definition stale : oracle nat := world_with ["token.json"] false stale_creds backend.

Definition valid_creds : creds := mkCreds "stored" true false (Some "1//0g").

(** Only a stored token, still valid. *)
Definition stored_only : oracle nat := world_with ["token.json"] false valid_creds backend.

(** Only the ambient default credentials. *)
Definition ambient_only : oracle nat := remote [] true.

Definition recipient_owner : dict :=
  [("email_address", PStr "eve@example.com"); ("role", PStr "owner")].

Definition recipient_no_role : dict := [("email_address", PStr "joe@example.com")].

Definition ranges_two : dict :=
  [("A1:B1", PList [PList [PInt 1; PInt 2]]); ("D4", PList [PList [PStr "x"]])].

(** A backend that refuses every request. *)
Definition down_backend (method : string) (params : dict) : res pyval :=
  inl (http_error "The service is currently unavailable." None).

Definition down : oracle nat :=
  world_with ["service_account.json"] true (mkCreds "stored" true false None)
    down_backend.

End Scenario.

Section Server.

Context {W : Type}.
Variable run : oracle W.
Variable json_loads : string -> res pyval.   (* json.loads on a text *)
Variable cfg : config.

Local Open Scope py_scope.

(** One call to the outside: the oracle answers, the call is logged. *)
Definition call {R : Type} (c : ext R) : M W R :=
  fun s =>
    let (r, w') := run R c (world s) in
    (r, mkState w' (log s ++ [Called c])%list (session s)).

(** A request through a client handle, [svc.a().b(k=v, ...).execute()];
    the handle is [None] until the session is authenticated. *)
Definition api (svc : option service) (method : string) (params : dict) : M W pyval :=
  match svc with
  | None =>
      raise (py_raise AttributeError
               ("'NoneType' object has no attribute '" ++ head_attr method ++ "'"))
  | Some h => call (Execute h method params)
  end.

(** *** authenticate_google_services *)

(** The interactive consent flow, guarded as a whole. *)
Definition installed_app_flow : M W (option creds) :=
  try_except
    (flow <- call (FlowFromClientSecrets (CREDENTIALS_PATH cfg) SCOPES) ;;
     c <- call (RunLocalServer flow) ;;
     call (WriteTextFile (TOKEN_PATH cfg) c) ;;
     ret (Some c))
    (fun _ => ret None).

(** The block under "Fall back to OAuth flow". *)
Definition oauth_flow : M W (option creds) :=
  found <- call (PathExists (TOKEN_PATH cfg)) ;;
  stored <- (if found : bool
             then info <- call (ReadJsonFile (TOKEN_PATH cfg)) ;;
                  c <- call (FromAuthorizedUserInfo info SCOPES) ;;
                  ret (Some c)
             else ret None) ;;
  match stored with
  | Some c =>
      if valid c then ret (Some c)
      else if expired c && match refresh_token c with
                           | Some t => nonempty t
                           | None => false
                           end
           then c' <- call (Refresh c) ;; ret (Some c')
           else installed_app_flow
  | None => installed_app_flow
  end.

Definition all_methods_failed : exn :=
  py_raise Exception "All authentication methods failed. Please configure credentials.".

Definition authenticate_google_services : M W (service * service) :=
  inline <- match CREDENTIALS_CONFIG cfg with
            | Some blob =>
                if nonempty blob
                then info <- lift (json_loads blob) ;;
                     c <- call (FromServiceAccountInfo info SCOPES) ;;
                     ret (Some c)
                else ret None
            | None => ret None
            end ;;
  from_file <- match inline with
               | Some c => ret (Some c)
               | None =>
                   if nonempty (SERVICE_ACCOUNT_PATH cfg)
                   then found <- call (PathExists (SERVICE_ACCOUNT_PATH cfg)) ;;
                        if found : bool
                        then try_except
                               (c <- call (FromServiceAccountFile
                                             (SERVICE_ACCOUNT_PATH cfg) SCOPES) ;;
                                ret (Some c))
                               (fun _ => ret None)
                        else ret None
                   else ret None
               end ;;
  from_oauth <- match from_file with
                | Some c => ret (Some c)
                | None => oauth_flow
                end ;;
  creds <- match from_oauth with
           | Some c => ret c
           | None =>
               try_except
                 (found <- call (GoogleAuthDefault SCOPES) ;; ret (fst found))
                 (fun _ => raise all_methods_failed)
           end ;;
  sheets <- call (Build "sheets" "v4" creds) ;;
  drive <- call (Build "drive" "v3" creds) ;;
  ret (sheets, drive).

(** *** ensure_authenticated *)

Definition ensure_authenticated : M W SpreadsheetContext :=
  lifespan_context <- get_session ;;
  (if negb (_authenticated lifespan_context)
   then try_except
          (services <- authenticate_google_services ;;
           set_session (fun c => mkContext (Some (fst services)) (drive_service c)
                                   (folder_id c) (_authenticated c)) ;;
           set_session (fun c => mkContext (sheets_service c) (Some (snd services))
                                   (folder_id c) (_authenticated c)) ;;
           set_session (fun c => mkContext (sheets_service c) (drive_service c)
                                   (folder_id c) true))
          (fun e => raise (py_raise Exception ("Authentication failed: " ++ exn_str e)))
   else ret tt) ;;
  get_session.

Definition get_spreadsheet_id (spreadsheet_id : option string) : M W string :=
  match spreadsheet_id with
  | Some sid => ret sid
  | None =>
      let sid := match DEFAULT_SPREADSHEET_ID cfg with Some d => d | None => "" end in
      if nonempty sid then ret sid
      else raise (py_raise ValueError
                    "spreadsheet_id is required. Either provide it as a parameter or set DEFAULT_SPREADSHEET_ID environment variable.")
  end.

(** *** Single-sheet handlers *)

(** [if range: f"{sheet}!{range}" else: sheet], as [get_sheet_data],
    [get_sheet_formulas] and [clear_sheet_data] each write it. *)
Definition full_range (sheet : string) (range : option string) : string :=
  match range with
  | Some r => if nonempty r then sheet ++ "!" ++ r else sheet
  | None => sheet
  end.

Definition get_sheet_data (sheet : string) (spreadsheet_id : option string)
    (range : option string) : M W pyval :=
  sid <- get_spreadsheet_id spreadsheet_id ;;
  lifespan_context <- ensure_authenticated ;;
  api (sheets_service lifespan_context) "spreadsheets.get"
    [("spreadsheetId", PStr sid);
     ("ranges", PList [PStr (full_range sheet range)]);
     ("includeGridData", PBool true)].

Definition get_sheet_formulas (sheet : string) (spreadsheet_id : option string)
    (range : option string) : M W pyval :=
  sid <- get_spreadsheet_id spreadsheet_id ;;
  lifespan_context <- ensure_authenticated ;;
  result <- api (sheets_service lifespan_context) "spreadsheets.values.get"
              [("spreadsheetId", PStr sid);
               ("range", PStr (full_range sheet range));
               ("valueRenderOption", PStr "FORMULA")] ;;
  lift (py_get result "values" (PList [])).

Definition clear_sheet_data (sheet : string) (spreadsheet_id : option string)
    (range : option string) : M W pyval :=
  sid <- get_spreadsheet_id spreadsheet_id ;;
  lifespan_context <- ensure_authenticated ;;
  api (sheets_service lifespan_context) "spreadsheets.values.clear"
    [("spreadsheetId", PStr sid);
     ("range", PStr (full_range sheet range));
     ("body", PDict [])].

Definition not_found (sheet : string) : pyval :=
  PDict [("error", PStr ("Sheet '" ++ sheet ++ "' not found"))].

(** "Get sheet ID": the listing and the search shared by [add_rows],
    [add_columns], [rename_sheet] and [delete_sheet]. *)
Definition lookup_sheet_id (svc : option service) (sid sheet : string) : M W pyval :=
  spreadsheet <- api svc "spreadsheets.get" [("spreadsheetId", PStr sid)] ;;
  sheets <- lift (subscript spreadsheet "sheets") ;;
  items <- lift (py_iter sheets) ;;
  lift (find_sheet_id items sheet).

Definition add_rows (sheet : string) (count : Z) (spreadsheet_id : option string)
    (start_row : option Z) : M W pyval :=
  sid <- get_spreadsheet_id spreadsheet_id ;;
  lifespan_context <- ensure_authenticated ;;
  sheet_id <- lookup_sheet_id (sheets_service lifespan_context) sid sheet ;;
  if is_none sheet_id then ret (not_found sheet)
  else api (sheets_service lifespan_context) "spreadsheets.batchUpdate"
         [("spreadsheetId", PStr sid);
          ("body", insert_dimension_body "ROWS" sheet_id start_row count)].

Definition add_columns (sheet : string) (count : Z) (spreadsheet_id : option string)
    (start_column : option Z) : M W pyval :=
  sid <- get_spreadsheet_id spreadsheet_id ;;
  lifespan_context <- ensure_authenticated ;;
  sheet_id <- lookup_sheet_id (sheets_service lifespan_context) sid sheet ;;
  if is_none sheet_id then ret (not_found sheet)
  else api (sheets_service lifespan_context) "spreadsheets.batchUpdate"
         [("spreadsheetId", PStr sid);
          ("body", insert_dimension_body "COLUMNS" sheet_id start_column count)].

Definition rename_sheet (spreadsheet sheet new_name : string) : M W pyval :=
  lifespan_context <- ensure_authenticated ;;
  sheet_id <- lookup_sheet_id (sheets_service lifespan_context) spreadsheet sheet ;;
  if is_none sheet_id then ret (not_found sheet)
  else api (sheets_service lifespan_context) "spreadsheets.batchUpdate"
         [("spreadsheetId", PStr spreadsheet);
          ("body", PDict [("requests", PList [
             PDict [("updateSheetProperties", PDict [
               ("properties", PDict [("sheetId", sheet_id); ("title", PStr new_name)]);
               ("fields", PStr "title")])]])])].

Definition delete_sheet (sheet : string) (spreadsheet_id : option string) : M W pyval :=
  sid <- get_spreadsheet_id spreadsheet_id ;;
  lifespan_context <- ensure_authenticated ;;
  sheet_id <- lookup_sheet_id (sheets_service lifespan_context) sid sheet ;;
  if is_none sheet_id then ret (not_found sheet)
  else api (sheets_service lifespan_context) "spreadsheets.batchUpdate"
         [("spreadsheetId", PStr sid);
          ("body", PDict [("requests", PList [
             PDict [("deleteSheet", PDict [("sheetId", sheet_id)])]])])].

Definition copy_sheet (src_spreadsheet src_sheet dst_spreadsheet dst_sheet : string)
    : M W pyval :=
  lifespan_context <- ensure_authenticated ;;
  let sheets_service := sheets_service lifespan_context in
  src_sheet_id <- lookup_sheet_id sheets_service src_spreadsheet src_sheet ;;
  if is_none src_sheet_id
  then ret (PDict [("error", PStr ("Source sheet '" ++ src_sheet ++ "' not found"))])
  else
    copy_result <- api sheets_service "spreadsheets.sheets.copyTo"
                     [("spreadsheetId", PStr src_spreadsheet);
                      ("sheetId", src_sheet_id);
                      ("body", PDict [("destinationSpreadsheetId",
                                       PStr dst_spreadsheet)])] ;;
    has_title <- lift (py_contains "title" copy_result) ;;
    renamed <- (if has_title : bool
                then title <- lift (subscript copy_result "title") ;;
                     ret (negb (py_eq_str title dst_sheet))
                else ret false) ;;
    if renamed : bool
    then
      copy_sheet_id <- lift (subscript copy_result "sheetId") ;;
      rename_result <- api sheets_service "spreadsheets.batchUpdate"
                         [("spreadsheetId", PStr dst_spreadsheet);
                          ("body", PDict [("requests", PList [
                             PDict [("updateSheetProperties", PDict [
                               ("properties", PDict [("sheetId", copy_sheet_id);
                                                     ("title", PStr dst_sheet)]);
                               ("fields", PStr "title")])]])])] ;;
      ret (PDict [("copy", copy_result); ("rename", rename_result)])
    else ret (PDict [("copy", copy_result)]).

Definition get_sheet_properties (sheet : string) (spreadsheet_id : option string)
    : M W pyval :=
  sid <- get_spreadsheet_id spreadsheet_id ;;
  lifespan_context <- ensure_authenticated ;;
  spreadsheet <- api (sheets_service lifespan_context) "spreadsheets.get"
                   [("spreadsheetId", PStr sid);
                    ("ranges", PList [PStr sheet]);
                    ("fields", PStr "sheets(properties,data)")] ;;
  sheets <- lift (py_get spreadsheet "sheets" (PList [])) ;;
  items <- lift (py_iter sheets) ;;
  found <- lift (find_sheet_properties items sheet) ;;
  match found with
  | Some props => ret props
  | None => ret (not_found sheet)
  end.

(** *** Multi-item handlers *)

(** The body of the loop of [get_multiple_sheet_data]: the entry that one
    query appends to [results]. *)
Definition query_step (sheets_service : option service) (query : dict) : M W pyval :=
  let spreadsheet_id := dget query "spreadsheet_id" PNone in
  let sheet := dget query "sheet" PNone in
  let range_str := dget query "range" PNone in
  if negb (forallb truthy [spreadsheet_id; sheet; range_str])
  then ret (PDict (dict_set "error"
                     (PStr "Missing required keys (spreadsheet_id, sheet, range)") query))
  else
    try_except
      (let full_range := py_format sheet ++ "!" ++ py_format range_str in
       result <- api sheets_service "spreadsheets.values.get"
                   [("spreadsheetId", spreadsheet_id); ("range", PStr full_range)] ;;
       values <- lift (py_get result "values" (PList [])) ;;
       ret (PDict (dict_set "data" values query)))
      (fun e => ret (PDict (dict_set "error" (PStr (exn_str e)) query))).

Fixpoint query_loop (sheets_service : option service) (queries : list dict)
    (results : list pyval) : M W (list pyval) :=
  match queries with
  | [] => ret results
  | query :: rest =>
      entry <- query_step sheets_service query ;;
      query_loop sheets_service rest (results ++ [entry])%list
  end.

Definition get_multiple_sheet_data (queries : list dict) : M W pyval :=
  lifespan_context <- ensure_authenticated ;;
  results <- query_loop (sheets_service lifespan_context) queries [] ;;
  ret (PList results).

(** The body of the inner loop of [get_multiple_spreadsheet_summary].
    Inside the [try], [headers] is assigned before [len] and the slice are
    taken; on the values of [pyval] a value that has a first item also
    has a length and a slice, so no raise follows that assignment. *)
Definition sheet_summary_step (sheets_service : option service) (spreadsheet_id : string)
    (rows_to_fetch : Z) (sheet : pyval) : M W pyval :=
  props <- lift (py_get sheet "properties" (PDict [])) ;;
  sheet_title <- lift (py_get props "title" PNone) ;;
  props' <- lift (py_get sheet "properties" (PDict [])) ;;
  sheet_id <- lift (py_get props' "sheetId" PNone) ;;
  let sheet_summary :=
    [("title", sheet_title); ("sheet_id", sheet_id); ("headers", PList []);
     ("first_rows", PList []); ("error", PNone)] in
  if negb (truthy sheet_title)
  then ret (PDict (dict_set "error" (PStr "Sheet title not found") sheet_summary))
  else
    try_except
      (let max_row := Z.max 1 rows_to_fetch in
       let range_to_get := py_format sheet_title ++ "!A1:" ++ dec max_row in
       result <- api sheets_service "spreadsheets.values.get"
                   [("spreadsheetId", PStr spreadsheet_id);
                    ("range", PStr range_to_get)] ;;
       values <- lift (py_get result "values" (PList [])) ;;
       if truthy values
       then
         headers <- lift (py_first values) ;;
         n <- lift (py_len values) ;;
         if (1 <? n)%Z
         then first_rows <- lift (py_slice_from1 values max_row) ;;
              ret (PDict (dict_set "first_rows" first_rows
                            (dict_set "headers" headers sheet_summary)))
         else ret (PDict (dict_set "headers" headers sheet_summary))
       else ret (PDict (dict_set "first_rows" (PList [])
                          (dict_set "headers" (PList []) sheet_summary))))
      (fun sheet_e =>
         ret (PDict (dict_set "error"
                       (PStr ("Error fetching data for sheet "
                                ++ py_format sheet_title ++ ": " ++ exn_str sheet_e))
                       sheet_summary))).

Fixpoint sheet_summary_loop (sheets_service : option service) (spreadsheet_id : string)
    (rows_to_fetch : Z) (sheets : list pyval) (sheet_summaries : list pyval)
    : M W (list pyval) :=
  match sheets with
  | [] => ret sheet_summaries
  | sheet :: rest =>
      sheet_summary <- sheet_summary_step sheets_service spreadsheet_id
                         rows_to_fetch sheet ;;
      sheet_summary_loop sheets_service spreadsheet_id rows_to_fetch rest
        (sheet_summaries ++ [sheet_summary])%list
  end.

(** The body of the outer loop.  The one Python [try] is written as two
    nested ones with the same handler: a raise before the title is stored
    leaves [title] at [None], a later one keeps the stored title. *)
Definition summary_step (sheets_service : option service) (rows_to_fetch : Z)
    (spreadsheet_id : string) : M W pyval :=
  let summary_data :=
    [("spreadsheet_id", PStr spreadsheet_id); ("title", PNone);
     ("sheets", PList []); ("error", PNone)] in
  let failed (data : dict) (e : exn) : M W pyval :=
    ret (PDict (dict_set "error"
                  (PStr ("Error fetching spreadsheet " ++ spreadsheet_id ++ ": "
                           ++ exn_str e)) data)) in
  try_except
    (spreadsheet <- api sheets_service "spreadsheets.get"
                      [("spreadsheetId", PStr spreadsheet_id);
                       ("fields",
                        PStr "properties.title,sheets(properties(title,sheetId))")] ;;
     props <- lift (py_get spreadsheet "properties" (PDict [])) ;;
     title <- lift (py_get props "title" (PStr "Unknown Title")) ;;
     let summary_data := dict_set "title" title summary_data in
     try_except
       (sheets <- lift (py_get spreadsheet "sheets" (PList [])) ;;
        items <- lift (py_iter sheets) ;;
        sheet_summaries <- sheet_summary_loop sheets_service spreadsheet_id
                             rows_to_fetch items [] ;;
        ret (PDict (dict_set "sheets" (PList sheet_summaries) summary_data)))
       (failed summary_data))
    (failed summary_data).

Fixpoint summary_loop (sheets_service : option service) (rows_to_fetch : Z)
    (spreadsheet_ids : list string) (summaries : list pyval) : M W (list pyval) :=
  match spreadsheet_ids with
  | [] => ret summaries
  | spreadsheet_id :: rest =>
      summary_data <- summary_step sheets_service rows_to_fetch spreadsheet_id ;;
      summary_loop sheets_service rows_to_fetch rest (summaries ++ [summary_data])%list
  end.

Definition get_multiple_spreadsheet_summary (spreadsheet_ids : list string)
    (rows_to_fetch : Z) : M W pyval :=
  lifespan_context <- ensure_authenticated ;;
  summaries <- summary_loop (sheets_service lifespan_context) rows_to_fetch
                 spreadsheet_ids [] ;;
  ret (PList summaries).

(** The body of the loop of [share_spreadsheet]: the two lists after one
    recipient. *)
Definition share_step (drive_service : option service) (spreadsheet_id : string)
    (send_notification : bool) (recipient : dict)
    (successes failures : list pyval) : M W (list pyval * list pyval) :=
  let email_address := dget recipient "email_address" PNone in
  let role := dget recipient "role" (PStr "writer") in
  if negb (truthy email_address)
  then ret (successes,
            (failures ++ [PDict [("email_address", PNone);
                                 ("error", PStr "Missing email_address in recipient entry.")]])%list)
  else if negb (existsb (py_eq_str role) ["reader"; "commenter"; "writer"])
  then ret (successes,
            (failures ++ [PDict [("email_address", email_address);
                                 ("error", PStr ("Invalid role '" ++ py_format role
                                     ++ "'. Must be 'reader', 'commenter', or 'writer'."))]])%list)
  else
    let permission :=
      PDict [("type", PStr "user"); ("role", role); ("emailAddress", email_address)] in
    try_except
      (result <- api drive_service "permissions.create"
                   [("fileId", PStr spreadsheet_id); ("body", permission);
                    ("sendNotificationEmail", PBool send_notification);
                    ("fields", PStr "id")] ;;
       permission_id <- lift (py_get result "id" PNone) ;;
       ret ((successes ++ [PDict [("email_address", email_address); ("role", role);
                                  ("permissionId", permission_id)]])%list,
            failures))
      (fun e =>
         error_details <- lift (share_error_details json_loads e) ;;
         ret (successes,
              (failures ++ [PDict [("email_address", email_address);
                                   ("error", PStr ("Failed to share: "
                                                     ++ py_format error_details))]])%list)).

Fixpoint share_loop (drive_service : option service) (spreadsheet_id : string)
    (send_notification : bool) (recipients : list dict)
    (successes failures : list pyval) : M W (list pyval * list pyval) :=
  match recipients with
  | [] => ret (successes, failures)
  | recipient :: rest =>
      lists <- share_step drive_service spreadsheet_id send_notification recipient
                 successes failures ;;
      share_loop drive_service spreadsheet_id send_notification rest
        (fst lists) (snd lists)
  end.

Definition share_spreadsheet (recipients : list dict) (spreadsheet_id : option string)
    (send_notification : bool) : M W pyval :=
  sid <- get_spreadsheet_id spreadsheet_id ;;
  lifespan_context <- ensure_authenticated ;;
  lists <- share_loop (drive_service lifespan_context) sid send_notification
             recipients [] [] ;;
  ret (PDict [("successes", PList (fst lists)); ("failures", PList (snd lists))]).

(** *** create_spreadsheet *)

(** The [try] block that moves the new file into the working folder. *)
Definition move_to_folder (drive_service : option service) (spreadsheet_id : pyval)
    (folder : string) : M W unit :=
  try_except
    (file <- api drive_service "files.get"
               [("fileId", spreadsheet_id); ("fields", PStr "parents")] ;;
     parents <- lift (py_get file "parents" (PList [])) ;;
     previous_parents <- lift (py_join "," parents) ;;
     api drive_service "files.update"
       [("fileId", spreadsheet_id); ("addParents", PStr folder);
        ("removeParents", PStr previous_parents); ("fields", PStr "id, parents")] ;;
     ret tt)
    (fun _ => ret tt).

(** The dictionary the handler returns, read off the reply of the create
    call. *)
Definition created_summary (title : string) (folder : option string)
    (spreadsheet spreadsheet_id : pyval) : res pyval :=
  (props <~ py_get spreadsheet "properties" (PDict []) ;;
   shown <~ py_get props "title" (PStr title) ;;
   sheets <~ py_get spreadsheet "sheets" (PList []) ;;
   items <~ py_iter sheets ;;
   titles <~ sheet_titles items ;;
   inr (PDict [("spreadsheetId", spreadsheet_id);
               ("title", shown);
               ("sheets", PList titles);
               ("folder", PStr (match folder with
                                | Some f => if nonempty f then f else "root"
                                | None => "root"
                                end))]))%res.

Definition create_spreadsheet (title : string) : M W pyval :=
  lifespan_context <- ensure_authenticated ;;
  let folder := folder_id lifespan_context in
  spreadsheet <- api (sheets_service lifespan_context) "spreadsheets.create"
                   [("body", PDict [("properties", PDict [("title", PStr title)])]);
                    ("fields", PStr "spreadsheetId,properties,sheets")] ;;
  spreadsheet_id <- lift (py_get spreadsheet "spreadsheetId" PNone) ;;
  match folder with
  | Some f => if nonempty f
              then move_to_folder (drive_service lifespan_context) spreadsheet_id f
              else ret tt
  | None => ret tt
  end ;;
  lift (created_summary title folder spreadsheet spreadsheet_id).

(** *** Observations used in the statements *)

(** A computation that never writes the session. *)
Definition keeps_session {A : Type} (m : M W A) : Prop :=
  forall s, session (snd (m s)) = session s.

(** [body["requests"][0]["insertDimension"]] of a one-request body. *)
Definition insert_dimension_of (body : pyval) : option dict :=
  match body with
  | PDict d =>
      match dict_get "requests" d with
      | Some (PList [PDict request]) =>
          match dict_get "insertDimension" request with
          | Some (PDict i) => Some i
          | _ => None
          end
      | _ => None
      end
  | _ => None
  end.

Definition range_field (body : pyval) (k : string) : option pyval :=
  match insert_dimension_of body with
  | Some i =>
      match dict_get "range" i with
      | Some (PDict r) => dict_get k r
      | _ => None
      end
  | None => None
  end.

Definition inherit_from_before (body : pyval) : option pyval :=
  match insert_dimension_of body with
  | Some i => dict_get "inheritFromBefore" i
  | None => None
  end.

(** The key [k] is present in the entry [v]. *)
Definition carries (k : string) (v : pyval) : bool :=
  match v with
  | PDict d => has_key k d
  | _ => false
  end.

(** The value under [k] in the entry [v]. *)
Definition field (k : string) (v : pyval) : option pyval :=
  match v with
  | PDict d => dict_get k d
  | _ => None
  end.

(** The item has no usable value under [k]: the key is absent or its
    value is empty. *)
Definition lacks (item : dict) (k : string) : Prop :=
  truthy (dget item k PNone) = false.

(** The reply of a metadata listing names its sheets and none of them is
    titled [sheet]. *)
Definition lists_no_sheet (spreadsheet : pyval) (sheet : string) : Prop :=
  exists sheets,
    subscript spreadsheet "sheets" = inr (PList sheets) /\
    Forall (fun s => exists props title,
              subscript s "properties" = inr props /\
              subscript props "title" = inr title /\
              py_eq_str title sheet = false) sheets.

(** The calls to [method] among the logged events. *)
Definition calls_to (method : string) (events : list event) : list event :=
  filter (fun ev =>
            match ev with
            | Called (Execute _ m _) => String.eqb m method
            | Called _ => false
            end) events.

(** *** Writing handlers *)

Definition update_cells (sheet range : string) (data : pyval)
    (spreadsheet_id : option string) : M W pyval :=
  sid <- get_spreadsheet_id spreadsheet_id ;;
  lifespan_context <- ensure_authenticated ;;
  let full_range := sheet ++ "!" ++ range in
  api (sheets_service lifespan_context) "spreadsheets.values.update"
    [("spreadsheetId", PStr sid);
     ("range", PStr full_range);
     ("valueInputOption", PStr "USER_ENTERED");
     ("body", PDict [("values", data)])].

(** [for range_str, values in ranges.items(): data.append({...})]. *)
Fixpoint batch_data (sheet : string) (ranges : dict) (data : list pyval) : list pyval :=
  match ranges with
  | [] => data
  | (range_str, values) :: rest =>
      batch_data sheet rest
        (data ++ [PDict [("range", PStr (sheet ++ "!" ++ range_str));
                         ("values", values)]])%list
  end.

(** This handler authenticates before it resolves the spreadsheet id. *)
Definition batch_update_cells (sheet : string) (ranges : dict)
    (spreadsheet_id : option string) : M W pyval :=
  lifespan_context <- ensure_authenticated ;;
  sid <- get_spreadsheet_id spreadsheet_id ;;
  api (sheets_service lifespan_context) "spreadsheets.values.batchUpdate"
    [("spreadsheetId", PStr sid);
     ("body", PDict [("valueInputOption", PStr "USER_ENTERED");
                     ("data", PList (batch_data sheet ranges []))])].

Definition append_rows (sheet : string) (data : pyval)
    (spreadsheet_id : option string) : M W pyval :=
  sid <- get_spreadsheet_id spreadsheet_id ;;
  lifespan_context <- ensure_authenticated ;;
  let full_range := sheet ++ "!A:A" in
  api (sheets_service lifespan_context) "spreadsheets.values.append"
    [("spreadsheetId", PStr sid);
     ("range", PStr full_range);
     ("valueInputOption", PStr "USER_ENTERED");
     ("insertDataOption", PStr "INSERT_ROWS");
     ("body", PDict [("values", data)])].

(** *** Listing and creating sheets *)

(** [[sheet['properties']['title'] for sheet in sheets]]. *)
Fixpoint titles_of (sheets : list pyval) : res (list pyval) :=
  match sheets with
  | [] => inr []
  | sheet :: rest =>
      (props <~ subscript sheet "properties" ;;
       title <~ subscript props "title" ;;
       titles <~ titles_of rest ;;
       inr (title :: titles))%res
  end.

Definition list_sheets (spreadsheet_id : option string) : M W pyval :=
  sid <- get_spreadsheet_id spreadsheet_id ;;
  lifespan_context <- ensure_authenticated ;;
  spreadsheet <- api (sheets_service lifespan_context) "spreadsheets.get"
                   [("spreadsheetId", PStr sid)] ;;
  sheets <- lift (subscript spreadsheet "sheets") ;;
  items <- lift (py_iter sheets) ;;
  sheet_names <- lift (titles_of items) ;;
  ret (PList sheet_names).

Definition create_sheet (title : string) (spreadsheet_id : option string) : M W pyval :=
  sid <- get_spreadsheet_id spreadsheet_id ;;
  lifespan_context <- ensure_authenticated ;;
  result <- api (sheets_service lifespan_context) "spreadsheets.batchUpdate"
              [("spreadsheetId", PStr sid);
               ("body", PDict [("requests", PList [
                  PDict [("addSheet", PDict [
                    ("properties", PDict [("title", PStr title)])])]])])] ;;
  replies <- lift (subscript result "replies") ;;
  reply <- lift (py_first replies) ;;
  added <- lift (subscript reply "addSheet") ;;
  new_sheet_props <- lift (subscript added "properties") ;;
  sheet_id <- lift (subscript new_sheet_props "sheetId") ;;
  shown <- lift (subscript new_sheet_props "title") ;;
  index <- lift (py_get new_sheet_props "index" PNone) ;;
  ret (PDict [("sheetId", sheet_id); ("title", shown); ("index", index);
              ("spreadsheetId", PStr sid)]).

(** [[{'id': sheet['id'], 'title': sheet['name']} for sheet in spreadsheets]]. *)
Fixpoint file_entries (spreadsheets : list pyval) : res (list pyval) :=
  match spreadsheets with
  | [] => inr []
  | sheet :: rest =>
      (id <~ subscript sheet "id" ;;
       name <~ subscript sheet "name" ;;
       entries <~ file_entries rest ;;
       inr (PDict [("id", id); ("title", name)] :: entries))%res
  end.

Definition list_query (folder : option string) : string :=
  "mimeType='application/vnd.google-apps.spreadsheet'"
    ++ match folder with
       | Some f => if nonempty f then " and '" ++ f ++ "' in parents" else ""
       | None => ""
       end.

Definition list_spreadsheets : M W pyval :=
  lifespan_context <- ensure_authenticated ;;
  let query := list_query (folder_id lifespan_context) in
  results <- api (drive_service lifespan_context) "files.list"
               [("q", PStr query);
                ("spaces", PStr "drive");
                ("fields", PStr "files(id, name)");
                ("orderBy", PStr "modifiedTime desc")] ;;
  spreadsheets <- lift (py_get results "files" (PList [])) ;;
  items <- lift (py_iter spreadsheets) ;;
  entries <- lift (file_entries items) ;;
  ret (PList entries).

(** *** Tool dispatch *)

(** One invocation of a registered tool with its arguments. *)
Inductive tool : Type :=
| GetSheetData (sheet : string) (spreadsheet_id range : option string)
| GetSheetFormulas (sheet : string) (spreadsheet_id range : option string)
| UpdateCells (sheet range : string) (data : pyval) (spreadsheet_id : option string)
| BatchUpdateCells (sheet : string) (ranges : dict) (spreadsheet_id : option string)
| AddRows (sheet : string) (count : Z) (spreadsheet_id : option string)
    (start_row : option Z)
| AppendRows (sheet : string) (data : pyval) (spreadsheet_id : option string)
| AddColumns (sheet : string) (count : Z) (spreadsheet_id : option string)
    (start_column : option Z)
| ListSheets (spreadsheet_id : option string)
| CopySheet (src_spreadsheet src_sheet dst_spreadsheet dst_sheet : string)
| RenameSheet (spreadsheet sheet new_name : string)
| GetMultipleSheetData (queries : list dict)
| GetMultipleSpreadsheetSummary (spreadsheet_ids : list string) (rows_to_fetch : Z)
| CreateSpreadsheet (title : string)
| CreateSheet (title : string) (spreadsheet_id : option string)
| ListSpreadsheets
| ShareSpreadsheet (recipients : list dict) (spreadsheet_id : option string)
    (send_notification : bool)
| DeleteSheet (sheet : string) (spreadsheet_id : option string)
| GetSheetProperties (sheet : string) (spreadsheet_id : option string)
| ClearSheetData (sheet : string) (spreadsheet_id range : option string).

Definition call_tool (t : tool) : M W pyval :=
  match t with
  | GetSheetData sheet spreadsheet_id range => get_sheet_data sheet spreadsheet_id range
  | GetSheetFormulas sheet spreadsheet_id range =>
      get_sheet_formulas sheet spreadsheet_id range
  | UpdateCells sheet range data spreadsheet_id =>
      update_cells sheet range data spreadsheet_id
  | BatchUpdateCells sheet ranges spreadsheet_id =>
      batch_update_cells sheet ranges spreadsheet_id
  | AddRows sheet count spreadsheet_id start_row =>
      add_rows sheet count spreadsheet_id start_row
  | AppendRows sheet data spreadsheet_id => append_rows sheet data spreadsheet_id
  | AddColumns sheet count spreadsheet_id start_column =>
      add_columns sheet count spreadsheet_id start_column
  | ListSheets spreadsheet_id => list_sheets spreadsheet_id
  | CopySheet src_spreadsheet src_sheet dst_spreadsheet dst_sheet =>
      copy_sheet src_spreadsheet src_sheet dst_spreadsheet dst_sheet
  | RenameSheet spreadsheet sheet new_name => rename_sheet spreadsheet sheet new_name
  | GetMultipleSheetData queries => get_multiple_sheet_data queries
  | GetMultipleSpreadsheetSummary spreadsheet_ids rows_to_fetch =>
      get_multiple_spreadsheet_summary spreadsheet_ids rows_to_fetch
  | CreateSpreadsheet title => create_spreadsheet title
  | CreateSheet title spreadsheet_id => create_sheet title spreadsheet_id
  | ListSpreadsheets => list_spreadsheets
  | ShareSpreadsheet recipients spreadsheet_id send_notification =>
      share_spreadsheet recipients spreadsheet_id send_notification
  | DeleteSheet sheet spreadsheet_id => delete_sheet sheet spreadsheet_id
  | GetSheetProperties sheet spreadsheet_id => get_sheet_properties sheet spreadsheet_id
  | ClearSheetData sheet spreadsheet_id range => clear_sheet_data sheet spreadsheet_id range
  end.

(** The process serving a sequence of tool calls on the shared session; a
    call that raises is answered with the error and the next one runs on
    the state it left. *)
Fixpoint serve (calls : list tool) (s : state W) : state W :=
  match calls with
  | [] => s
  | t :: rest => serve rest (snd (call_tool t s))
  end.

(** *** Relations between the states before and after a computation *)

Definition respects (R : state W -> state W -> Prop) {A : Type} (m : M W A) : Prop :=
  forall s, R s (snd (m s)).

(** The only change a session ever undergoes: from unauthenticated to
    authenticated with both handles set and the folder kept. *)
Definition session_step (c c' : SpreadsheetContext) : Prop :=
  c' = c \/
  (_authenticated c = false /\
   exists sheets drive, c' = mkContext (Some sheets) (Some drive) (folder_id c) true).

Definition lifecycle_step (s s' : state W) : Prop :=
  session_step (session s) (session s').

(** An authenticated session has both client handles. *)
Definition session_ok (c : SpreadsheetContext) : Prop :=
  _authenticated c = true -> sheets_service c <> None /\ drive_service c <> None.

Definition is_backend_request (ev : event) : bool :=
  match ev with
  | Called (Execute _ _ _) => true
  | Called _ => false
  end.

(** The events logged from [s] to [s'] all satisfy [keep]. *)
Definition logged_only (keep : event -> bool) (s s' : state W) : Prop :=
  exists events, log s' = (log s ++ events)%list /\ forallb keep events = true.

(** From an authenticated state: the session stays as it is and only
    backend requests are logged. *)
Definition steady_step (s s' : state W) : Prop :=
  _authenticated (session s) = true ->
  session s' = session s /\ logged_only is_backend_request s s'.

(** The error of [get_spreadsheet_id]. *)
Definition spreadsheet_id_required : exn :=
  py_raise ValueError
    "spreadsheet_id is required. Either provide it as a parameter or set DEFAULT_SPREADSHEET_ID environment variable.".

(** The part of [authenticate_google_services] above "Build the services":
    the four strategies, ending with the credentials to use. *)
Definition resolve_credentials : M W creds :=
  inline <- match CREDENTIALS_CONFIG cfg with
            | Some blob =>
                if nonempty blob
                then info <- lift (json_loads blob) ;;
                     c <- call (FromServiceAccountInfo info SCOPES) ;;
                     ret (Some c)
                else ret None
            | None => ret None
            end ;;
  from_file <- match inline with
               | Some c => ret (Some c)
               | None =>
                   if nonempty (SERVICE_ACCOUNT_PATH cfg)
                   then found <- call (PathExists (SERVICE_ACCOUNT_PATH cfg)) ;;
                        if found : bool
                        then try_except
                               (c <- call (FromServiceAccountFile
                                             (SERVICE_ACCOUNT_PATH cfg) SCOPES) ;;
                                ret (Some c))
                               (fun _ => ret None)
                        else ret None
                   else ret None
               end ;;
  from_oauth <- match from_file with
                | Some c => ret (Some c)
                | None => oauth_flow
                end ;;
  match from_oauth with
  | Some c => ret c
  | None =>
      try_except
        (found <- call (GoogleAuthDefault SCOPES) ;; ret (fst found))
        (fun _ => raise all_methods_failed)
  end.

(** The part below it. *)
Definition build_services (creds : creds) : M W (service * service) :=
  sheets <- call (Build "sheets" "v4" creds) ;;
  drive <- call (Build "drive" "v3" creds) ;;
  ret (sheets, drive).

Definition is_credential_source (ev : event) : bool := negb (is_backend_request ev).

(** The events of the inline strategy and of the client construction. *)
Definition is_inline_or_build (ev : event) : bool :=
  match ev with
  | Called (FromServiceAccountInfo _ _) => true
  | Called (Build _ _ _) => true
  | Called _ => false
  end.

(** No inline blob is configured. *)
Definition no_inline_blob : Prop :=
  CREDENTIALS_CONFIG cfg = None \/ CREDENTIALS_CONFIG cfg = Some "".

(** A sheet entry of a metadata listing with a text title and an id. *)
Definition listed_sheet (title : string) (id : pyval) (s : pyval) : Prop :=
  exists props,
    subscript s "properties" = inr props /\
    subscript props "title" = inr (PStr title) /\
    subscript props "sheetId" = inr id.

(** A sheet entry titled otherwise than [sheet]. *)
Definition other_sheet (sheet : string) (s : pyval) : Prop :=
  exists props title,
    subscript s "properties" = inr props /\
    subscript props "title" = inr title /\
    py_eq_str title sheet = false.

(** The query has a usable value under each of the three required keys. *)
Definition complete (query : dict) : bool :=
  forallb truthy [dget query "spreadsheet_id" PNone; dget query "sheet" PNone;
                  dget query "range" PNone].

(** The request [get_multiple_sheet_data] sends for a complete query. *)
Definition fetch_request (h : service) (query : dict) : event :=
  Called (Execute h "spreadsheets.values.get"
            [("spreadsheetId", dget query "spreadsheet_id" PNone);
             ("range", PStr (py_format (dget query "sheet" PNone) ++ "!"
                               ++ py_format (dget query "range" PNone)))]).

(** The request [share_spreadsheet] sends for a recipient. *)
Definition share_request (h : service) (sid : string) (notify : bool)
    (email role : pyval) : event :=
  Called (Execute h "permissions.create"
            [("fileId", PStr sid);
             ("body", PDict [("type", PStr "user"); ("role", role);
                             ("emailAddress", email)]);
             ("sendNotificationEmail", PBool notify);
             ("fields", PStr "id")]).


(** A sequence of tool calls, two of which end in an error. *)
Definition busy_day : list tool :=
  [ListSheets None;
   GetSheetData "Sheet1" (Some "abc") (Some "A1:B2");
   ShareSpreadsheet [Scenario.recipient_blocked] (Some "abc") true;
   CreateSpreadsheet "Plan";
   DeleteSheet "Missing" (Some "abc")].

(** The id of the first sheet titled [name] in a listing of titles and ids. *)
Fixpoint first_id (name : string) (listing : list (string * Z)) : option Z :=
  match listing with
  | [] => None
  | (title, id) :: rest => if String.eqb title name then Some id else first_id name rest
  end.


(** ** Reasoning about computations *)

Lemma bind_ok {A B : Type} (m : M W A) (f : A -> M W B) s a s' :
  m s = (inr a, s') -> bind m f s = f a s'.
Proof. intros H. unfold bind. now rewrite H. Qed.

Lemma bind_err {A B : Type} (m : M W A) (f : A -> M W B) s e s' :
  m s = (inl e, s') -> bind m f s = (inl e, s').
Proof. intros H. unfold bind. now rewrite H. Qed.

Lemma try_ok {A : Type} (m : M W A) (h : exn -> M W A) s a s' :
  m s = (inr a, s') -> try_except m h s = (inr a, s').
Proof. intros H. unfold try_except. now rewrite H. Qed.

Lemma try_err {A : Type} (m : M W A) (h : exn -> M W A) s e s' :
  m s = (inl e, s') -> try_except m h s = h e s'.
Proof. intros H. unfold try_except. now rewrite H. Qed.

Lemma keeps_ret {A : Type} (a : A) : keeps_session (ret a).
Proof. now intros s. Qed.

Lemma keeps_raise {A : Type} (e : exn) : keeps_session (@raise W A e).
Proof. now intros s. Qed.

Lemma keeps_lift {A : Type} (r : res A) : keeps_session (lift r).
Proof. now intros s. Qed.

Lemma keeps_call {R : Type} (c : ext R) : keeps_session (call c).
Proof. intros s. unfold call. now destruct (run R c (world s)). Qed.

Lemma keeps_bind {A B : Type} (m : M W A) (f : A -> M W B) :
  keeps_session m -> (forall a, keeps_session (f a)) -> keeps_session (bind m f).
Proof.
  intros Hm Hf s. unfold bind. specialize (Hm s).
  destruct (m s) as [[e | a] s']; simpl in *; [assumption |].
  now rewrite Hf.
Qed.

Lemma keeps_try {A : Type} (m : M W A) (h : exn -> M W A) :
  keeps_session m -> (forall e, keeps_session (h e)) -> keeps_session (try_except m h).
Proof.
  intros Hm Hh s. unfold try_except. specialize (Hm s).
  destruct (m s) as [[e | a] s']; simpl in *; [| assumption].
  now rewrite Hh.
Qed.

Lemma keeps_api svc method params : keeps_session (api svc method params).
Proof. destruct svc; [apply keeps_call | apply keeps_raise]. Qed.

Create HintDb keeps discriminated.
Hint Resolve keeps_ret keeps_raise keeps_lift keeps_call keeps_api : keeps.

Ltac keeps :=
  repeat first
    [ progress auto with keeps
    | apply keeps_bind; [| intros ?]
    | apply keeps_try; [| intros ?]
    | match goal with
      | |- keeps_session (match ?x with _ => _ end) => destruct x
      end ].

Lemma keeps_installed_app_flow : keeps_session installed_app_flow.
Proof. unfold installed_app_flow. keeps. Qed.

Lemma keeps_oauth_flow : keeps_session oauth_flow.
Proof.
  pose proof keeps_installed_app_flow.
  unfold oauth_flow. keeps.
Qed.

Lemma keeps_authenticate : keeps_session authenticate_google_services.
Proof.
  pose proof keeps_oauth_flow.
  unfold authenticate_google_services. keeps.
Qed.

(** The session is authenticated: [ensure_authenticated] hands it back
    and touches nothing. *)
Lemma ensure_authenticated_cached (s : state W) :
  _authenticated (session s) = true ->
  ensure_authenticated s = (inr (session s), s).
Proof.
  intros Hauth. unfold ensure_authenticated, bind, get_session.
  now rewrite Hauth.
Qed.

Lemma ensure_authenticated_fresh (s : state W) :
  _authenticated (session s) = false ->
  ensure_authenticated s =
    match authenticate_google_services s with
    | (inr services, s1) =>
        let lc := mkContext (Some (fst services)) (Some (snd services))
                    (folder_id (session s1)) true in
        (inr lc, mkState (world s1) (log s1) lc)
    | (inl e, s1) =>
        (inl (py_raise Exception ("Authentication failed: " ++ exn_str e)), s1)
    end.
Proof.
  intros Hauth. unfold ensure_authenticated, bind at 1. unfold get_session at 1.
  rewrite Hauth. cbn [negb]. unfold bind at 1, try_except.
  unfold bind at 1.
  destruct (authenticate_google_services s) as [[e | services] s1]; reflexivity.
Qed.

Lemma get_spreadsheet_id_pure (spreadsheet_id : option string) (s : state W) :
  snd (get_spreadsheet_id spreadsheet_id s) = s.
Proof.
  unfold get_spreadsheet_id.
  destruct spreadsheet_id; [reflexivity |].
  now destruct (nonempty _).
Qed.

Lemma get_spreadsheet_id_ok (spreadsheet_id : option string) (s s' : state W) sid :
  get_spreadsheet_id spreadsheet_id s = (inr sid, s') -> s' = s.
Proof.
  intros H. pose proof (get_spreadsheet_id_pure spreadsheet_id s) as Hp.
  now rewrite H in Hp.
Qed.

(** ** Session lifecycle *)

(** C2: [ensure_authenticated] is idempotent and leaves the session
    unchanged on failure.  An authenticated session is returned as it is,
    with no call made and no state changed.  Otherwise credential
    resolution runs: on success the two client handles and the flag are
    set on the shared session (the folder is kept); on failure the
    session is the one before the call, and a later call on that session
    runs the whole resolution again. *)
Theorem ensure_authenticated_lifecycle (s : state W) :
  (_authenticated (session s) = true ->
     ensure_authenticated s = (inr (session s), s)) /\
  (_authenticated (session s) = false ->
     forall services s1,
       authenticate_google_services s = (inr services, s1) ->
       let lc := mkContext (Some (fst services)) (Some (snd services))
                   (folder_id (session s)) true in
       ensure_authenticated s = (inr lc, mkState (world s1) (log s1) lc)) /\
  (_authenticated (session s) = false ->
     forall e s1,
       authenticate_google_services s = (inl e, s1) ->
       ensure_authenticated s
         = (inl (py_raise Exception ("Authentication failed: " ++ exn_str e)), s1)
       /\ session s1 = session s
       /\ forall s2 : state W,
            session s2 = session s1 ->
            ensure_authenticated s2 =
              match authenticate_google_services s2 with
              | (inr services, s3) =>
                  let lc := mkContext (Some (fst services)) (Some (snd services))
                              (folder_id (session s3)) true in
                  (inr lc, mkState (world s3) (log s3) lc)
              | (inl e', s3) =>
                  (inl (py_raise Exception ("Authentication failed: " ++ exn_str e')),
                   s3)
              end).
Proof.
  split; [apply ensure_authenticated_cached |].
  split.
  - intros Hauth services s1 Hres. cbv zeta.
    rewrite (ensure_authenticated_fresh s Hauth), Hres. cbv zeta.
    pose proof (keeps_authenticate s) as Hk. rewrite Hres in Hk. simpl in Hk.
    now rewrite Hk.
  - intros Hauth e s1 Hres.
    pose proof (keeps_authenticate s) as Hk. rewrite Hres in Hk. simpl in Hk.
    split; [| split].
    + now rewrite (ensure_authenticated_fresh s Hauth), Hres.
    + exact Hk.
    + intros s2 Hs2. apply ensure_authenticated_fresh.
      now rewrite Hs2, Hk.
Qed.

(** ** Range addresses *)

Lemma nonempty_true (r : string) : r <> "" -> nonempty r = true.
Proof.
  intros Hr. unfold nonempty.
  destruct (String.eqb_spec r ""); [contradiction | reflexivity].
Qed.

(** C7: the address passed to the backend is the sheet name when the
    sub-range is absent or empty and [sheet!range] otherwise; the two
    literal examples; and [get_sheet_data], [get_sheet_formulas] and
    [clear_sheet_data] send exactly that address in their request. *)
Theorem full_range_qualifies :
  (forall sheet, full_range sheet None = sheet) /\
  (forall sheet, full_range sheet (Some "") = sheet) /\
  (forall sheet r, r <> "" -> full_range sheet (Some r) = sheet ++ "!" ++ r) /\
  full_range "Sheet1" (Some "A1:C10") = "Sheet1!A1:C10" /\
  full_range "Sheet1" None = "Sheet1" /\
  (forall sheet spreadsheet_id range (s s1 : state W) sid lc svc,
     get_spreadsheet_id spreadsheet_id s = (inr sid, s) ->
     ensure_authenticated s = (inr lc, s1) ->
     sheets_service lc = Some svc ->
     log (snd (get_sheet_data sheet spreadsheet_id range s))
       = (log s1 ++ [Called (Execute svc "spreadsheets.get"
                       [("spreadsheetId", PStr sid);
                        ("ranges", PList [PStr (full_range sheet range)]);
                        ("includeGridData", PBool true)])])%list
     /\ log (snd (get_sheet_formulas sheet spreadsheet_id range s))
       = (log s1 ++ [Called (Execute svc "spreadsheets.values.get"
                       [("spreadsheetId", PStr sid);
                        ("range", PStr (full_range sheet range));
                        ("valueRenderOption", PStr "FORMULA")])])%list
     /\ log (snd (clear_sheet_data sheet spreadsheet_id range s))
       = (log s1 ++ [Called (Execute svc "spreadsheets.values.clear"
                       [("spreadsheetId", PStr sid);
                        ("range", PStr (full_range sheet range));
                        ("body", PDict [])])])%list).
Proof.
  split; [reflexivity |]. split; [reflexivity |].
  split; [| split; [reflexivity | split; [reflexivity |]]].
  - intros sheet r Hr. unfold full_range. now rewrite (nonempty_true r Hr).
  - intros sheet spreadsheet_id range s s1 sid lc svc Hid Hauth Hsvc.
    split; [| split].
    + unfold get_sheet_data.
      rewrite (bind_ok _ _ _ _ _ Hid), (bind_ok _ _ _ _ _ Hauth), Hsvc.
      unfold api, call. now destruct (run _ _ _).
    + unfold get_sheet_formulas.
      rewrite (bind_ok _ _ _ _ _ Hid), (bind_ok _ _ _ _ _ Hauth), Hsvc.
      unfold bind, api, call.
      destruct (run _ _ _) as [[e | result] w']; reflexivity.
    + unfold clear_sheet_data.
      rewrite (bind_ok _ _ _ _ _ Hid), (bind_ok _ _ _ _ _ Hauth), Hsvc.
      unfold api, call. now destruct (run _ _ _).
Qed.

(** ** Dimension inserts *)

(** C4: in the request that [add_rows] and [add_columns] build, without
    a start index [startIndex] is 0 and [endIndex] is the count; with a
    start index [s] they are [s] and [s + count]; [inheritFromBefore] is
    true exactly when a start index greater than 0 was given.  Once the
    sheet is found, the handlers send that body, for ROWS and COLUMNS. *)
Theorem insert_dimension_indices :
  (forall dimension sheet_id count,
     let body := insert_dimension_body dimension sheet_id None count in
     range_field body "startIndex" = Some (PInt 0) /\
     range_field body "endIndex" = Some (PInt count)) /\
  (forall dimension sheet_id start count,
     let body := insert_dimension_body dimension sheet_id (Some start) count in
     range_field body "startIndex" = Some (PInt start) /\
     range_field body "endIndex" = Some (PInt (start + count))) /\
  (forall dimension sheet_id start count,
     exists inherit : bool,
       inherit_from_before (insert_dimension_body dimension sheet_id start count)
         = Some (PBool inherit) /\
       (inherit = true <-> exists s, start = Some s /\ (0 < s)%Z)) /\
  (forall sheet count spreadsheet_id start (s s1 s2 : state W) sid lc svc sheet_id,
     get_spreadsheet_id spreadsheet_id s = (inr sid, s) ->
     ensure_authenticated s = (inr lc, s1) ->
     sheets_service lc = Some svc ->
     lookup_sheet_id (Some svc) sid sheet s1 = (inr sheet_id, s2) ->
     is_none sheet_id = false ->
     add_rows sheet count spreadsheet_id start s
       = call (Execute svc "spreadsheets.batchUpdate"
                 [("spreadsheetId", PStr sid);
                  ("body", insert_dimension_body "ROWS" sheet_id start count)]) s2
     /\ add_columns sheet count spreadsheet_id start s
       = call (Execute svc "spreadsheets.batchUpdate"
                 [("spreadsheetId", PStr sid);
                  ("body", insert_dimension_body "COLUMNS" sheet_id start count)]) s2).
Proof.
  split; [| split; [| split]].
  - intros dimension sheet_id count. cbv zeta. split; reflexivity.
  - intros dimension sheet_id start count. cbv zeta. split; reflexivity.
  - intros dimension sheet_id [s |] count.
    + exists (0 <? s)%Z. split; [reflexivity |]. split.
      * intros Hlt. exists s. split; [reflexivity | now apply Z.ltb_lt].
      * intros [s' [Hs' Hlt]]. injection Hs' as <-. now apply Z.ltb_lt.
    + exists false. split; [reflexivity |]. split; [discriminate |].
      intros [s' [Hs' _]]. discriminate.
  - intros sheet count spreadsheet_id start s s1 s2 sid lc svc sheet_id
      Hid Hauth Hsvc Hlookup Hfound.
    unfold add_rows, add_columns.
    rewrite !(bind_ok _ _ _ _ _ Hid), !(bind_ok _ _ _ _ _ Hauth), Hsvc.
    rewrite !(bind_ok _ _ _ _ _ Hlookup), Hfound.
    split; reflexivity.
Qed.

(** ** Multi-range fetch *)

Lemma dict_get_set_same (k : string) (v : pyval) (d : dict) :
  dict_get k (dict_set k v d) = Some v.
Proof.
  induction d as [| [k' v'] rest IH]; simpl.
  - now rewrite String.eqb_refl.
  - destruct (String.eqb k k') eqn:Hk; simpl; rewrite Hk; [reflexivity | exact IH].
Qed.

Lemma dict_get_set_other (k k' : string) (v : pyval) (d : dict) :
  String.eqb k' k = false ->
  dict_get k' (dict_set k v d) = dict_get k' d.
Proof.
  intros Hne. induction d as [| [k0 v0] rest IH]; simpl.
  - now rewrite Hne.
  - destruct (String.eqb k k0) eqn:Hk; simpl.
    + apply String.eqb_eq in Hk. subst k0. now rewrite Hne.
    + now rewrite IH.
Qed.

Lemma has_key_set_same (k : string) (v : pyval) (d : dict) :
  has_key k (dict_set k v d) = true.
Proof. unfold has_key. now rewrite dict_get_set_same. Qed.

Lemma has_key_set_other (k k' : string) (v : pyval) (d : dict) :
  String.eqb k' k = false ->
  has_key k' (dict_set k v d) = has_key k' d.
Proof. intros Hne. unfold has_key. now rewrite dict_get_set_other. Qed.

(** The entry of one query: the query's own keys with either [error] or
    [data] written over them; the step never raises. *)
Lemma query_step_outcome svc (query : dict) (s : state W) :
  exists entry s',
    query_step svc query s = (inr (PDict entry), s') /\
    ((exists msg, entry = dict_set "error" (PStr msg) query) \/
     (exists values, entry = dict_set "data" values query)).
Proof.
  unfold query_step.
  destruct (negb (forallb truthy _)).
  - eexists; eexists; split; [reflexivity |]. left. now eexists.
  - unfold try_except, bind at 1.
    destruct (api svc _ _ s) as [[e | result] s1].
    + eexists; eexists; split; [reflexivity |]. left. now eexists.
    + unfold bind, lift.
      destruct (py_get result "values" (PList [])) as [e | values].
      * eexists; eexists; split; [reflexivity |]. left. now eexists.
      * eexists; eexists; split; [reflexivity |]. right. now eexists.
Qed.

(** A raise of the remote call is caught and becomes the entry's error. *)
Lemma query_step_failure svc (query : dict) (s : state W) e w' :
  forallb truthy [dget query "spreadsheet_id" PNone; dget query "sheet" PNone;
                  dget query "range" PNone] = true ->
  run _ (Execute svc "spreadsheets.values.get"
           [("spreadsheetId", dget query "spreadsheet_id" PNone);
            ("range", PStr (py_format (dget query "sheet" PNone) ++ "!"
                              ++ py_format (dget query "range" PNone)))])
      (world s) = (inl e, w') ->
  exists s',
    query_step (Some svc) query s
      = (inr (PDict (dict_set "error" (PStr (exn_str e)) query)), s').
Proof.
  intros Hall Hrun. unfold query_step. rewrite Hall. cbn [negb].
  unfold try_except, bind at 1. unfold api, call. rewrite Hrun.
  now eexists.
Qed.

Lemma query_loop_app svc (before after : list dict) :
  forall results (s : state W),
    query_loop svc (before ++ after) results s
      = bind (query_loop svc before results)
             (fun entries => query_loop svc after entries) s.
Proof.
  induction before as [| query rest IH]; intros results s; [reflexivity |].
  simpl. unfold bind.
  destruct (query_step svc query s) as [[e | entry] s1]; [reflexivity |].
  now rewrite IH.
Qed.

(** Every query gets its entry, in input order, whatever fails. *)
Lemma query_loop_outcome svc (queries : list dict) :
  forall results (s : state W),
    exists entries s',
      query_loop svc queries results s = (inr (results ++ entries)%list, s') /\
      Forall2 (fun query entry =>
                 (exists msg, entry = PDict (dict_set "error" (PStr msg) query)) \/
                 (exists values, entry = PDict (dict_set "data" values query)))
              queries entries.
Proof.
  induction queries as [| query rest IH]; intros results s.
  - exists [], s. split; [| constructor]. simpl. now rewrite app_nil_r.
  - destruct (query_step_outcome svc query s) as (entry & s1 & Hstep & Hentry).
    destruct (IH (results ++ [PDict entry])%list s1) as (entries & s' & Hloop & Hall).
    exists (PDict entry :: entries), s'. split.
    + simpl. rewrite (bind_ok _ _ _ _ _ Hstep), Hloop.
      now rewrite <- app_assoc.
    + constructor; [| exact Hall].
      destruct Hentry as [[msg ->] | [values ->]]; [left | right]; now eexists.
Qed.

(** ** Multi-spreadsheet summary *)

Ltac summary_failed :=
  eexists; eexists; split; [reflexivity |];
  repeat (split; [reflexivity |]); right; eexists; split; reflexivity.

(** One spreadsheet's summary: never a raise; the four keys are always
    there; [error] is [None], or a message next to an empty sheet list. *)
Lemma summary_step_outcome svc rows_to_fetch spreadsheet_id (s : state W) :
  exists entry s',
    summary_step svc rows_to_fetch spreadsheet_id s = (inr (PDict entry), s') /\
    dict_get "spreadsheet_id" entry = Some (PStr spreadsheet_id) /\
    has_key "title" entry = true /\
    has_key "sheets" entry = true /\
    has_key "error" entry = true /\
    (dict_get "error" entry = Some PNone \/
     exists msg, dict_get "error" entry = Some (PStr msg) /\
                 dict_get "sheets" entry = Some (PList [])).
Proof.
  unfold summary_step. cbv zeta. unfold try_except at 1, bind at 1.
  destruct (api svc _ _ s) as [[e | spreadsheet] s1]; [summary_failed |].
  unfold bind at 1, lift at 1.
  destruct (py_get spreadsheet "properties" (PDict [])) as [e | props];
    [summary_failed |].
  unfold bind at 1, lift at 1.
  destruct (py_get props "title" (PStr "Unknown Title")) as [e | title];
    [summary_failed |].
  unfold try_except, bind, lift.
  destruct (py_get spreadsheet "sheets" (PList [])) as [e | sheets];
    [summary_failed |].
  destruct (py_iter sheets) as [e | items]; [summary_failed |].
  destruct (sheet_summary_loop svc spreadsheet_id rows_to_fetch items [] s1)
    as [[e | sheet_summaries] s2]; [summary_failed |].
  eexists; eexists; split; [reflexivity |].
  repeat (split; [reflexivity |]). left. reflexivity.
Qed.

(** A raise of the metadata call is caught and recorded on the summary. *)
Lemma summary_step_failure svc rows_to_fetch spreadsheet_id (s : state W) e w' :
  run _ (Execute svc "spreadsheets.get"
           [("spreadsheetId", PStr spreadsheet_id);
            ("fields", PStr "properties.title,sheets(properties(title,sheetId))")])
      (world s) = (inl e, w') ->
  exists s',
    summary_step (Some svc) rows_to_fetch spreadsheet_id s
      = (inr (PDict [("spreadsheet_id", PStr spreadsheet_id); ("title", PNone);
                     ("sheets", PList []);
                     ("error", PStr ("Error fetching spreadsheet " ++ spreadsheet_id
                                       ++ ": " ++ exn_str e))]), s').
Proof.
  intros Hrun. unfold summary_step. cbv zeta.
  unfold try_except at 1, bind at 1. unfold api, call. rewrite Hrun.
  now eexists.
Qed.

Lemma summary_loop_outcome svc rows_to_fetch (spreadsheet_ids : list string) :
  forall summaries (s : state W),
    exists entries s',
      summary_loop svc rows_to_fetch spreadsheet_ids summaries s
        = (inr (summaries ++ entries)%list, s') /\
      Forall2 (fun spreadsheet_id entry =>
                 field "spreadsheet_id" entry = Some (PStr spreadsheet_id) /\
                 carries "title" entry = true /\
                 carries "sheets" entry = true /\
                 carries "error" entry = true /\
                 (field "error" entry = Some PNone \/
                  exists msg, field "error" entry = Some (PStr msg) /\
                              field "sheets" entry = Some (PList [])))
              spreadsheet_ids entries.
Proof.
  induction spreadsheet_ids as [| spreadsheet_id rest IH]; intros summaries s.
  - exists [], s. split; [| constructor]. simpl. now rewrite app_nil_r.
  - destruct (summary_step_outcome svc rows_to_fetch spreadsheet_id s)
      as (entry & s1 & Hstep & Hentry).
    destruct (IH (summaries ++ [PDict entry])%list s1) as (entries & s' & Hloop & Hall).
    exists (PDict entry :: entries), s'. split.
    + simpl. rewrite (bind_ok _ _ _ _ _ Hstep), Hloop.
      now rewrite <- app_assoc.
    + constructor; [exact Hentry | exact Hall].
Qed.

(** ** Sharing *)

(** What one recipient adds when the step returns: one entry, either to
    the successes with a [permissionId] and no [error], or to the
    failures with an [error] and no [permissionId]. *)
Lemma share_step_entries drive sid notify (recipient : dict) successes failures
    (s s' : state W) lists :
  share_step drive sid notify recipient successes failures s = (inr lists, s') ->
  (exists entry,
      lists = ((successes ++ [entry])%list, failures) /\
      carries "permissionId" entry = true /\ carries "error" entry = false) \/
  (exists entry,
      lists = (successes, (failures ++ [entry])%list) /\
      carries "error" entry = true /\ carries "permissionId" entry = false).
Proof.
  unfold share_step.
  destruct (negb (truthy _)).
  { intros [= <- <-]. right. eexists. repeat split. }
  destruct (negb (existsb _ _)).
  { intros [= <- <-]. right. eexists. repeat split. }
  unfold try_except, bind at 1.
  destruct (api drive _ _ s) as [[e | result] s1].
  - unfold bind, lift. destruct (share_error_details json_loads e) as [e' | details].
    + discriminate.
    + intros [= <- <-]. right. eexists. repeat split.
  - unfold bind, lift. destruct (py_get result "id" PNone) as [e | permission_id].
    + destruct (share_error_details json_loads e) as [e' | details].
      * discriminate.
      * intros [= <- <-]. right. eexists. repeat split.
    + intros [= <- <-]. left. eexists. repeat split.
Qed.

Lemma share_loop_entries drive sid notify (recipients : list dict) :
  forall successes failures (s s' : state W) lists,
    Forall (fun entry => carries "permissionId" entry = true /\
                         carries "error" entry = false) successes ->
    Forall (fun entry => carries "error" entry = true /\
                         carries "permissionId" entry = false) failures ->
    share_loop drive sid notify recipients successes failures s = (inr lists, s') ->
    Forall (fun entry => carries "permissionId" entry = true /\
                         carries "error" entry = false) (fst lists) /\
    Forall (fun entry => carries "error" entry = true /\
                         carries "permissionId" entry = false) (snd lists).
Proof.
  induction recipients as [| recipient rest IH];
    intros successes failures s s' lists Hs Hf Hloop.
  - injection Hloop as <- _. now split.
  - simpl in Hloop. unfold bind in Hloop.
    destruct (share_step drive sid notify recipient successes failures s)
      as [[e | step] s1] eqn:Hstep; [discriminate |].
    apply share_step_entries in Hstep.
    apply (IH _ _ _ _ _) in Hloop; [exact Hloop | |].
    + destruct Hstep as [(entry & -> & He) | (entry & -> & He)]; simpl.
      * apply Forall_app. split; [exact Hs | now constructor].
      * exact Hs.
    + destruct Hstep as [(entry & -> & He) | (entry & -> & He)]; simpl.
      * exact Hf.
      * apply Forall_app. split; [exact Hf | now constructor].
Qed.

Lemma share_loop_app drive sid notify (before after : list dict) :
  forall successes failures (s : state W),
    share_loop drive sid notify (before ++ after) successes failures s
      = bind (share_loop drive sid notify before successes failures)
             (fun lists => share_loop drive sid notify after (fst lists) (snd lists)) s.
Proof.
  induction before as [| recipient rest IH]; intros successes failures s;
    [reflexivity |].
  simpl. unfold bind.
  destruct (share_step drive sid notify recipient successes failures s)
    as [[e | lists] s1]; [reflexivity |].
  now rewrite IH.
Qed.

(** ** Items with a missing field *)

Lemma lacks_absent (item : dict) (k : string) :
  dict_get k item = None -> lacks item k.
Proof. intros H. unfold lacks, dget. now rewrite H. Qed.

Lemma query_step_missing svc (query : dict) (s : state W) :
  lacks query "spreadsheet_id" \/ lacks query "sheet" \/ lacks query "range" ->
  query_step svc query s
    = (inr (PDict (dict_set "error"
                     (PStr "Missing required keys (spreadsheet_id, sheet, range)")
                     query)), s).
Proof.
  unfold lacks, query_step. intros Hmissing.
  replace (forallb truthy _) with false; [reflexivity |].
  cbn [forallb].
  destruct Hmissing as [-> | [-> | ->]]; cbn [andb];
    now rewrite ?andb_false_r.
Qed.

Lemma share_step_missing drive sid notify (recipient : dict) successes failures
    (s : state W) :
  lacks recipient "email_address" ->
  share_step drive sid notify recipient successes failures s
    = (inr (successes,
            (failures ++ [PDict [("email_address", PNone);
                                 ("error",
                                  PStr "Missing email_address in recipient entry.")]])%list),
       s).
Proof. unfold lacks, share_step. now intros ->. Qed.

(** C6: a work item that lacks a required field goes straight to the
    failures and the remote call is not made for it.  A query without a
    usable [spreadsheet_id], [sheet] or [range] yields the query with the
    "Missing required keys" error and leaves the world and the call log
    as they were; in a whole run the loop goes on from the entries before
    it with that error entry appended.  The same holds for a recipient
    without [email_address] in [share_spreadsheet].  An absent key counts
    as lacking. *)
Theorem missing_field_short_circuits :
  (forall (item : dict) k, dict_get k item = None -> lacks item k) /\
  (forall svc (query : dict) (s : state W),
     lacks query "spreadsheet_id" \/ lacks query "sheet" \/ lacks query "range" ->
     query_step svc query s
       = (inr (PDict (dict_set "error"
                        (PStr "Missing required keys (spreadsheet_id, sheet, range)")
                        query)), s)) /\
  (forall svc (before after : list dict) (query : dict) results (s : state W),
     lacks query "spreadsheet_id" \/ lacks query "sheet" \/ lacks query "range" ->
     query_loop svc (before ++ query :: after) results s
       = bind (query_loop svc before results)
           (fun entries =>
              query_loop svc after
                (entries ++ [PDict (dict_set "error"
                                (PStr "Missing required keys (spreadsheet_id, sheet, range)")
                                query)])%list) s) /\
  (forall drive sid notify (recipient : dict) successes failures (s : state W),
     lacks recipient "email_address" ->
     share_step drive sid notify recipient successes failures s
       = (inr (successes,
               (failures ++ [PDict [("email_address", PNone);
                                    ("error",
                                     PStr "Missing email_address in recipient entry.")]])%list),
          s)) /\
  (forall drive sid notify (before after : list dict) (recipient : dict)
          successes failures (s : state W),
     lacks recipient "email_address" ->
     share_loop drive sid notify (before ++ recipient :: after) successes failures s
       = bind (share_loop drive sid notify before successes failures)
           (fun lists =>
              share_loop drive sid notify after (fst lists)
                (snd lists ++ [PDict [("email_address", PNone);
                                      ("error",
                                       PStr "Missing email_address in recipient entry.")]])%list)
           s).
Proof.
  split; [exact lacks_absent |].
  split; [exact query_step_missing |].
  split; [| split; [exact share_step_missing |]].
  - intros svc before after query results s Hmissing.
    rewrite query_loop_app. unfold bind at 1 2.
    destruct (query_loop svc before results s) as [[e | entries] s1]; [reflexivity |].
    cbn [query_loop].
    now rewrite (bind_ok _ _ _ _ _ (query_step_missing svc query s1 Hmissing)).
  - intros drive sid notify before after recipient successes failures s Hmissing.
    rewrite share_loop_app. unfold bind at 1 2.
    destruct (share_loop drive sid notify before successes failures s)
      as [[e | lists] s1]; [reflexivity |].
    cbn [share_loop].
    now rewrite (bind_ok _ _ _ _ _
                   (share_step_missing drive sid notify recipient _ _ s1 Hmissing)).
Qed.

(** ** Outcome fields of the result entries *)

Lemma carries_error_entry (query : dict) msg :
  carries "error" (PDict (dict_set "error" msg query)) = true /\
  carries "data" (PDict (dict_set "error" msg query)) = has_key "data" query.
Proof.
  split; [apply has_key_set_same | now apply has_key_set_other].
Qed.

Lemma carries_data_entry (query : dict) values :
  carries "data" (PDict (dict_set "data" values query)) = true /\
  carries "error" (PDict (dict_set "data" values query)) = has_key "error" query.
Proof.
  split; [apply has_key_set_same | now apply has_key_set_other].
Qed.

(** C8 as the code has it: every entry of a multi-range fetch carries
    [data] or [error], and exactly one of them when the query itself has
    neither key (the query's own keys are copied into the entry); every
    entry of the successes of a sharing carries [permissionId] and no
    [error], every entry of its failures [error] and no [permissionId];
    every spreadsheet summary carries [title], [sheets] and [error]
    together, with [error] either [None] or a message next to an empty
    sheet list. *)
Theorem result_entries_outcome_fields :
  (forall (queries : list dict) (s s' : state W) results,
     get_multiple_sheet_data queries s = (inr results, s') ->
     exists entries,
       results = PList entries /\
       Forall2 (fun query entry =>
                  (carries "data" entry || carries "error" entry = true) /\
                  (has_key "data" query = false ->
                   has_key "error" query = false ->
                   xorb (carries "data" entry) (carries "error" entry) = true))
               queries entries) /\
  (forall (recipients : list dict) spreadsheet_id notify (s s' : state W) results,
     share_spreadsheet recipients spreadsheet_id notify s = (inr results, s') ->
     exists successes failures,
       results = PDict [("successes", PList successes); ("failures", PList failures)] /\
       Forall (fun entry => carries "permissionId" entry = true /\
                            carries "error" entry = false) successes /\
       Forall (fun entry => carries "error" entry = true /\
                            carries "permissionId" entry = false) failures) /\
  (forall (spreadsheet_ids : list string) rows_to_fetch (s s' : state W) results,
     get_multiple_spreadsheet_summary spreadsheet_ids rows_to_fetch s
       = (inr results, s') ->
     exists entries,
       results = PList entries /\
       Forall2 (fun spreadsheet_id entry =>
                  field "spreadsheet_id" entry = Some (PStr spreadsheet_id) /\
                  carries "title" entry = true /\
                  carries "sheets" entry = true /\
                  carries "error" entry = true /\
                  (field "error" entry = Some PNone \/
                   exists msg, field "error" entry = Some (PStr msg) /\
                               field "sheets" entry = Some (PList [])))
               spreadsheet_ids entries).
Proof.
  split; [| split].
  - intros queries s s' results. unfold get_multiple_sheet_data, bind at 1.
    destruct (ensure_authenticated s) as [[e | lc] s1]; [discriminate |].
    destruct (query_loop_outcome (sheets_service lc) queries [] s1)
      as (entries & s2 & Hloop & Hall).
    rewrite (bind_ok _ _ _ _ _ Hloop). intros [= <- _].
    exists entries. split; [reflexivity |].
    eapply Forall2_impl; [| exact Hall].
    intros query entry [[msg ->] | [values ->]].
    + destruct (carries_error_entry query (PStr msg)) as [-> ->].
      split; [apply orb_true_r |]. now intros ->.
    + destruct (carries_data_entry query values) as [-> ->].
      split; [reflexivity |]. now intros _ ->.
  - intros recipients spreadsheet_id notify s s' results.
    unfold share_spreadsheet, bind at 1.
    destruct (get_spreadsheet_id spreadsheet_id s) as [[e | sid] s0]; [discriminate |].
    unfold bind at 1.
    destruct (ensure_authenticated s0) as [[e | lc] s1]; [discriminate |].
    unfold bind at 1.
    destruct (share_loop (drive_service lc) sid notify recipients [] [] s1)
      as [[e | lists] s2] eqn:Hloop; [discriminate |].
    intros [= <- _].
    apply share_loop_entries in Hloop; [| constructor | constructor].
    exists (fst lists), (snd lists). now split.
  - intros spreadsheet_ids rows_to_fetch s s' results.
    unfold get_multiple_spreadsheet_summary, bind at 1.
    destruct (ensure_authenticated s) as [[e | lc] s1]; [discriminate |].
    destruct (summary_loop_outcome (sheets_service lc) rows_to_fetch spreadsheet_ids
                [] s1) as (entries & s2 & Hloop & Hall).
    rewrite (bind_ok _ _ _ _ _ Hloop). intros [= <- _].
    exists entries. now split.
Qed.

(** ** Lookup by sheet name *)

Lemma find_sheet_id_absent (sheets : list pyval) (sheet : string) :
  Forall (fun s => exists props title,
            subscript s "properties" = inr props /\
            subscript props "title" = inr title /\
            py_eq_str title sheet = false) sheets ->
  find_sheet_id sheets sheet = inr PNone /\
  find_sheet_properties sheets sheet = inr None.
Proof.
  induction 1 as [| s rest (props & title & Hprops & Htitle & Hne) _ [IHid IHprops]];
    [now split |].
  cbn [find_sheet_id find_sheet_properties].
  rewrite Hprops. cbn [rbind]. rewrite Htitle. cbn [rbind]. rewrite Hne.
  now split.
Qed.

Lemma lookup_sheet_id_absent svc sid sheet (s : state W) spreadsheet w' :
  run _ (Execute svc "spreadsheets.get" [("spreadsheetId", PStr sid)]) (world s)
    = (inr spreadsheet, w') ->
  lists_no_sheet spreadsheet sheet ->
  fst (lookup_sheet_id (Some svc) sid sheet s) = inr PNone.
Proof.
  intros Hrun (sheets & Hsheets & Hall).
  unfold lookup_sheet_id, bind, api, call, lift. rewrite Hrun, Hsheets.
  cbn [py_iter fst]. now destruct (find_sheet_id_absent sheets sheet Hall) as [-> _].
Qed.

Lemma bind_fst_ok {A B : Type} (m : M W A) (f : A -> M W B) (s : state W) a b :
  fst (m s) = inr a ->
  (forall s', fst (f a s') = inr b) ->
  fst (bind m f s) = inr b.
Proof.
  intros Hm Hf. unfold bind. destruct (m s) as [[e | a'] s']; simpl in Hm.
  - discriminate.
  - injection Hm as ->. apply Hf.
Qed.

(** C5 as the code has it: when the listing of the spreadsheet names no
    sheet titled [sheet], the lookup-by-name handlers return a dictionary
    with the single key [error] and raise nothing.  For [add_rows],
    [add_columns], [delete_sheet], [get_sheet_properties] and
    [rename_sheet] the message is [Sheet '<name>' not found]; for
    [copy_sheet] it is [Source sheet '<name>' not found]. *)
Theorem absent_sheet_soft_error :
  forall (s s1 : state W) lc svc sheet,
    ensure_authenticated s = (inr lc, s1) ->
    sheets_service lc = Some svc ->
    (forall params, exists spreadsheet w',
        run _ (Execute svc "spreadsheets.get" params) (world s1) = (inr spreadsheet, w')
        /\ lists_no_sheet spreadsheet sheet) ->
    not_found sheet = PDict [("error", PStr ("Sheet '" ++ sheet ++ "' not found"))] /\
    (forall spreadsheet_id sid,
        get_spreadsheet_id spreadsheet_id s = (inr sid, s) ->
        (forall count start,
            fst (add_rows sheet count spreadsheet_id start s) = inr (not_found sheet)) /\
        (forall count start,
            fst (add_columns sheet count spreadsheet_id start s)
              = inr (not_found sheet)) /\
        fst (delete_sheet sheet spreadsheet_id s) = inr (not_found sheet) /\
        fst (get_sheet_properties sheet spreadsheet_id s) = inr (not_found sheet)) /\
    (forall spreadsheet new_name,
        fst (rename_sheet spreadsheet sheet new_name s) = inr (not_found sheet)) /\
    (forall src_spreadsheet dst_spreadsheet dst_sheet,
        fst (copy_sheet src_spreadsheet sheet dst_spreadsheet dst_sheet s)
          = inr (PDict [("error", PStr ("Source sheet '" ++ sheet ++ "' not found"))])).
Proof.
  intros s s1 lc svc sheet Hauth Hsvc Hlist.
  assert (Hlookup : forall sid,
             fst (lookup_sheet_id (Some svc) sid sheet s1) = inr PNone).
  { intros sid. destruct (Hlist [("spreadsheetId", PStr sid)])
      as (spreadsheet & w' & Hrun & Habsent).
    exact (lookup_sheet_id_absent svc sid sheet s1 spreadsheet w' Hrun Habsent). }
  split; [reflexivity |].
  split; [| split].
  - intros spreadsheet_id sid Hid.
    repeat split; [intros count start | intros count start | |].
    + unfold add_rows.
      rewrite (bind_ok _ _ _ _ _ Hid), (bind_ok _ _ _ _ _ Hauth), Hsvc.
      now apply (bind_fst_ok _ _ _ PNone).
    + unfold add_columns.
      rewrite (bind_ok _ _ _ _ _ Hid), (bind_ok _ _ _ _ _ Hauth), Hsvc.
      now apply (bind_fst_ok _ _ _ PNone).
    + unfold delete_sheet.
      rewrite (bind_ok _ _ _ _ _ Hid), (bind_ok _ _ _ _ _ Hauth), Hsvc.
      now apply (bind_fst_ok _ _ _ PNone).
    + unfold get_sheet_properties.
      rewrite (bind_ok _ _ _ _ _ Hid), (bind_ok _ _ _ _ _ Hauth), Hsvc.
      destruct (Hlist [("spreadsheetId", PStr sid); ("ranges", PList [PStr sheet]);
                       ("fields", PStr "sheets(properties,data)")])
        as (spreadsheet & w' & Hrun & sheets & Hsheets & Hall).
      unfold bind, api, call, lift. rewrite Hrun.
      destruct spreadsheet as [| | | | | d]; try discriminate.
      cbn [subscript] in Hsheets. cbn [py_get]. unfold dget.
      destruct (dict_get "sheets" d) as [v |]; [| discriminate].
      injection Hsheets as ->. cbn [py_iter].
      now destruct (find_sheet_id_absent sheets sheet Hall) as [_ ->].
  - intros spreadsheet new_name. unfold rename_sheet.
    rewrite (bind_ok _ _ _ _ _ Hauth), Hsvc.
    now apply (bind_fst_ok _ _ _ PNone).
  - intros src_spreadsheet dst_spreadsheet dst_sheet. unfold copy_sheet.
    rewrite (bind_ok _ _ _ _ _ Hauth). cbv zeta. rewrite Hsvc.
    now apply (bind_fst_ok _ _ _ PNone).
Qed.

(** ** Creating a spreadsheet *)

(** The move into the working folder never raises. *)
Lemma move_to_folder_caught drive spreadsheet_id folder (s : state W) :
  fst (move_to_folder drive spreadsheet_id folder s) = inr tt.
Proof.
  unfold move_to_folder, try_except, bind, lift.
  destruct (api drive "files.get" _ s) as [[e | file] s1]; [reflexivity |].
  destruct (py_get file "parents" (PList [])) as [e | parents]; [reflexivity |].
  destruct (py_join "," parents) as [e | previous_parents]; [reflexivity |].
  now destruct (api drive "files.update" _ s1) as [[e | updated] s2].
Qed.

(** The titles read off well-formed sheet entries, each with the default
    [Sheet1] when it has none. *)
Lemma sheet_titles_listing (sheets titles : list pyval) :
  Forall2 (fun sheet shown =>
             exists entry sheet_props,
               sheet = PDict entry /\
               dget entry "properties" (PDict []) = PDict sheet_props /\
               shown = dget sheet_props "title" (PStr "Sheet1")) sheets titles ->
  sheet_titles sheets = inr titles.
Proof.
  induction 1 as [| sheet shown sheets titles
                    (entry & sheet_props & -> & Hprops & ->) _ IH];
    cbn [sheet_titles]; [reflexivity |].
  cbn [py_get rbind]. rewrite Hprops. cbn [py_get rbind]. now rewrite IH.
Qed.

(** C10: [create_spreadsheet] succeeds even when the move into the
    configured working folder fails.  For every folder id configured on
    the session and whatever the Drive calls of the move do, a raise
    included, the move step returns normally, and once the create call
    has answered with a well-formed spreadsheet the handler returns that
    spreadsheet's id, its title (the requested one when the answer has
    none), the titles of its sheets in order and the folder; the state it
    ends in is the one the move step leaves after the create call.  In
    particular, when the first Drive call of the move raises, that same
    result is returned right after the failed call, with the spreadsheet
    created and nothing more sent. *)
Theorem create_spreadsheet_survives_move_failure :
  forall title (s s1 : state W) lc svc (reply props : dict)
         (sheets titles : list pyval) w2 folder,
    ensure_authenticated s = (inr lc, s1) ->
    sheets_service lc = Some svc ->
    folder_id lc = Some folder ->
    nonempty folder = true ->
    run _ (Execute svc "spreadsheets.create"
             [("body", PDict [("properties", PDict [("title", PStr title)])]);
              ("fields", PStr "spreadsheetId,properties,sheets")]) (world s1)
      = (inr (PDict reply), w2) ->
    dget reply "properties" (PDict []) = PDict props ->
    dget reply "sheets" (PList []) = PList sheets ->
    Forall2 (fun sheet shown =>
               exists entry sheet_props,
                 sheet = PDict entry /\
                 dget entry "properties" (PDict []) = PDict sheet_props /\
                 shown = dget sheet_props "title" (PStr "Sheet1")) sheets titles ->
    let created :=
      mkState w2
        (log s1 ++ [Called (Execute svc "spreadsheets.create"
                          [("body", PDict [("properties", PDict [("title", PStr title)])]);
                           ("fields", PStr "spreadsheetId,properties,sheets")])])%list
        (session s1) in
    let moved :=
      move_to_folder (drive_service lc) (dget reply "spreadsheetId" PNone) folder
        created in
    let result :=
      PDict [("spreadsheetId", dget reply "spreadsheetId" PNone);
             ("title", dget props "title" (PStr title));
             ("sheets", PList titles);
             ("folder", PStr folder)] in
    fst moved = inr tt /\
    create_spreadsheet title s = (inr result, snd moved) /\
    (forall drive e w3,
        drive_service lc = Some drive ->
        run _ (Execute drive "files.get"
                 [("fileId", dget reply "spreadsheetId" PNone);
                  ("fields", PStr "parents")]) w2 = (inl e, w3) ->
        create_spreadsheet title s
          = (inr result,
             mkState w3
               (log created
                  ++ [Called (Execute drive "files.get"
                                [("fileId", dget reply "spreadsheetId" PNone);
                                 ("fields", PStr "parents")])])%list
               (session s1))).
Proof.
  intros title s s1 lc svc reply props sheets titles w2 folder
    Hauth Hsvc Hfolder Hnonempty Hcreate Hprops Hsheets Htitles created moved result.
  pose proof (move_to_folder_caught (drive_service lc)
                (dget reply "spreadsheetId" PNone) folder created) as Hmoved.
  fold moved in Hmoved.
  assert (Hsummary :
            created_summary title (Some folder) (PDict reply)
              (dget reply "spreadsheetId" PNone) = inr result).
  { unfold created_summary. cbn [py_get rbind]. rewrite Hprops. cbn [py_get rbind].
    rewrite Hsheets. cbn [py_iter rbind].
    rewrite (sheet_titles_listing sheets titles Htitles). cbn [rbind].
    now rewrite Hnonempty. }
  assert (Hreturn : create_spreadsheet title s = (inr result, snd moved)).
  { unfold create_spreadsheet.
    rewrite (bind_ok _ _ _ _ _ Hauth). cbv zeta. rewrite Hsvc, Hfolder, Hnonempty.
    unfold bind at 1. unfold api, call. rewrite Hcreate.
    unfold bind at 1. unfold lift at 1. cbn [py_get].
    fold created. unfold bind. fold moved.
    destruct moved as [[e | []] s3]; [discriminate |].
    unfold lift. now rewrite Hsummary. }
  split; [exact Hmoved |]. split; [exact Hreturn |].
  intros drive e w3 Hdrive Hget. rewrite Hreturn. f_equal.
  unfold moved, created, move_to_folder, try_except. rewrite Hdrive.
  unfold bind at 1. unfold api, call. cbn [world]. rewrite Hget. reflexivity.
Qed.

(** A raise of the Drive call whose details can be read is caught and
    recorded as that recipient's failure. *)
Lemma share_step_failure drive sid notify (recipient : dict) successes failures
    (s : state W) e w' details :
  truthy (dget recipient "email_address" PNone) = true ->
  existsb (py_eq_str (dget recipient "role" (PStr "writer")))
    ["reader"; "commenter"; "writer"] = true ->
  run _ (Execute drive "permissions.create"
           [("fileId", PStr sid);
            ("body", PDict [("type", PStr "user");
                            ("role", dget recipient "role" (PStr "writer"));
                            ("emailAddress", dget recipient "email_address" PNone)]);
            ("sendNotificationEmail", PBool notify);
            ("fields", PStr "id")]) (world s) = (inl e, w') ->
  share_error_details json_loads e = inr details ->
  fst (share_step (Some drive) sid notify recipient successes failures s)
    = inr (successes,
           (failures ++ [PDict [("email_address", dget recipient "email_address" PNone);
                                ("error", PStr ("Failed to share: "
                                                  ++ py_format details))]])%list).
Proof.
  intros Hemail Hrole Hrun Hdetails. unfold share_step.
  rewrite Hemail, Hrole. cbn [negb].
  unfold try_except, bind at 1. unfold api, call. rewrite Hrun.
  unfold bind, lift. now rewrite Hdetails.
Qed.

(** ** Credential resolution *)

(** The inline blob is tried first; when it yields credentials, nothing
    else is consulted: the only calls are the one that builds the
    credentials from the blob and the two client constructions. *)
Lemma authenticate_inline_wins (s : state W) blob info c w1 :
  CREDENTIALS_CONFIG cfg = Some blob ->
  nonempty blob = true ->
  json_loads blob = inr info ->
  run _ (FromServiceAccountInfo info SCOPES) (world s) = (inr c, w1) ->
  authenticate_google_services s
    = (sheets <- call (Build "sheets" "v4" c) ;;
       drive <- call (Build "drive" "v3" c) ;;
       ret (sheets, drive))
        (mkState w1 (log s ++ [Called (FromServiceAccountInfo info SCOPES)])%list
           (session s)).
Proof.
  intros Hcfg Hblob Hjson Hrun. unfold authenticate_google_services.
  rewrite Hcfg, Hblob, Hjson.
  unfold bind at 1. unfold bind at 1. unfold lift at 1.
  unfold bind at 1. unfold call at 1. rewrite Hrun.
  reflexivity.
Qed.

(** A raise while the inline blob is parsed leaves the function at once:
    no later strategy is tried. *)
Lemma authenticate_inline_error (s : state W) blob e :
  CREDENTIALS_CONFIG cfg = Some blob ->
  nonempty blob = true ->
  json_loads blob = inl e ->
  authenticate_google_services s = (inl e, s).
Proof.
  intros Hcfg Hblob Hjson. unfold authenticate_google_services.
  rewrite Hcfg, Hblob, Hjson. reflexivity.
Qed.

(** ** State relations kept by every tool *)

Section Preorder.

Variable R : state W -> state W -> Prop.
Hypothesis R_refl : forall s, R s s.
Hypothesis R_trans : forall a b c, R a b -> R b c -> R a c.

Lemma respects_ret {A : Type} (a : A) : respects R (ret a).
Proof. intros s. apply R_refl. Qed.

Lemma respects_raise {A : Type} (e : exn) : respects R (@raise W A e).
Proof. intros s. apply R_refl. Qed.

Lemma respects_lift {A : Type} (r : res A) : respects R (lift r).
Proof. intros s. apply R_refl. Qed.

Lemma respects_bind {A B : Type} (m : M W A) (f : A -> M W B) :
  respects R m -> (forall a, respects R (f a)) -> respects R (bind m f).
Proof.
  intros Hm Hf s. unfold bind. specialize (Hm s).
  destruct (m s) as [[e | a] s1]; simpl in *; [assumption |].
  exact (R_trans _ _ _ Hm (Hf a s1)).
Qed.

Lemma respects_try {A : Type} (m : M W A) (h : exn -> M W A) :
  respects R m -> (forall e, respects R (h e)) -> respects R (try_except m h).
Proof.
  intros Hm Hh s. unfold try_except. specialize (Hm s).
  destruct (m s) as [[e | a] s1]; simpl in *; [| assumption].
  exact (R_trans _ _ _ Hm (Hh e s1)).
Qed.

Lemma respects_get_spreadsheet_id spreadsheet_id :
  respects R (get_spreadsheet_id spreadsheet_id).
Proof. intros s. rewrite get_spreadsheet_id_pure. apply R_refl. Qed.

Hypothesis R_ensure : respects R ensure_authenticated.
Hypothesis R_api : forall svc method params, respects R (api svc method params).

Ltac respects :=
  repeat first
    [ solve [auto 2]
    | apply respects_ret
    | apply respects_raise
    | apply respects_lift
    | apply R_api
    | apply R_ensure
    | apply respects_get_spreadsheet_id
    | apply respects_bind; [| intros ?]
    | apply respects_try; [| intros ?]
    | match goal with
      | |- respects _ (match ?x with _ => _ end) => destruct x
      end
    | progress cbv zeta ].

Lemma respects_query_loop svc (queries : list dict) :
  forall results, respects R (query_loop svc queries results).
Proof.
  induction queries as [| query rest IH]; intros results; cbn [query_loop].
  - apply respects_ret.
  - apply respects_bind; [| intros entry; apply IH].
    unfold query_step. respects.
Qed.

Lemma respects_sheet_summary_loop svc spreadsheet_id rows_to_fetch (sheets : list pyval) :
  forall sheet_summaries,
    respects R (sheet_summary_loop svc spreadsheet_id rows_to_fetch sheets
                  sheet_summaries).
Proof.
  induction sheets as [| sheet rest IH]; intros sheet_summaries;
    cbn [sheet_summary_loop].
  - apply respects_ret.
  - apply respects_bind; [| intros entry; apply IH].
    unfold sheet_summary_step. respects.
Qed.

Lemma respects_summary_loop svc rows_to_fetch (spreadsheet_ids : list string) :
  forall summaries, respects R (summary_loop svc rows_to_fetch spreadsheet_ids summaries).
Proof.
  pose proof respects_sheet_summary_loop as Hsheets.
  induction spreadsheet_ids as [| spreadsheet_id rest IH]; intros summaries;
    cbn [summary_loop].
  - apply respects_ret.
  - apply respects_bind; [| intros entry; apply IH].
    unfold summary_step. respects.
Qed.

Lemma respects_share_loop drive sid notify (recipients : list dict) :
  forall successes failures,
    respects R (share_loop drive sid notify recipients successes failures).
Proof.
  induction recipients as [| recipient rest IH]; intros successes failures;
    cbn [share_loop].
  - apply respects_ret.
  - apply respects_bind; [| intros lists; apply IH].
    unfold share_step. respects.
Qed.

(** Whatever relation the session check and the backend requests keep,
    every tool keeps. *)
Lemma respects_call_tool (t : tool) : respects R (call_tool t).
Proof.
  pose proof respects_query_loop as Hquery.
  pose proof respects_summary_loop as Hsummary.
  pose proof respects_share_loop as Hshare.
  destruct t; cbn [call_tool];
    unfold get_sheet_data, get_sheet_formulas, update_cells, batch_update_cells,
      add_rows, append_rows, add_columns, list_sheets, copy_sheet, rename_sheet,
      get_multiple_sheet_data, get_multiple_spreadsheet_summary, create_spreadsheet,
      create_sheet, list_spreadsheets, share_spreadsheet, delete_sheet,
      get_sheet_properties, clear_sheet_data, lookup_sheet_id, move_to_folder;
    respects.
Qed.

Lemma respects_serve (calls : list tool) : forall s, R s (serve calls s).
Proof.
  induction calls as [| t rest IH]; intros s; cbn [serve].
  - apply R_refl.
  - exact (R_trans _ _ _ (respects_call_tool t s) (IH _)).
Qed.

End Preorder.

(** *** The session lifecycle *)

Lemma session_step_refl (c : SpreadsheetContext) : session_step c c.
Proof. now left. Qed.

Lemma session_step_trans (a b c : SpreadsheetContext) :
  session_step a b -> session_step b c -> session_step a c.
Proof.
  intros [-> | (Ha & sheets & drive & ->)] Hbc; [exact Hbc |].
  destruct Hbc as [-> | (Hb & _)].
  - right. split; [exact Ha | now exists sheets, drive].
  - discriminate Hb.
Qed.

Lemma lifecycle_ensure_authenticated : respects lifecycle_step ensure_authenticated.
Proof.
  intros s. unfold lifecycle_step.
  destruct (_authenticated (session s)) eqn:Hauth.
  - rewrite (ensure_authenticated_cached s Hauth). apply session_step_refl.
  - rewrite (ensure_authenticated_fresh s Hauth).
    pose proof (keeps_authenticate s) as Hkeep.
    destruct (authenticate_google_services s) as [[e | services] s1]; simpl in *.
    + rewrite Hkeep. apply session_step_refl.
    + right. split; [exact Hauth |]. rewrite Hkeep. now eexists; eexists.
Qed.

Lemma lifecycle_api svc method params : respects lifecycle_step (api svc method params).
Proof.
  intros s. unfold lifecycle_step. rewrite (keeps_api svc method params s).
  apply session_step_refl.
Qed.

Lemma lifecycle_serve (calls : list tool) (s : state W) :
  session_step (session s) (session (serve calls s)).
Proof.
  apply (respects_serve lifecycle_step).
  - intros s0. apply session_step_refl.
  - intros a b c. apply session_step_trans.
  - exact lifecycle_ensure_authenticated.
  - exact lifecycle_api.
Qed.

(** Over any sequence of tool calls, from any state, the shared session
    either stays as it was or makes the one transition from unauthenticated
    to authenticated with both client handles set; so the working folder
    never changes, and a session in which "authenticated" implies "both
    handles present" stays such. *)
Theorem serve_session_lifecycle (calls : list tool) (s : state W) :
  session_step (session s) (session (serve calls s)) /\
  folder_id (session (serve calls s)) = folder_id (session s) /\
  (session_ok (session s) -> session_ok (session (serve calls s))).
Proof.
  pose proof (lifecycle_serve calls s) as Hstep.
  split; [exact Hstep |].
  destruct Hstep as [-> | (Hfresh & sheets & drive & ->)].
  - now split.
  - split; [reflexivity |]. intros _ _. split; discriminate.
Qed.

(** The session a fresh process starts with satisfies the invariant and
    keeps it, with the configured folder, whatever tools are called. *)
Theorem served_session_invariant (calls : list tool) (w : W) :
  let s := serve calls (mkState w [] (initial_context cfg)) in
  session_ok (session s) /\
  folder_id (session s)
    = (if String.eqb (DRIVE_FOLDER_ID cfg) "" then None else Some (DRIVE_FOLDER_ID cfg)).
Proof.
  cbv zeta.
  destruct (lifecycle_serve calls (mkState w [] (initial_context cfg)))
    as [-> | (_ & sheets & drive & ->)].
  - split; [| reflexivity]. intros Hauth. discriminate Hauth.
  - split; [| reflexivity]. intros _. split; discriminate.
Qed.

(** *** Authenticated sessions *)

Lemma logged_only_refl keep (s : state W) : logged_only keep s s.
Proof. exists []. split; [now rewrite app_nil_r | reflexivity]. Qed.

Lemma logged_only_trans keep (a b c : state W) :
  logged_only keep a b -> logged_only keep b c -> logged_only keep a c.
Proof.
  intros (e1 & Hab & H1) (e2 & Hbc & H2). exists (e1 ++ e2)%list. split.
  - now rewrite Hbc, Hab, app_assoc.
  - now rewrite forallb_app, H1, H2.
Qed.

Lemma steady_step_refl (s : state W) : steady_step s s.
Proof. intros _. split; [reflexivity | apply logged_only_refl]. Qed.

Lemma steady_step_trans (a b c : state W) :
  steady_step a b -> steady_step b c -> steady_step a c.
Proof.
  intros Hab Hbc Hauth. destruct (Hab Hauth) as [Hsession Hlog].
  destruct Hbc as [Hsession' Hlog']; [now rewrite Hsession |].
  split; [now rewrite Hsession' | exact (logged_only_trans _ _ _ _ Hlog Hlog')].
Qed.

Lemma steady_ensure_authenticated : respects steady_step ensure_authenticated.
Proof.
  intros s Hauth. rewrite (ensure_authenticated_cached s Hauth).
  split; [reflexivity | apply logged_only_refl].
Qed.

Lemma steady_api svc method params : respects steady_step (api svc method params).
Proof.
  intros s _. split; [apply keeps_api |].
  destruct svc as [h |]; [| apply logged_only_refl].
  unfold api, call. destruct (run _ _ _) as [r w']. cbn [snd log].
  exists [Called (Execute h method params)]. now split.
Qed.

(** Once the session is authenticated it is final: whatever tools are
    called afterwards, the session (flag, both handles, folder) stays
    exactly as it is, and nothing but backend requests is logged: no
    credential source is consulted again. *)
Theorem authenticated_session_is_final (calls : list tool) (s : state W) :
  _authenticated (session s) = true ->
  session (serve calls s) = session s /\
  logged_only is_backend_request s (serve calls s).
Proof.
  apply (respects_serve steady_step).
  - exact steady_step_refl.
  - exact steady_step_trans.
  - exact steady_ensure_authenticated.
  - exact steady_api.
Qed.

(** ** The spreadsheet id *)

Lemma get_spreadsheet_id_missing (s : state W) :
  DEFAULT_SPREADSHEET_ID cfg = None \/ DEFAULT_SPREADSHEET_ID cfg = Some "" ->
  get_spreadsheet_id None s = (inl spreadsheet_id_required, s).
Proof. unfold get_spreadsheet_id. now intros [-> | ->]. Qed.

(** With no spreadsheet id given and no default (unset or empty), the
    handlers that take an optional id raise the ValueError before anything
    else happens: no authentication, no request, the state as it was, even
    on an unauthenticated session.  [batch_update_cells] is the exception:
    it authenticates first, so its state is the one authentication leaves
    and an authentication error comes before the ValueError. *)
Theorem missing_spreadsheet_id_raises_first (s : state W) :
  DEFAULT_SPREADSHEET_ID cfg = None \/ DEFAULT_SPREADSHEET_ID cfg = Some "" ->
  (forall sheet range,
      get_sheet_data sheet None range s = (inl spreadsheet_id_required, s)) /\
  (forall sheet range,
      get_sheet_formulas sheet None range s = (inl spreadsheet_id_required, s)) /\
  (forall sheet range data,
      update_cells sheet range data None s = (inl spreadsheet_id_required, s)) /\
  (forall sheet count start,
      add_rows sheet count None start s = (inl spreadsheet_id_required, s)) /\
  (forall sheet data,
      append_rows sheet data None s = (inl spreadsheet_id_required, s)) /\
  (forall sheet count start,
      add_columns sheet count None start s = (inl spreadsheet_id_required, s)) /\
  list_sheets None s = (inl spreadsheet_id_required, s) /\
  (forall title, create_sheet title None s = (inl spreadsheet_id_required, s)) /\
  (forall recipients notify,
      share_spreadsheet recipients None notify s = (inl spreadsheet_id_required, s)) /\
  (forall sheet, delete_sheet sheet None s = (inl spreadsheet_id_required, s)) /\
  (forall sheet, get_sheet_properties sheet None s = (inl spreadsheet_id_required, s)) /\
  (forall sheet range,
      clear_sheet_data sheet None range s = (inl spreadsheet_id_required, s)) /\
  (forall sheet ranges,
      batch_update_cells sheet ranges None s
        = match ensure_authenticated s with
          | (inl e, s1) => (inl e, s1)
          | (inr _, s1) => (inl spreadsheet_id_required, s1)
          end).
Proof.
  intros Hdefault.
  pose proof (fun s0 => get_spreadsheet_id_missing s0 Hdefault) as Hid.
  repeat split; intros;
    try (unfold get_sheet_data, get_sheet_formulas, update_cells, add_rows,
           append_rows, add_columns, list_sheets, create_sheet, share_spreadsheet,
           delete_sheet, get_sheet_properties, clear_sheet_data;
         exact (bind_err _ _ _ _ _ (Hid s))).
  unfold batch_update_cells, bind at 1.
  destruct (ensure_authenticated s) as [[e | lc] s1]; [reflexivity |].
  exact (bind_err _ _ _ _ _ (Hid s1)).
Qed.

(** ** More on credential resolution *)

Lemma bind_assoc {A B C : Type} (m : M W A) (f : A -> M W B) (g : B -> M W C) s :
  bind (bind m f) g s = bind m (fun a => bind (f a) g) s.
Proof. unfold bind. now destruct (m s) as [[e | a] s1]. Qed.

Lemma bind_ext {A B : Type} (m : M W A) (f g : A -> M W B) s :
  (forall a s1, f a s1 = g a s1) -> bind m f s = bind m g s.
Proof. intros Hfg. unfold bind. destruct (m s) as [[e | a] s1]; [reflexivity | apply Hfg]. Qed.

(** The function is the resolution of the credentials followed by the
    construction of the two clients. *)
Lemma authenticate_split (s : state W) :
  authenticate_google_services s = bind resolve_credentials build_services s.
Proof.
  unfold authenticate_google_services, resolve_credentials.
  rewrite bind_assoc. apply bind_ext. intros inline s1.
  rewrite bind_assoc. apply bind_ext. intros from_file s2.
  rewrite bind_assoc. apply bind_ext. intros from_oauth s3.
  reflexivity.
Qed.

Lemma logged_call (keep : event -> bool) {R : Type} (c : ext R) :
  keep (Called c) = true -> respects (logged_only keep) (call c).
Proof.
  intros Hkeep s. unfold call. destruct (run R c (world s)) as [r w']. cbn [snd log].
  exists [Called c]. split; [reflexivity |]. cbn [forallb]. now rewrite Hkeep.
Qed.

Ltac logged :=
  repeat first
    [ solve [auto 2]
    | apply respects_ret; intros ?; apply logged_only_refl
    | apply respects_raise; intros ?; apply logged_only_refl
    | apply respects_lift; intros ?; apply logged_only_refl
    | apply logged_call; reflexivity
    | apply respects_bind; [intros ? ? ?; apply logged_only_trans | | intros ?]
    | apply respects_try; [intros ? ? ?; apply logged_only_trans | | intros ?]
    | match goal with
      | |- respects _ (match ?x with _ => _ end) => destruct x
      end ].

Lemma logged_installed_app_flow :
  respects (logged_only is_credential_source) installed_app_flow.
Proof. unfold installed_app_flow. logged. Qed.

Lemma logged_oauth_flow : respects (logged_only is_credential_source) oauth_flow.
Proof. pose proof logged_installed_app_flow. unfold oauth_flow. logged. Qed.

(** Credential resolution consults credential sources only: whatever
    happens, it logs no backend request, and it leaves the session alone. *)
Theorem authenticate_no_backend_request (s : state W) :
  logged_only is_credential_source s (snd (authenticate_google_services s)) /\
  session (snd (authenticate_google_services s)) = session s.
Proof.
  split; [| apply keeps_authenticate].
  revert s. change (respects (logged_only is_credential_source)
                      authenticate_google_services).
  pose proof logged_oauth_flow.
  unfold authenticate_google_services. logged.
Qed.

(** With a non-empty inline blob configured, resolution never looks at the
    service-account file, the stored token, the consent flow or the
    ambient credentials, whether it succeeds or fails: the only calls are
    the one that reads the blob and the client constructions. *)
Theorem inline_blob_excludes_other_sources (s : state W) blob :
  CREDENTIALS_CONFIG cfg = Some blob ->
  nonempty blob = true ->
  logged_only is_inline_or_build s (snd (authenticate_google_services s)).
Proof.
  intros Hcfg Hblob. unfold authenticate_google_services.
  rewrite Hcfg, Hblob. unfold bind at 1. unfold bind at 1. unfold lift at 1.
  destruct (json_loads blob) as [e | info]; [apply logged_only_refl |].
  unfold bind at 1. unfold call at 1.
  destruct (run _ (FromServiceAccountInfo info SCOPES) (world s)) as [[e | c] w1].
  - eexists. split; [reflexivity | reflexivity].
  - cbn [ret]. unfold bind, call; cbn [ret world log session].
    destruct (run _ (Build "sheets" "v4" c) w1) as [[e | sheets] w2];
      cbn [world log session snd];
      [eexists; rewrite <- ?app_assoc; split; reflexivity |].
    destruct (run _ (Build "drive" "v3" c) w2) as [[e | drive] w3];
      cbn [world log session snd];
      eexists; rewrite <- ?app_assoc; split; reflexivity.
Qed.

(** Without an inline blob, a service-account file that exists and loads
    decides: the clients are built from its credentials, after exactly the
    existence check and the load; the stored token and the ambient
    credentials are not consulted. *)
Theorem service_account_file_wins (s : state W) c w1 w2 :
  no_inline_blob ->
  nonempty (SERVICE_ACCOUNT_PATH cfg) = true ->
  run _ (PathExists (SERVICE_ACCOUNT_PATH cfg)) (world s) = (inr true, w1) ->
  run _ (FromServiceAccountFile (SERVICE_ACCOUNT_PATH cfg) SCOPES) w1 = (inr c, w2) ->
  authenticate_google_services s
    = build_services c
        (mkState w2
           (log s ++ [Called (PathExists (SERVICE_ACCOUNT_PATH cfg));
                      Called (FromServiceAccountFile (SERVICE_ACCOUNT_PATH cfg) SCOPES)])%list
           (session s)).
Proof.
  intros Hinline Hpath Hexists Hload. unfold authenticate_google_services.
  assert (Hfirst : forall (k : option creds -> M W (service * service)),
             bind (match CREDENTIALS_CONFIG cfg with
                   | Some blob =>
                       if nonempty blob
                       then info <- lift (json_loads blob) ;;
                            c0 <- call (FromServiceAccountInfo info SCOPES) ;;
                            ret (Some c0)
                       else ret None
                   | None => ret None
                   end) k s = k None s).
  { intros k. destruct Hinline as [-> | ->]; reflexivity. }
  rewrite Hfirst. rewrite Hpath.
  unfold bind at 1. unfold bind at 1. unfold call at 1. rewrite Hexists.
  unfold try_except, bind at 1. unfold call at 1. cbn [world log session].
  rewrite Hload. cbn [ret]. rewrite <- app_assoc. reflexivity.
Qed.

(** Both clients come from the one resolved credential, the Sheets client
    first; authentication succeeds only if both constructions do. *)
Theorem services_share_credentials (s s' : state W) sheets drive :
  authenticate_google_services s = (inr (sheets, drive), s') ->
  exists c s1 w2,
    resolve_credentials s = (inr c, s1) /\
    run _ (Build "sheets" "v4" c) (world s1) = (inr sheets, w2) /\
    run _ (Build "drive" "v3" c) w2 = (inr drive, world s').
Proof.
  rewrite authenticate_split. unfold bind at 1.
  destruct (resolve_credentials s) as [[e | c] s1]; [discriminate |].
  unfold build_services, bind, call, ret.
  destruct (run _ (Build "sheets" "v4" c) (world s1)) as [[e | sheets'] w2] eqn:Hsheets;
    cbn [world log session]; [discriminate |].
  destruct (run _ (Build "drive" "v3" c) w2) as [[e | drive'] w3] eqn:Hdrive;
    cbn [world log session]; [discriminate |].
  intros [= <- <- <-]. exists c, s1, w2. repeat split; assumption.
Qed.

Lemma call_outcome {R : Type} (c : ext R) (s : state W) (r : res R) :
  fst (run R c (world s)) = r ->
  call c s = (r, mkState (snd (run R c (world s))) (log s ++ [Called c])%list (session s)).
Proof. intros <-. unfold call. now destruct (run R c (world s)). Qed.

Lemma no_inline_blob_skips {A : Type} (k : option creds -> M W A) (s : state W) :
  no_inline_blob ->
  bind (match CREDENTIALS_CONFIG cfg with
        | Some blob =>
            if nonempty blob
            then info <- lift (json_loads blob) ;;
                 c <- call (FromServiceAccountInfo info SCOPES) ;;
                 ret (Some c)
            else ret None
        | None => ret None
        end) k s = k None s.
Proof. intros [-> | ->]; reflexivity. Qed.

(** The consent flow that cannot start yields no credentials and no raise. *)
Lemma installed_app_flow_unavailable (s : state W) :
  (forall w, exists e,
      fst (run _ (FlowFromClientSecrets (CREDENTIALS_PATH cfg) SCOPES) w) = inl e) ->
  exists s1, installed_app_flow s = (inr None, s1) /\ session s1 = session s.
Proof.
  intros Hflow. destruct (Hflow (world s)) as [e He].
  unfold installed_app_flow, try_except.
  rewrite (bind_err _ _ _ _ _ (call_outcome _ s _ He)).
  eexists. split; reflexivity.
Qed.

(** With no inline blob, no credential file on disk and a consent flow
    that cannot start, resolution ends at the ambient default credentials:
    they are used when there are any; otherwise the error is the
    all-methods-failed one, whatever error the discovery raised. *)
Theorem ambient_default_is_last_resort (s : state W) :
  no_inline_blob ->
  (forall path w, fst (run _ (PathExists path) w) = inr false) ->
  (forall w, exists e,
      fst (run _ (FlowFromClientSecrets (CREDENTIALS_PATH cfg) SCOPES) w) = inl e) ->
  exists s3,
    session s3 = session s /\
    resolve_credentials s
      = match run _ (GoogleAuthDefault SCOPES) (world s3) with
        | (inr found, w4) =>
            (inr (fst found),
             mkState w4 (log s3 ++ [Called (GoogleAuthDefault SCOPES)])%list (session s))
        | (inl _, w4) =>
            (inl all_methods_failed,
             mkState w4 (log s3 ++ [Called (GoogleAuthDefault SCOPES)])%list (session s))
        end.
Proof.
  intros Hinline Hexists Hflow.
  assert (Holder : forall s0 : state W, exists s2,
             oauth_flow s0 = (inr None, s2) /\ session s2 = session s0).
  { intros s0. unfold oauth_flow.
    rewrite (bind_ok _ _ _ _ _ (call_outcome _ s0 _ (Hexists _ _))).
    unfold bind at 1. cbn [ret].
    match goal with
    | |- context [installed_app_flow ?st] =>
        destruct (installed_app_flow_unavailable st Hflow) as (s2 & Hflow2 & Hs2)
    end.
    exists s2. split; [exact Hflow2 | exact Hs2]. }
  assert (Hfile : exists s1,
             session s1 = session s /\
             forall (k : option creds -> M W creds),
               bind (if nonempty (SERVICE_ACCOUNT_PATH cfg)
                     then found <- call (PathExists (SERVICE_ACCOUNT_PATH cfg)) ;;
                          if found : bool
                          then try_except
                                 (c <- call (FromServiceAccountFile
                                               (SERVICE_ACCOUNT_PATH cfg) SCOPES) ;;
                                  ret (Some c))
                                 (fun _ => ret None)
                          else ret None
                     else ret None) k s = k None s1).
  { destruct (nonempty (SERVICE_ACCOUNT_PATH cfg)).
    - eexists. split; [| intros k].
      2: { rewrite bind_assoc.
           rewrite (bind_ok _ _ _ _ _ (call_outcome _ s _ (Hexists _ _))).
           reflexivity. }
      reflexivity.
    - exists s. split; [reflexivity | reflexivity]. }
  destruct Hfile as (s1 & Hs1 & Hfile).
  destruct (Holder s1) as (s2 & Hoauth & Hs2).
  exists s2. split; [now rewrite Hs2 |].
  unfold resolve_credentials.
  rewrite (no_inline_blob_skips _ s Hinline). rewrite Hfile.
  rewrite (bind_ok _ _ _ _ _ Hoauth).
  unfold try_except, bind, call. rewrite Hs2, Hs1.
  destruct (run _ (GoogleAuthDefault SCOPES) (world s2)) as [[e | found] w4];
    reflexivity.
Qed.

(** A stored token that loads is reused: when valid as it is, with no
    refresh; when expired with a refresh token, after one refresh, whose
    raise is not caught and ends resolution.  In neither case is the
    consent flow run or the token file written. *)
Theorem stored_token_is_reused (s : state W) info c w1 w2 w3 :
  run _ (PathExists (TOKEN_PATH cfg)) (world s) = (inr true, w1) ->
  run _ (ReadJsonFile (TOKEN_PATH cfg)) w1 = (inr info, w2) ->
  run _ (FromAuthorizedUserInfo info SCOPES) w2 = (inr c, w3) ->
  let loaded :=
    (log s ++ [Called (PathExists (TOKEN_PATH cfg));
               Called (ReadJsonFile (TOKEN_PATH cfg));
               Called (FromAuthorizedUserInfo info SCOPES)])%list in
  (valid c = true ->
     oauth_flow s = (inr (Some c), mkState w3 loaded (session s))) /\
  (valid c = false ->
   expired c = true ->
   (exists t, refresh_token c = Some t /\ t <> "") ->
     oauth_flow s
       = match run _ (Refresh c) w3 with
         | (inr refreshed, w4) =>
             (inr (Some refreshed),
              mkState w4 (loaded ++ [Called (Refresh c)])%list (session s))
         | (inl e, w4) =>
             (inl e, mkState w4 (loaded ++ [Called (Refresh c)])%list (session s))
         end).
Proof.
  intros Hexists Hread Hinfo loaded.
  assert (Hprefix :
            oauth_flow s
              = (if valid c then ret (Some c)
                 else if expired c && match refresh_token c with
                                      | Some t => nonempty t
                                      | None => false
                                      end
                      then c' <- call (Refresh c) ;; ret (Some c')
                      else installed_app_flow)
                  (mkState w3 loaded (session s))).
  { unfold oauth_flow. unfold bind at 1. unfold call at 1. rewrite Hexists.
    unfold bind at 1. unfold bind at 1. unfold call at 1. cbn [world log session].
    rewrite Hread. unfold bind at 1. unfold call at 1. cbn [world log session].
    rewrite Hinfo. cbn [ret]. unfold loaded. rewrite <- !app_assoc. reflexivity. }
  split.
  - intros Hvalid. now rewrite Hprefix, Hvalid.
  - intros Hvalid Hexpired (t & Htoken & Hne).
    rewrite Hprefix, Hvalid, Hexpired, Htoken, (nonempty_true t Hne). cbn [andb].
    unfold bind, call. cbn [world log session].
    destruct (run _ (Refresh c) w3) as [[e | refreshed] w4]; reflexivity.
Qed.

(** ** Finding a sheet by name *)

(** The first sheet of the listing titled [sheet] decides the lookup: its
    id is returned, whatever it is, and the entries after it are not
    examined (a second sheet of that title or a malformed entry there
    changes nothing).  Sheets before it only need a title. *)
Theorem find_sheet_id_first_match (before after : list pyval) (s id : pyval)
    (sheet : string) :
  Forall (other_sheet sheet) before ->
  listed_sheet sheet id s ->
  find_sheet_id (before ++ s :: after) sheet = inr id.
Proof.
  intros Hbefore (props & Hprops & Htitle & Hid).
  induction Hbefore as [| s0 rest (props0 & title0 & Hp0 & Ht0 & Hne) _ IH];
    cbn [app find_sheet_id].
  - rewrite Hprops. cbn [rbind]. rewrite Htitle. cbn [rbind py_eq_str].
    now rewrite String.eqb_refl, Hid.
  - rewrite Hp0. cbn [rbind]. rewrite Ht0. cbn [rbind]. now rewrite Hne.
Qed.

Lemma py_eq_str_false_iff (title sheet : string) :
  py_eq_str (PStr title) sheet = false <-> title <> sheet.
Proof.
  cbn [py_eq_str]. destruct (String.eqb_spec title sheet); split; congruence.
Qed.

Lemma titles_of_listing (sheets : list pyval) (listing : list (string * Z)) :
  Forall2 (fun sheet entry => listed_sheet (fst entry) (PInt (snd entry)) sheet)
    sheets listing ->
  titles_of sheets = inr (map (fun entry => PStr (fst entry)) listing) /\
  forall name,
    find_sheet_id sheets name
      = inr (match first_id name listing with
             | Some id => PInt id
             | None => PNone
             end).
Proof.
  induction 1 as [| sheet [title id] sheets listing (props & Hprops & Htitle & Hid) _
                    [IHtitles IHfind]];
    [split; reflexivity |].
  cbn [fst snd] in *. split.
  - cbn [titles_of map fst]. rewrite Hprops. cbn [rbind]. rewrite Htitle. cbn [rbind].
    now rewrite IHtitles.
  - intros name. cbn [find_sheet_id first_id]. rewrite Hprops. cbn [rbind].
    rewrite Htitle. cbn [rbind py_eq_str].
    destruct (String.eqb title name); [now rewrite Hid | apply IHfind].
Qed.

Lemma first_id_spec (name : string) (listing : list (string * Z)) :
  (In name (map fst listing) ->
   exists id, first_id name listing = Some id /\ In (name, id) listing) /\
  (~ In name (map fst listing) -> first_id name listing = None).
Proof.
  induction listing as [| [title id] rest [IHin IHout]]; cbn [first_id map fst In].
  - split; [intros [] | reflexivity].
  - destruct (String.eqb_spec title name) as [-> | Hne]; split.
    + intros _. exists id. split; [reflexivity | now left].
    + intros Hnot. exfalso. apply Hnot. now left.
    + intros [Heq | Hin]; [contradiction |].
      destruct (IHin Hin) as (id' & Hfirst & Hmember).
      exists id'. split; [exact Hfirst | now right].
    + intros Hnot. apply IHout. intros Hin. apply Hnot. now right.
Qed.

(** On a listing whose sheets all have a text title and an integer id,
    [list_sheets] returns the titles of the sheets, one per sheet and in
    the order of the listing, after that single request; and the names it
    reports are the sheets the lookup by name finds on the same listing:
    for every name the lookup yields the id of the first sheet so titled,
    so a reported name is found with the id of a sheet of that name and an
    unreported one is not found. *)
Theorem listed_names_are_found
    spreadsheet_id sid (s s1 : state W) lc svc (spreadsheet : pyval) w2
    (sheets : list pyval) (listing : list (string * Z)) :
  get_spreadsheet_id spreadsheet_id s = (inr sid, s) ->
  ensure_authenticated s = (inr lc, s1) ->
  sheets_service lc = Some svc ->
  run _ (Execute svc "spreadsheets.get" [("spreadsheetId", PStr sid)]) (world s1)
    = (inr spreadsheet, w2) ->
  subscript spreadsheet "sheets" = inr (PList sheets) ->
  Forall2 (fun sheet entry => listed_sheet (fst entry) (PInt (snd entry)) sheet)
    sheets listing ->
  let listed :=
    mkState w2
      (log s1 ++ [Called (Execute svc "spreadsheets.get"
                        [("spreadsheetId", PStr sid)])])%list
      (session s1) in
  list_sheets spreadsheet_id s
    = (inr (PList (map (fun entry => PStr (fst entry)) listing)), listed) /\
  forall name,
    lookup_sheet_id (Some svc) sid name s1
      = (inr (match first_id name listing with
              | Some id => PInt id
              | None => PNone
              end), listed) /\
    (In name (map fst listing) ->
     exists id, first_id name listing = Some id /\ In (name, id) listing) /\
    (~ In name (map fst listing) -> first_id name listing = None).
Proof.
  intros Hid Hauth Hsvc Hrun Hsheets Hlisting listed.
  destruct (titles_of_listing sheets listing Hlisting) as [Htitles Hfind].
  assert (Hsent : call (Execute svc "spreadsheets.get" [("spreadsheetId", PStr sid)]) s1
                  = (inr spreadsheet, listed)).
  { unfold call. now rewrite Hrun. }
  split.
  - unfold list_sheets.
    rewrite (bind_ok _ _ _ _ _ Hid), (bind_ok _ _ _ _ _ Hauth), Hsvc.
    cbn [api]. rewrite (bind_ok _ _ _ _ _ Hsent).
    unfold bind, lift. rewrite Hsheets. cbn [py_iter]. now rewrite Htitles.
  - intros name. split; [| apply first_id_spec].
    unfold lookup_sheet_id. cbn [api]. rewrite (bind_ok _ _ _ _ _ Hsent).
    unfold bind, lift. rewrite Hsheets. cbn [py_iter]. now rewrite Hfind.
Qed.

(** A sheet that is found is acted on under its own id, an id of 0
    included (only [None] means "not found"): [delete_sheet] and
    [rename_sheet] send one [batchUpdate] that names that id. *)
Theorem found_sheet_is_addressed_by_id
    (s s1 s2 : state W) lc svc sheet sheet_id :
  ensure_authenticated s = (inr lc, s1) ->
  sheets_service lc = Some svc ->
  is_none sheet_id = false ->
  (forall spreadsheet_id sid,
      get_spreadsheet_id spreadsheet_id s = (inr sid, s) ->
      lookup_sheet_id (Some svc) sid sheet s1 = (inr sheet_id, s2) ->
      delete_sheet sheet spreadsheet_id s
        = call (Execute svc "spreadsheets.batchUpdate"
                  [("spreadsheetId", PStr sid);
                   ("body", PDict [("requests", PList [
                      PDict [("deleteSheet", PDict [("sheetId", sheet_id)])]])])]) s2) /\
  (forall spreadsheet new_name,
      lookup_sheet_id (Some svc) spreadsheet sheet s1 = (inr sheet_id, s2) ->
      rename_sheet spreadsheet sheet new_name s
        = call (Execute svc "spreadsheets.batchUpdate"
                  [("spreadsheetId", PStr spreadsheet);
                   ("body", PDict [("requests", PList [
                      PDict [("updateSheetProperties", PDict [
                        ("properties", PDict [("sheetId", sheet_id);
                                              ("title", PStr new_name)]);
                        ("fields", PStr "title")])]])])]) s2) /\
  is_none (PInt 0) = false.
Proof.
  intros Hauth Hsvc Hfound. split; [| split; [| reflexivity]].
  - intros spreadsheet_id sid Hid Hlookup. unfold delete_sheet.
    rewrite (bind_ok _ _ _ _ _ Hid), (bind_ok _ _ _ _ _ Hauth), Hsvc.
    now rewrite (bind_ok _ _ _ _ _ Hlookup), Hfound.
  - intros spreadsheet new_name Hlookup. unfold rename_sheet.
    rewrite (bind_ok _ _ _ _ _ Hauth), Hsvc.
    now rewrite (bind_ok _ _ _ _ _ Hlookup), Hfound.
Qed.

(** ** Copying a sheet *)

(** After the copy, [copy_sheet] renames the new sheet exactly when the
    reply carries a title other than the wanted one.  With the wanted
    title, or with no title in the reply, nothing more is sent and the
    result is the copy alone; otherwise one [batchUpdate] on the
    destination spreadsheet renames the sheet under the id the reply gives,
    and the result holds the copy and the rename. *)
Theorem copy_sheet_renames_when_titles_differ
    (s s1 s2 : state W) lc svc src_spreadsheet src_sheet dst_spreadsheet dst_sheet
    src_sheet_id (reply : dict) w3 :
  ensure_authenticated s = (inr lc, s1) ->
  sheets_service lc = Some svc ->
  lookup_sheet_id (Some svc) src_spreadsheet src_sheet s1 = (inr src_sheet_id, s2) ->
  is_none src_sheet_id = false ->
  run _ (Execute svc "spreadsheets.sheets.copyTo"
           [("spreadsheetId", PStr src_spreadsheet);
            ("sheetId", src_sheet_id);
            ("body", PDict [("destinationSpreadsheetId", PStr dst_spreadsheet)])])
      (world s2) = (inr (PDict reply), w3) ->
  let copied :=
    mkState w3
      (log s2 ++ [Called (Execute svc "spreadsheets.sheets.copyTo"
                        [("spreadsheetId", PStr src_spreadsheet);
                         ("sheetId", src_sheet_id);
                         ("body", PDict [("destinationSpreadsheetId",
                                          PStr dst_spreadsheet)])])])%list
      (session s2) in
  (dict_get "title" reply = None \/ dict_get "title" reply = Some (PStr dst_sheet) ->
     copy_sheet src_spreadsheet src_sheet dst_spreadsheet dst_sheet s
       = (inr (PDict [("copy", PDict reply)]), copied)) /\
  (forall title copy_sheet_id,
      dict_get "title" reply = Some title ->
      py_eq_str title dst_sheet = false ->
      dict_get "sheetId" reply = Some copy_sheet_id ->
      copy_sheet src_spreadsheet src_sheet dst_spreadsheet dst_sheet s
        = (rename_result <-
             call (Execute svc "spreadsheets.batchUpdate"
                     [("spreadsheetId", PStr dst_spreadsheet);
                      ("body", PDict [("requests", PList [
                         PDict [("updateSheetProperties", PDict [
                           ("properties", PDict [("sheetId", copy_sheet_id);
                                                 ("title", PStr dst_sheet)]);
                           ("fields", PStr "title")])]])])]) ;;
           ret (PDict [("copy", PDict reply); ("rename", rename_result)])) copied).
Proof.
  intros Hauth Hsvc Hlookup Hfound Hcopy copied.
  assert (Hcopied : call (Execute svc "spreadsheets.sheets.copyTo"
                            [("spreadsheetId", PStr src_spreadsheet);
                             ("sheetId", src_sheet_id);
                             ("body", PDict [("destinationSpreadsheetId",
                                              PStr dst_spreadsheet)])]) s2
                    = (inr (PDict reply), copied)).
  { unfold call. now rewrite Hcopy. }
  split.
  - intros Htitle. unfold copy_sheet.
    rewrite (bind_ok _ _ _ _ _ Hauth). cbv zeta. rewrite Hsvc.
    rewrite (bind_ok _ _ _ _ _ Hlookup), Hfound.
    cbn [api]. rewrite (bind_ok _ _ _ _ _ Hcopied).
    unfold bind, lift. cbn [py_contains]. unfold has_key.
    destruct Htitle as [-> | Htitle]; [reflexivity |].
    rewrite Htitle. cbn [subscript]. rewrite Htitle. cbn [py_eq_str ret].
    now rewrite String.eqb_refl.
  - intros title copy_sheet_id Htitle Hne Hid. unfold copy_sheet.
    rewrite (bind_ok _ _ _ _ _ Hauth). cbv zeta. rewrite Hsvc.
    rewrite (bind_ok _ _ _ _ _ Hlookup), Hfound.
    cbn [api]. rewrite (bind_ok _ _ _ _ _ Hcopied).
    unfold bind at 1. unfold lift at 1. cbn [py_contains]. unfold has_key.
    rewrite Htitle.
    unfold bind at 1. unfold bind at 1. unfold lift at 1. cbn [subscript].
    rewrite Htitle. cbn [ret]. rewrite Hne. cbn [negb].
    unfold bind at 1. unfold lift at 1. rewrite Hid. reflexivity.
Qed.

(** ** More on the multi-range fetch *)

(** Once the session is there, [get_multiple_sheet_data] never raises: it
    returns one entry per query, in input order, and each entry keeps every
    key of its query other than [data] and [error] with its value.  An
    empty list of queries gives an empty list. *)
Theorem fetch_returns_one_entry_per_query
    (queries : list dict) (s s1 : state W) lc :
  ensure_authenticated s = (inr lc, s1) ->
  exists entries s',
    get_multiple_sheet_data queries s = (inr (PList entries), s') /\
    List.length entries = List.length queries /\
    Forall2 (fun query entry =>
               forall k, k <> "data" -> k <> "error" ->
                         field k entry = dict_get k query)
            queries entries.
Proof.
  intros Hauth. unfold get_multiple_sheet_data. rewrite (bind_ok _ _ _ _ _ Hauth).
  destruct (query_loop_outcome (sheets_service lc) queries [] s1)
    as (entries & s' & Hloop & Hall).
  rewrite (bind_ok _ _ _ _ _ Hloop). exists entries, s'.
  split; [reflexivity |]. split; [symmetry; exact (Forall2_length Hall) |].
  eapply Forall2_impl; [| exact Hall].
  intros query entry Hentry k Hdata Herror.
  destruct Hentry as [[msg ->] | [values ->]]; cbn [field];
    apply dict_get_set_other; now apply String.eqb_neq.
Qed.

Lemma query_step_log (h : service) (query : dict) (s : state W) :
  log (snd (query_step (Some h) query s))
    = (log s ++ (if complete query then [fetch_request h query] else []))%list.
Proof.
  unfold query_step. fold (complete query).
  destruct (complete query); cbn [negb].
  - unfold try_except, bind at 1. unfold api, call.
    destruct (run _ _ (world s)) as [[e | result] w']; [reflexivity |].
    unfold bind, lift. now destruct (py_get result "values" (PList [])).
  - cbn [ret snd]. now rewrite app_nil_r.
Qed.

Lemma query_loop_log (h : service) (queries : list dict) :
  forall results (s : state W),
    log (snd (query_loop (Some h) queries results s))
      = (log s ++ map (fetch_request h) (filter complete queries))%list.
Proof.
  induction queries as [| query rest IH]; intros results s; cbn [query_loop filter].
  - cbn [ret snd map]. now rewrite app_nil_r.
  - pose proof (query_step_log h query s) as Hstep.
    destruct (query_step_outcome (Some h) query s) as (entry & s1 & Hentry & _).
    rewrite Hentry in Hstep. cbn [snd] in Hstep.
    rewrite (bind_ok _ _ _ _ _ Hentry), IH, Hstep.
    destruct (complete query); cbn [map]; now rewrite <- app_assoc.
Qed.

(** The requests of a multi-range fetch are exactly those of its complete
    queries, one each and in input order: an incomplete query costs no
    request, and no failure stops the later requests. *)
Theorem fetch_sends_one_request_per_complete_query
    (queries : list dict) (s s1 : state W) lc h :
  ensure_authenticated s = (inr lc, s1) ->
  sheets_service lc = Some h ->
  log (snd (get_multiple_sheet_data queries s))
    = (log s1 ++ map (fetch_request h) (filter complete queries))%list.
Proof.
  intros Hauth Hsvc. unfold get_multiple_sheet_data.
  rewrite (bind_ok _ _ _ _ _ Hauth), Hsvc.
  pose proof (query_loop_log h queries [] s1) as Hlog.
  unfold bind. destruct (query_loop (Some h) queries [] s1) as [[e | results] s2];
    exact Hlog.
Qed.

(** ** More on the spreadsheet summary *)

(** The rows of one sheet: the request asks for [A1:m] with [m] the number
    of rows to fetch, at least 1; of the rows that come back the first is
    the header and at most [m - 1] of the following ones are kept. *)
Theorem sheet_summary_keeps_leading_rows
    (h : service) spreadsheet_id rows_to_fetch (sheet props : dict) title
    (s : state W) (reply : dict) header rows w' :
  dict_get "properties" sheet = Some (PDict props) ->
  dict_get "title" props = Some (PStr title) ->
  title <> "" ->
  run _ (Execute h "spreadsheets.values.get"
           [("spreadsheetId", PStr spreadsheet_id);
            ("range", PStr (title ++ "!A1:" ++ dec (Z.max 1 rows_to_fetch)))])
      (world s) = (inr (PDict reply), w') ->
  dict_get "values" reply = Some (PList (header :: rows)) ->
  let kept := firstn (Z.to_nat (Z.max 1 rows_to_fetch - 1)) rows in
  fst (sheet_summary_step (Some h) spreadsheet_id rows_to_fetch (PDict sheet) s)
    = inr (PDict [("title", PStr title);
                  ("sheet_id", dget props "sheetId" PNone);
                  ("headers", header);
                  ("first_rows", PList kept);
                  ("error", PNone)]) /\
  (Z.of_nat (List.length kept) <= Z.max 1 rows_to_fetch - 1)%Z /\
  (rows_to_fetch <= 1 -> kept = [])%Z.
Proof.
  intros Hprops Htitle Hne Hrun Hvalues kept.
  split; [| split].
  - unfold sheet_summary_step, bind at 1. unfold lift at 1. cbn [py_get]. unfold dget.
    rewrite Hprops. unfold bind at 1. unfold lift at 1. cbn [py_get]. unfold dget.
    rewrite Htitle. unfold bind at 1. unfold lift at 1.
    unfold bind at 1. unfold lift at 1. cbn [truthy].
    fold (nonempty title). rewrite (nonempty_true title Hne). cbn [negb].
    cbn [py_format]. unfold try_except, bind at 1. unfold api, call. rewrite Hrun.
    unfold bind at 1. unfold lift at 1. cbn [py_get]. unfold dget. rewrite Hvalues.
    cbn [truthy]. unfold bind, lift. cbn [py_first py_len py_slice_from1 List.length].
    destruct rows as [| row rest].
    + assert (Hkept : kept = []) by (unfold kept; apply firstn_nil).
      rewrite Hkept. reflexivity.
    + destruct (1 <? Z.of_nat (S (List.length (row :: rest))))%Z eqn:Hlt;
        [reflexivity |].
      apply Z.ltb_ge in Hlt. cbn [List.length] in Hlt. lia.
  - unfold kept. pose proof (firstn_le_length (Z.to_nat (Z.max 1 rows_to_fetch - 1)) rows).
    lia.
  - intros Hle. unfold kept. replace (Z.max 1 rows_to_fetch - 1)%Z with 0%Z by lia.
    reflexivity.
Qed.





(** ** More on sharing *)

Lemma share_loop_count drive sid notify (recipients : list dict) :
  forall successes failures (s s' : state W) lists,
    share_loop drive sid notify recipients successes failures s = (inr lists, s') ->
    (List.length (fst lists) + List.length (snd lists)
     = List.length successes + List.length failures + List.length recipients)%nat.
Proof.
  induction recipients as [| recipient rest IH];
    intros successes failures s s' lists Hloop.
  - injection Hloop as <- _. cbn [fst snd List.length]. lia.
  - cbn [share_loop] in Hloop. unfold bind in Hloop.
    destruct (share_step drive sid notify recipient successes failures s)
      as [[e | step] s1] eqn:Hstep; [discriminate |].
    apply share_step_entries in Hstep. apply IH in Hloop. rewrite Hloop.
    destruct Hstep as [(entry & -> & _) | (entry & -> & _)];
      cbn [fst snd List.length]; rewrite length_app; cbn [List.length]; lia.
Qed.

(** When [share_spreadsheet] returns, every recipient is accounted for
    exactly once: the successes and the failures together are as many as
    the recipients. *)
Theorem share_accounts_for_every_recipient
    (recipients : list dict) spreadsheet_id notify (s s' : state W) results :
  share_spreadsheet recipients spreadsheet_id notify s = (inr results, s') ->
  exists successes failures,
    results = PDict [("successes", PList successes); ("failures", PList failures)] /\
    (List.length successes + List.length failures = List.length recipients)%nat.
Proof.
  unfold share_spreadsheet, bind at 1.
  destruct (get_spreadsheet_id spreadsheet_id s) as [[e | sid] s0]; [discriminate |].
  unfold bind at 1.
  destruct (ensure_authenticated s0) as [[e | lc] s1]; [discriminate |].
  unfold bind at 1.
  destruct (share_loop (drive_service lc) sid notify recipients [] [] s1)
    as [[e | lists] s2] eqn:Hloop; [discriminate |].
  intros [= <- _]. exists (fst lists), (snd lists). split; [reflexivity |].
  exact (share_loop_count _ _ _ _ _ _ _ _ _ Hloop).
Qed.

(** The role of a recipient: one that is not [reader], [commenter] or
    [writer] is refused without any request, with a failure entry that
    names it; an accepted one costs exactly one request, which carries the
    role; a recipient with no [role] key is shared with as [writer]. *)
Theorem share_checks_role_before_request
    (h : service) sid notify (recipient : dict) successes failures (s : state W) :
  truthy (dget recipient "email_address" PNone) = true ->
  let email := dget recipient "email_address" PNone in
  let role := dget recipient "role" (PStr "writer") in
  (existsb (py_eq_str role) ["reader"; "commenter"; "writer"] = false ->
     share_step (Some h) sid notify recipient successes failures s
       = (inr (successes,
               (failures ++ [PDict [("email_address", email);
                                    ("error",
                                     PStr ("Invalid role '" ++ py_format role
                                             ++ "'. Must be 'reader', 'commenter', or 'writer'."))]])%list),
          s)) /\
  (existsb (py_eq_str role) ["reader"; "commenter"; "writer"] = true ->
     log (snd (share_step (Some h) sid notify recipient successes failures s))
       = (log s ++ [share_request h sid notify email role])%list) /\
  (dict_get "role" recipient = None ->
     log (snd (share_step (Some h) sid notify recipient successes failures s))
       = (log s ++ [share_request h sid notify email (PStr "writer")])%list).
Proof.
  intros Hemail email role.
  assert (Hsend : existsb (py_eq_str role) ["reader"; "commenter"; "writer"] = true ->
                  log (snd (share_step (Some h) sid notify recipient successes failures s))
                    = (log s ++ [share_request h sid notify email role])%list).
  { intros Hrole. unfold share_step. fold email. fold role.
    unfold email in Hemail |- *. rewrite Hemail, Hrole. cbn [negb].
    unfold try_except, bind at 1. unfold api, call.
    destruct (run _ _ (world s)) as [[e | result] w'].
    - unfold bind, lift. now destruct (share_error_details json_loads e).
    - unfold bind, lift. destruct (py_get result "id" PNone) as [e | pid];
        [| reflexivity].
      now destruct (share_error_details json_loads e). }
  split; [| split; [exact Hsend |]].
  - intros Hrole. unfold share_step. fold role. unfold email.
    now rewrite Hemail, Hrole.
  - intros Hnone.
    assert (Hdefault : role = PStr "writer") by (unfold role, dget; now rewrite Hnone).
    rewrite <- Hdefault. apply Hsend. now rewrite Hdefault.
Qed.

(** The message of a failed share: the text of the exception, unless the
    exception has a body that parses to a JSON object with an [error]
    object holding a [message], in which case it is that message. *)
Theorem share_error_details_prefers_backend_message (e : exn) :
  (exn_content e = None -> share_error_details json_loads e = inr (PStr (exn_str e))) /\
  (forall text e',
      exn_content e = Some (PStr text) ->
      json_loads text = inl e' ->
      exn_kind e' = JSONDecodeError ->
      share_error_details json_loads e = inr (PStr (exn_str e))) /\
  (forall text body,
      exn_content e = Some (PStr text) ->
      json_loads text = inr (PDict body) ->
      dict_get "error" body = None ->
      share_error_details json_loads e = inr (PStr (exn_str e))) /\
  (forall text body err,
      exn_content e = Some (PStr text) ->
      json_loads text = inr (PDict body) ->
      dict_get "error" body = Some (PDict err) ->
      share_error_details json_loads e
        = inr (dget err "message" (PStr (exn_str e)))).
Proof.
  unfold share_error_details. repeat split.
  - now intros ->.
  - intros text e' -> Hjson Hkind. cbn [json_loads_value]. rewrite Hjson.
    cbn [rbind]. unfold is_JSONDecodeError. now rewrite Hkind.
  - intros text body -> Hjson Herror. cbn [json_loads_value]. rewrite Hjson.
    cbn [rbind py_get]. unfold dget. now rewrite Herror.
  - intros text body err -> Hjson Herror. cbn [json_loads_value]. rewrite Hjson.
    cbn [rbind py_get]. unfold dget at 1. now rewrite Herror.
Qed.

(** ** More on creating spreadsheets and sheets *)

(** With no working folder on the session (none, or an empty one),
    [create_spreadsheet] sends the create request and nothing else: Drive
    is not contacted, and the result reports the folder [root]. *)
Theorem create_spreadsheet_without_folder
    title (s s1 : state W) lc svc (reply : dict) w2 summary :
  ensure_authenticated s = (inr lc, s1) ->
  sheets_service lc = Some svc ->
  folder_id lc = None \/ folder_id lc = Some "" ->
  run _ (Execute svc "spreadsheets.create"
           [("body", PDict [("properties", PDict [("title", PStr title)])]);
            ("fields", PStr "spreadsheetId,properties,sheets")]) (world s1)
    = (inr (PDict reply), w2) ->
  created_summary title (folder_id lc) (PDict reply) (dget reply "spreadsheetId" PNone)
    = inr summary ->
  create_spreadsheet title s
    = (inr summary,
       mkState w2
         (log s1 ++ [Called (Execute svc "spreadsheets.create"
                           [("body", PDict [("properties", PDict [("title", PStr title)])]);
                            ("fields", PStr "spreadsheetId,properties,sheets")])])%list
         (session s1)) /\
  field "folder" summary = Some (PStr "root").
Proof.
  intros Hauth Hsvc Hfolder Hcreate Hsummary. split.
  - unfold create_spreadsheet. rewrite (bind_ok _ _ _ _ _ Hauth). cbv zeta.
    rewrite Hsvc. unfold bind at 1. unfold api, call. rewrite Hcreate.
    unfold bind at 1. unfold lift at 1. cbn [py_get].
    unfold bind, lift.
    destruct Hfolder as [Hf | Hf]; rewrite Hf in Hsummary |- *;
      cbn [nonempty String.eqb negb ret]; now rewrite Hsummary.
  - unfold created_summary in Hsummary. cbn [py_get rbind] in Hsummary.
    destruct (py_get (dget reply "properties" (PDict [])) "title" (PStr title))
      as [e | shown]; [discriminate |].
    cbn [rbind] in Hsummary.
    destruct (py_iter (dget reply "sheets" (PList []))) as [e | items];
      [discriminate |].
    cbn [rbind] in Hsummary.
    destruct (sheet_titles items) as [e | titles]; [discriminate |].
    cbn [rbind] in Hsummary.
    destruct Hfolder as [Hf | Hf]; rewrite Hf in Hsummary;
      injection Hsummary as <-; reflexivity.
Qed.

(** [create_sheet] reads the new sheet off the first reply: id and title
    as the backend gives them, [index] being [None] when the reply has
    none.  A reply without any entry makes the handler raise although the
    request that adds the sheet has been sent. *)
Theorem create_sheet_reads_first_reply
    title spreadsheet_id sid (s s1 : state W) lc svc (result : pyval) w2 :
  get_spreadsheet_id spreadsheet_id s = (inr sid, s) ->
  ensure_authenticated s = (inr lc, s1) ->
  sheets_service lc = Some svc ->
  let request :=
    Execute svc "spreadsheets.batchUpdate"
      [("spreadsheetId", PStr sid);
       ("body", PDict [("requests", PList [
          PDict [("addSheet", PDict [
            ("properties", PDict [("title", PStr title)])])]])])] in
  run _ request (world s1) = (inr result, w2) ->
  let added := mkState w2 (log s1 ++ [Called request])%list (session s1) in
  (forall (reply addition props : dict) more sheet_id shown,
      subscript result "replies" = inr (PList (PDict reply :: more)) ->
      dict_get "addSheet" reply = Some (PDict addition) ->
      dict_get "properties" addition = Some (PDict props) ->
      dict_get "sheetId" props = Some sheet_id ->
      dict_get "title" props = Some shown ->
      create_sheet title spreadsheet_id s
        = (inr (PDict [("sheetId", sheet_id); ("title", shown);
                       ("index", dget props "index" PNone);
                       ("spreadsheetId", PStr sid)]), added)) /\
  (subscript result "replies" = inr (PList []) ->
     exists e, create_sheet title spreadsheet_id s = (inl e, added)).
Proof.
  intros Hid Hauth Hsvc request Hrun added.
  assert (Hsent : call request s1 = (inr result, added)).
  { unfold call. now rewrite Hrun. }
  split.
  - intros reply addition props more sheet_id shown Hreplies Hadd Hprops Hsheet Htitle.
    unfold create_sheet.
    rewrite (bind_ok _ _ _ _ _ Hid), (bind_ok _ _ _ _ _ Hauth), Hsvc.
    cbn [api]. fold request. rewrite (bind_ok _ _ _ _ _ Hsent).
    unfold bind, lift. rewrite Hreplies. cbn [py_first subscript].
    rewrite Hadd. cbn [subscript]. rewrite Hprops. cbn [subscript].
    rewrite Hsheet, Htitle. reflexivity.
  - intros Hreplies. unfold create_sheet.
    rewrite (bind_ok _ _ _ _ _ Hid), (bind_ok _ _ _ _ _ Hauth), Hsvc.
    cbn [api]. fold request. rewrite (bind_ok _ _ _ _ _ Hsent).
    unfold bind, lift. rewrite Hreplies. cbn [py_first]. now eexists.
Qed.

(** ** Writing values *)

Lemma batch_data_map (sheet : string) (ranges : dict) :
  forall data,
    batch_data sheet ranges data
      = (data ++ map (fun kv => PDict [("range", PStr (sheet ++ "!" ++ fst kv));
                                       ("values", snd kv)]) ranges)%list.
Proof.
  induction ranges as [| [range_str values] rest IH]; intros data; cbn [batch_data map].
  - now rewrite app_nil_r.
  - rewrite IH, <- app_assoc. reflexivity.
Qed.

(** The body of a batch update has one entry per range of the mapping, in
    the order of the mapping, each with the range qualified by the sheet
    name and the values passed through as they are; the handler sends it
    in a single request. *)
Theorem batch_update_sends_one_entry_per_range
    sheet (ranges : dict) spreadsheet_id sid (s s1 : state W) lc svc :
  ensure_authenticated s = (inr lc, s1) ->
  get_spreadsheet_id spreadsheet_id s1 = (inr sid, s1) ->
  sheets_service lc = Some svc ->
  batch_update_cells sheet ranges spreadsheet_id s
    = call (Execute svc "spreadsheets.values.batchUpdate"
              [("spreadsheetId", PStr sid);
               ("body",
                PDict [("valueInputOption", PStr "USER_ENTERED");
                       ("data",
                        PList (map (fun kv =>
                                      PDict [("range", PStr (sheet ++ "!" ++ fst kv));
                                             ("values", snd kv)]) ranges))])]) s1.
Proof.
  intros Hauth Hid Hsvc. unfold batch_update_cells.
  rewrite (bind_ok _ _ _ _ _ Hauth), (bind_ok _ _ _ _ _ Hid), Hsvc.
  now rewrite batch_data_map.
Qed.

Lemma append_bang_differs (sheet : string) : sheet ++ "!" <> sheet.
Proof.
  induction sheet as [| c rest IH]; cbn [append]; [discriminate |].
  intros [= Heq]. now apply IH.
Qed.

(** [update_cells] always qualifies the range with the sheet name, also
    when the range is empty: it then addresses [sheet!], where the reading
    handlers address the whole sheet under its bare name.  [append_rows]
    always addresses column A of the sheet. *)
Theorem write_requests_always_qualify
    sheet range data spreadsheet_id sid (s s1 : state W) lc svc :
  get_spreadsheet_id spreadsheet_id s = (inr sid, s) ->
  ensure_authenticated s = (inr lc, s1) ->
  sheets_service lc = Some svc ->
  update_cells sheet range data spreadsheet_id s
    = call (Execute svc "spreadsheets.values.update"
              [("spreadsheetId", PStr sid);
               ("range", PStr (sheet ++ "!" ++ range));
               ("valueInputOption", PStr "USER_ENTERED");
               ("body", PDict [("values", data)])]) s1 /\
  append_rows sheet data spreadsheet_id s
    = call (Execute svc "spreadsheets.values.append"
              [("spreadsheetId", PStr sid);
               ("range", PStr (sheet ++ "!A:A"));
               ("valueInputOption", PStr "USER_ENTERED");
               ("insertDataOption", PStr "INSERT_ROWS");
               ("body", PDict [("values", data)])]) s1 /\
  sheet ++ "!" ++ "" <> full_range sheet (Some "").
Proof.
  intros Hid Hauth Hsvc. split; [| split].
  - unfold update_cells.
    now rewrite (bind_ok _ _ _ _ _ Hid), (bind_ok _ _ _ _ _ Hauth), Hsvc.
  - unfold append_rows.
    now rewrite (bind_ok _ _ _ _ _ Hid), (bind_ok _ _ _ _ _ Hauth), Hsvc.
  - cbn [full_range nonempty String.eqb negb]. apply append_bang_differs.
Qed.

(** ** Listing spreadsheets *)

Lemma file_entries_map (files entries : list pyval) :
  Forall2 (fun file entry =>
             exists id name,
               subscript file "id" = inr id /\
               subscript file "name" = inr name /\
               entry = PDict [("id", id); ("title", name)]) files entries ->
  file_entries files = inr entries.
Proof.
  induction 1 as [| file entry files entries (id & name & Hid & Hname & ->) _ IH];
    cbn [file_entries]; [reflexivity |].
  rewrite Hid. cbn [rbind]. rewrite Hname. cbn [rbind]. now rewrite IH.
Qed.

(** [list_spreadsheets] restricts the search to the working folder exactly
    when the session has a non-empty one, sends one request, and returns
    the files in the order of the reply, each as its [id] and its [name]
    under the key [title]; a reply without [files] gives an empty list. *)
Theorem list_spreadsheets_scopes_to_folder
    (s s1 : state W) lc drive (reply : dict) w2 (files entries : list pyval) :
  ensure_authenticated s = (inr lc, s1) ->
  drive_service lc = Some drive ->
  let request :=
    Execute drive "files.list"
      [("q", PStr (list_query (folder_id lc)));
       ("spaces", PStr "drive");
       ("fields", PStr "files(id, name)");
       ("orderBy", PStr "modifiedTime desc")] in
  run _ request (world s1) = (inr (PDict reply), w2) ->
  dget reply "files" (PList []) = PList files ->
  Forall2 (fun file entry =>
             exists id name,
               subscript file "id" = inr id /\
               subscript file "name" = inr name /\
               entry = PDict [("id", id); ("title", name)]) files entries ->
  list_spreadsheets s
    = (inr (PList entries), mkState w2 (log s1 ++ [Called request])%list (session s1)) /\
  list_query None = "mimeType='application/vnd.google-apps.spreadsheet'" /\
  list_query (Some "") = "mimeType='application/vnd.google-apps.spreadsheet'" /\
  (forall folder,
      folder <> "" ->
      list_query (Some folder)
        = "mimeType='application/vnd.google-apps.spreadsheet'"
            ++ " and '" ++ folder ++ "' in parents").
Proof.
  intros Hauth Hdrive request Hrun Hfiles Hentries.
  split; [| split; [reflexivity | split; [reflexivity |]]].
  - unfold list_spreadsheets. rewrite (bind_ok _ _ _ _ _ Hauth). cbv zeta.
    rewrite Hdrive. cbn [api]. fold request.
    unfold bind at 1. unfold call. rewrite Hrun.
    unfold bind, lift. cbn [py_get]. rewrite Hfiles. cbn [py_iter].
    now rewrite (file_entries_map files entries Hentries).
  - intros folder Hne. unfold list_query. now rewrite (nonempty_true folder Hne).
Qed.

End Server.

(** ** The handlers on the concrete worlds *)

Import Scenario.

(** C1 at a failing input.  Both an inline blob and a service-account file
    are configured and the blob is not JSON: resolution raises the parse
    error straight away, with no call made and no later strategy tried,
    and the error is not the all-methods-failed one; without the blob the
    same world authenticates from the service-account file. *)
Lemma authenticate_inline_parse_error_aborts :
  authenticate_google_services online json_loads cfg_inline_broken fresh
    = (inl (mkExn JSONDecodeError "Expecting value: line 1 column 1 (char 0)" None),
       fresh) /\
  mkExn JSONDecodeError "Expecting value: line 1 column 1 (char 0)" None
    <> all_methods_failed /\
  fst (authenticate_google_services online json_loads cfg_default fresh)
    = inr (mkService "sheets" "v4" file_creds, mkService "drive" "v3" file_creds).
Proof.
  split; [reflexivity |]. split; [discriminate | reflexivity].
Qed.

(** C3 at a failing input.  The Drive call for the first recipient raises
    an error whose body is the JSON text [{"error": "forbidden"}]: the
    handler's own [except] block raises [AttributeError], the whole
    operation ends with that raise instead of a result, and the second
    recipient is never processed (one [permissions.create] call is logged);
    alone, the second recipient is shared with. *)
Lemma share_aborts_on_error_body :
  fst (share_spreadsheet online json_loads cfg_default
         [recipient_blocked; recipient_ok] (Some "abc") true authenticated)
    = inl (py_raise AttributeError "'str' object has no attribute 'get'") /\
  List.length
    (calls_to "permissions.create"
       (log (snd (share_spreadsheet online json_loads cfg_default
                    [recipient_blocked; recipient_ok] (Some "abc") true authenticated))))
    = 1%nat /\
  fst (share_spreadsheet online json_loads cfg_default
         [recipient_ok] (Some "abc") true authenticated)
    = inr (PDict [("successes",
                   PList [PDict [("email_address", PStr "ann@example.com");
                                 ("role", PStr "reader");
                                 ("permissionId", PStr "perm-1")]]);
                  ("failures", PList [])]).
Proof.
  repeat split.
Qed.

(** Witness of C2: the three cases on the concrete worlds. *)
Lemma ensure_authenticated_lifecycle_witness :
  ensure_authenticated online json_loads cfg_default authenticated
    = (inr (session authenticated), authenticated) /\
  fst (ensure_authenticated online json_loads cfg_default fresh)
    = inr (mkContext (Some sheets_handle) (Some drive_handle) None true) /\
  (fst (ensure_authenticated offline json_loads cfg_default fresh)
     = inl (py_raise Exception
              "Authentication failed: All authentication methods failed. Please configure credentials.")
   /\ session (snd (ensure_authenticated offline json_loads cfg_default fresh))
      = session fresh).
Proof.
  split; [| split].
  - apply (proj1 (ensure_authenticated_lifecycle online json_loads cfg_default
                    authenticated)).
    reflexivity.
  - pose proof (proj1 (proj2 (ensure_authenticated_lifecycle online json_loads
                                cfg_default fresh))
                  eq_refl _ _ eq_refl) as H.
    cbv zeta in H. rewrite H. reflexivity.
  - pose proof (proj2 (proj2 (ensure_authenticated_lifecycle offline json_loads
                                cfg_default fresh))
                  eq_refl _ _ eq_refl) as [H [Hsession _]].
    rewrite H. split; [reflexivity | exact Hsession].
Defined.

(** Witness of C7: [get_sheet_data] on [Sheet1], [A1:C10]. *)
Lemma full_range_qualifies_witness :
  log (snd (get_sheet_data online json_loads cfg_default "Sheet1" (Some "abc")
              (Some "A1:C10") authenticated))
    = [Called (Execute sheets_handle "spreadsheets.get"
                 [("spreadsheetId", PStr "abc");
                  ("ranges", PList [PStr "Sheet1!A1:C10"]);
                  ("includeGridData", PBool true)])].
Proof.
  exact (proj1 (proj2 (proj2 (proj2 (proj2 (proj2
           (full_range_qualifies online json_loads cfg_default)))))
           "Sheet1" (Some "abc") (Some "A1:C10") authenticated authenticated "abc"
           (session authenticated) sheets_handle eq_refl eq_refl eq_refl)).
Defined.

(** Witness of C4: three rows inserted at index 4 of the sheet [Data]. *)
Lemma insert_dimension_indices_witness :
  fst (add_rows online json_loads cfg_default "Data" 3 (Some "abc") (Some 4%Z)
         authenticated)
    = fst (call online
             (Execute sheets_handle "spreadsheets.batchUpdate"
                [("spreadsheetId", PStr "abc");
                 ("body", insert_dimension_body "ROWS" (PInt 7) (Some 4%Z) 3)])
             (snd (lookup_sheet_id online (Some sheets_handle) "abc" "Data"
                     authenticated))) /\
  range_field (insert_dimension_body "ROWS" (PInt 7) (Some 4%Z) 3) "endIndex"
    = Some (PInt 7).
Proof.
  split.
  - rewrite (proj1 (proj2 (proj2 (proj2
               (insert_dimension_indices online json_loads cfg_default)))
               "Data" 3%Z (Some "abc") (Some 4%Z) authenticated authenticated
               (snd (lookup_sheet_id online (Some sheets_handle) "abc" "Data"
                       authenticated))
               "abc" (session authenticated) sheets_handle (PInt 7)
               eq_refl eq_refl eq_refl eq_refl eq_refl)).
    reflexivity.
  - reflexivity.
Defined.

Lemma spreadsheet_abc_lacks_missing : lists_no_sheet spreadsheet_abc "Missing".
Proof.
  exists [sheet_entry "Sheet1" 0; sheet_entry "Data" 7].
  split; [reflexivity |].
  repeat constructor; eexists; eexists; repeat split.
Defined.

(** Witness of C5: the sheet [Missing] is looked up in a spreadsheet that
    has [Sheet1] and [Data]. *)
Lemma absent_sheet_soft_error_witness :
  fst (delete_sheet online json_loads cfg_default "Missing" (Some "abc") authenticated)
    = inr (PDict [("error", PStr "Sheet 'Missing' not found")]) /\
  fst (copy_sheet online json_loads cfg_default "abc" "Missing" "xyz" "Copy"
         authenticated)
    = inr (PDict [("error", PStr "Source sheet 'Missing' not found")]).
Proof.
  assert (Hlist : forall params, exists spreadsheet w',
             online _ (Execute sheets_handle "spreadsheets.get" params)
               (world authenticated) = (inr spreadsheet, w')
             /\ lists_no_sheet spreadsheet "Missing").
  { intros params. exists spreadsheet_abc, 1%nat.
    split; [reflexivity | exact spreadsheet_abc_lacks_missing]. }
  destruct (absent_sheet_soft_error online json_loads cfg_default
              authenticated authenticated (session authenticated) sheets_handle
              "Missing" eq_refl eq_refl Hlist) as (_ & Hid & _ & Hcopy).
  destruct (Hid (Some "abc") "abc" eq_refl) as (_ & _ & Hdelete & _).
  split; [exact Hdelete | exact (Hcopy "abc" "xyz" "Copy")].
Defined.

(** C5 as stated fails for [copy_sheet]: for a source sheet absent from
    the listing it returns [Source sheet 'Missing' not found], which is not
    the value [{"error": "Sheet 'Missing' not found"}]. *)
Lemma copy_sheet_reports_source_sheet :
  lists_no_sheet spreadsheet_abc "Missing" /\
  fst (copy_sheet online json_loads cfg_default "abc" "Missing" "xyz" "Copy"
         authenticated)
    = inr (PDict [("error", PStr "Source sheet 'Missing' not found")]) /\
  fst (copy_sheet online json_loads cfg_default "abc" "Missing" "xyz" "Copy"
         authenticated)
    <> inr (PDict [("error", PStr "Sheet 'Missing' not found")]).
Proof.
  split; [exact spreadsheet_abc_lacks_missing |].
  split; [reflexivity | discriminate].
Qed.

(** Witness of C6: a query without [spreadsheet_id] and a recipient
    without [email_address]; neither reaches the backend. *)
Lemma missing_field_short_circuits_witness :
  query_step online (Some sheets_handle) query_no_id authenticated
    = (inr (PDict [("sheet", PStr "Sheet1"); ("range", PStr "A1:B2");
                   ("error", PStr "Missing required keys (spreadsheet_id, sheet, range)")]),
       authenticated) /\
  share_step online json_loads (Some drive_handle) "abc" true recipient_no_email [] []
    authenticated
    = (inr ([], [PDict [("email_address", PNone);
                        ("error", PStr "Missing email_address in recipient entry.")]]),
       authenticated).
Proof.
  destruct (missing_field_short_circuits online json_loads)
    as (Habsent & Hquery & _ & Hshare & _).
  split.
  - apply (Hquery (Some sheets_handle) query_no_id authenticated).
    left. apply Habsent. reflexivity.
  - apply (Hshare (Some drive_handle) "abc" true recipient_no_email [] [] authenticated).
    apply Habsent. reflexivity.
Defined.

(** Witness of C8: a fetch of a good range, a bad range and a query
    without id; a sharing with one success and one failure; a summary. *)
Lemma result_entries_outcome_fields_witness :
  (exists entries,
      fst (get_multiple_sheet_data online json_loads cfg_default
             [query_ok; query_bad_range; query_no_id] authenticated) = inr (PList entries) /\
      Forall (fun entry => xorb (carries "data" entry) (carries "error" entry) = true)
        entries) /\
  (exists successes failures,
      fst (share_spreadsheet online json_loads cfg_default
             [recipient_ok; recipient_no_email] (Some "abc") true authenticated)
        = inr (PDict [("successes", PList successes); ("failures", PList failures)]) /\
      Forall (fun entry => carries "permissionId" entry = true /\
                           carries "error" entry = false) successes /\
      Forall (fun entry => carries "error" entry = true /\
                           carries "permissionId" entry = false) failures) /\
  (exists entries,
      fst (get_multiple_spreadsheet_summary online json_loads cfg_default ["abc"] 5
             authenticated) = inr (PList entries) /\
      Forall (fun entry => carries "title" entry = true /\
                           carries "sheets" entry = true /\
                           carries "error" entry = true) entries).
Proof.
  destruct (result_entries_outcome_fields online json_loads cfg_default)
    as (Hfetch & Hshare & Hsummary).
  split; [| split].
  - destruct (Hfetch [query_ok; query_bad_range; query_no_id] authenticated _ _ eq_refl)
      as (entries & Hresults & Hall).
    exists entries. split; [now rewrite <- Hresults |].
    clear Hresults.
    repeat match goal with
           | H : Forall2 _ (_ :: _) _ |- _ => inversion H; subst; clear H
           | H : Forall2 _ [] _ |- _ => inversion H; subst; clear H
           end.
    repeat constructor;
      match goal with
      | H : _ /\ (has_key "data" ?q = false -> _) |- xorb (carries "data" ?e) _ = true =>
          exact (proj2 H eq_refl eq_refl)
      end.
  - destruct (Hshare [recipient_ok; recipient_no_email] (Some "abc") true
                authenticated _ _ eq_refl)
      as (successes & failures & Hresults & Hs & Hf).
    exists successes, failures. split; [now rewrite <- Hresults | now split].
  - destruct (Hsummary ["abc"] 5%Z authenticated _ _ eq_refl)
      as (entries & Hresults & Hall).
    exists entries. split; [now rewrite <- Hresults |].
    clear Hresults.
    repeat match goal with
           | H : Forall2 _ (_ :: _) _ |- _ => inversion H; subst; clear H
           | H : Forall2 _ [] _ |- _ => inversion H; subst; clear H
           end.
    repeat constructor; tauto.
Defined.

(** C8 as stated fails: a query that itself has a key named [error] and
    whose range is fetched comes back with both [data] and [error]. *)
Lemma entry_with_data_and_error :
  ~ (forall (queries : list dict) (s s' : state nat) entries,
        get_multiple_sheet_data online json_loads cfg_default queries s
          = (inr (PList entries), s') ->
        Forall (fun entry => xorb (carries "data" entry) (carries "error" entry) = true)
          entries).
Proof.
  intros Hclaim.
  specialize (Hclaim [query_with_error_key] authenticated _ _ eq_refl).
  inversion Hclaim as [| entry rest Hentry _]. discriminate Hentry.
Qed.

(** Witness of C10: the session has the working folder [folder-1] and the
    Drive refuses the move; the spreadsheet is reported all the same. *)
Lemma create_spreadsheet_survives_move_failure_witness :
  create_spreadsheet online json_loads cfg_default "Plan" authenticated_in_folder
    = (inr (PDict [("spreadsheetId", PStr "new-1"); ("title", PStr "Plan");
                   ("sheets", PList [PStr "Sheet1"]); ("folder", PStr "folder-1")]),
       mkState 2%nat
         [Called (Execute sheets_handle "spreadsheets.create"
                    [("body", PDict [("properties", PDict [("title", PStr "Plan")])]);
                     ("fields", PStr "spreadsheetId,properties,sheets")]);
          Called (Execute drive_handle "files.get"
                    [("fileId", PStr "new-1"); ("fields", PStr "parents")])]
         (session authenticated_in_folder)).
Proof.
  assert (Htitles :
            Forall2 (fun sheet shown =>
                       exists entry sheet_props,
                         sheet = PDict entry /\
                         dget entry "properties" (PDict []) = PDict sheet_props /\
                         shown = dget sheet_props "title" (PStr "Sheet1"))
              [PDict [("properties", PDict [("title", PStr "Sheet1")])]]
              [PStr "Sheet1"]).
  { repeat constructor. eexists; eexists; repeat split. }
  destruct (create_spreadsheet_survives_move_failure online json_loads cfg_default
              "Plan" authenticated_in_folder authenticated_in_folder
              (session authenticated_in_folder) sheets_handle created_reply
              [("title", PStr "Plan")]
              [PDict [("properties", PDict [("title", PStr "Sheet1")])]]
              [PStr "Sheet1"] 1%nat "folder-1"
              eq_refl eq_refl eq_refl eq_refl eq_refl eq_refl eq_refl Htitles)
    as (_ & _ & Hfailed).
  exact (Hfailed drive_handle (http_error "File not found" None) 2%nat eq_refl eq_refl).
Defined.

(** ** The further properties on the concrete worlds *)

Lemma serve_session_lifecycle_witness :
  session (serve online json_loads cfg_default busy_day fresh)
    = mkContext (Some sheets_handle) (Some drive_handle) None true /\
  session_ok (session (serve online json_loads cfg_default busy_day fresh)).
Proof.
  destruct (serve_session_lifecycle online json_loads cfg_default busy_day fresh)
    as (_ & _ & Hok).
  split; [reflexivity |]. apply Hok. intros Hauth. cbv in Hauth. discriminate Hauth.
Defined.

Lemma authenticated_session_is_final_witness :
  session (serve online json_loads cfg_default busy_day authenticated)
    = session authenticated /\
  logged_only is_backend_request authenticated
    (serve online json_loads cfg_default busy_day authenticated).
Proof.
  apply (authenticated_session_is_final online json_loads cfg_default busy_day
           authenticated).
  reflexivity.
Defined.

Lemma missing_spreadsheet_id_raises_first_witness :
  list_sheets online json_loads cfg_default None fresh
    = (inl (spreadsheet_id_required), fresh) /\
  fst (batch_update_cells online json_loads cfg_default "Sheet1" ranges_two None fresh)
    = inl spreadsheet_id_required /\
  _authenticated
    (session (snd (batch_update_cells online json_loads cfg_default "Sheet1" ranges_two
                     None fresh))) = true.
Proof.
  destruct (missing_spreadsheet_id_raises_first online json_loads cfg_default fresh
              (or_introl eq_refl))
    as (_ & _ & _ & _ & _ & _ & Hlist & _ & _ & _ & _ & _ & Hbatch).
  split; [exact Hlist |].
  rewrite (Hbatch "Sheet1" ranges_two). split; reflexivity.
Defined.

Lemma inline_blob_excludes_other_sources_witness :
  logged_only is_inline_or_build fresh
    (snd (authenticate_google_services online json_loads_inline cfg_inline fresh)) /\
  fst (authenticate_google_services online json_loads_inline cfg_inline fresh)
    = inr (mkService "sheets" "v4" (mkCreds "inline" true false None),
           mkService "drive" "v3" (mkCreds "inline" true false None)).
Proof.
  split; [| reflexivity].
  apply (inline_blob_excludes_other_sources online json_loads_inline cfg_inline fresh
           "{}"); reflexivity.
Defined.

Lemma authenticate_inline_wins_witness :
  log (snd (authenticate_google_services online json_loads_inline cfg_inline fresh))
    = [Called (FromServiceAccountInfo (PDict []) SCOPES);
       Called (Build "sheets" "v4" (mkCreds "inline" true false None));
       Called (Build "drive" "v3" (mkCreds "inline" true false None))].
Proof.
  rewrite (authenticate_inline_wins online json_loads_inline cfg_inline fresh "{}"
             (PDict []) (mkCreds "inline" true false None) 1%nat
             eq_refl eq_refl eq_refl eq_refl).
  reflexivity.
Defined.

Lemma service_account_file_wins_witness :
  fst (authenticate_google_services online json_loads cfg_default fresh)
    = inr (sheets_handle, drive_handle) /\
  log (snd (authenticate_google_services online json_loads cfg_default fresh))
    = [Called (PathExists "service_account.json");
       Called (FromServiceAccountFile "service_account.json" SCOPES);
       Called (Build "sheets" "v4" file_creds);
       Called (Build "drive" "v3" file_creds)].
Proof.
  rewrite (service_account_file_wins online json_loads cfg_default fresh file_creds
             1%nat 2%nat (or_introl eq_refl) eq_refl eq_refl eq_refl).
  split; reflexivity.
Defined.

Lemma services_share_credentials_witness :
  exists c s1 w2,
    resolve_credentials ambient_only json_loads cfg_default fresh = (inr c, s1) /\
    ambient_only _ (Build "sheets" "v4" c) (world s1)
      = (inr (mkService "sheets" "v4" adc_creds), w2) /\
    ambient_only _ (Build "drive" "v3" c) w2
      = (inr (mkService "drive" "v3" adc_creds), 6%nat).
Proof.
  exact (services_share_credentials ambient_only json_loads cfg_default fresh
           (snd (authenticate_google_services ambient_only json_loads cfg_default fresh))
           (mkService "sheets" "v4" adc_creds) (mkService "drive" "v3" adc_creds)
           eq_refl).
Defined.

Lemma ambient_default_is_last_resort_witness :
  fst (resolve_credentials ambient_only json_loads cfg_default fresh) = inr adc_creds /\
  fst (resolve_credentials offline json_loads cfg_default fresh) = inl all_methods_failed.
Proof.
  split.
  - destruct (ambient_default_is_last_resort ambient_only json_loads cfg_default fresh)
      as (s3 & _ & Hresolve).
    + now left.
    + reflexivity.
    + intros w. eexists. reflexivity.
    + reflexivity.
  - destruct (ambient_default_is_last_resort offline json_loads cfg_default fresh)
      as (s3 & _ & Hresolve).
    + now left.
    + reflexivity.
    + intros w. eexists. reflexivity.
    + reflexivity.
Defined.

Lemma stored_token_is_reused_witness :
  fst (oauth_flow stored_only cfg_default fresh) = inr (Some valid_creds) /\
  fst (oauth_flow stale cfg_default fresh)
    = inr (Some (mkCreds "stored" true false (Some "1//0g"))) /\
  log (snd (oauth_flow stale cfg_default fresh))
    = [Called (PathExists "token.json");
       Called (ReadJsonFile "token.json");
       Called (FromAuthorizedUserInfo (PDict []) SCOPES);
       Called (Refresh stale_creds)].
Proof.
  destruct (stored_token_is_reused stored_only cfg_default fresh (PDict []) valid_creds
              1%nat 2%nat 3%nat eq_refl eq_refl eq_refl) as [Hvalid _].
  destruct (stored_token_is_reused stale cfg_default fresh (PDict []) stale_creds
              1%nat 2%nat 3%nat eq_refl eq_refl eq_refl) as [_ Hstale].
  assert (Hrefreshable : exists t, refresh_token stale_creds = Some t /\ t <> "").
  { exists "1//0g". split; [reflexivity | discriminate]. }
  rewrite (Hvalid eq_refl), (Hstale eq_refl eq_refl Hrefreshable).
  repeat split.
Defined.

Lemma find_sheet_id_first_match_witness :
  find_sheet_id
    ([sheet_entry "Sheet1" 0] ++ sheet_entry "Data" 7
       :: [sheet_entry "Data" 8; PStr "garbage"]) "Data" = inr (PInt 7).
Proof.
  apply find_sheet_id_first_match.
  - repeat constructor. eexists; eexists; repeat split.
  - eexists; repeat split.
Defined.

Lemma listed_names_are_found_witness :
  list_sheets online json_loads cfg_default (Some "abc") authenticated
    = (inr (PList [PStr "Sheet1"; PStr "Data"]),
       mkState 1%nat
         [Called (Execute sheets_handle "spreadsheets.get" [("spreadsheetId", PStr "abc")])]
         (session authenticated)) /\
  fst (lookup_sheet_id online (Some sheets_handle) "abc" "Data" authenticated)
    = inr (PInt 7) /\
  fst (lookup_sheet_id online (Some sheets_handle) "abc" "Missing" authenticated)
    = inr PNone.
Proof.
  assert (Hlisting :
            Forall2 (fun sheet entry =>
                       listed_sheet (fst entry) (PInt (snd entry)) sheet)
              [sheet_entry "Sheet1" 0; sheet_entry "Data" 7]
              [("Sheet1", 0%Z); ("Data", 7%Z)]).
  { repeat constructor; eexists; repeat split. }
  destruct (listed_names_are_found online json_loads cfg_default (Some "abc") "abc"
              authenticated authenticated (session authenticated) sheets_handle
              spreadsheet_abc 1%nat
              [sheet_entry "Sheet1" 0; sheet_entry "Data" 7]
              [("Sheet1", 0%Z); ("Data", 7%Z)]
              eq_refl eq_refl eq_refl eq_refl eq_refl Hlisting) as [Hlist Hlookup].
  split; [exact Hlist |].
  split.
  - now rewrite (proj1 (Hlookup "Data")).
  - now rewrite (proj1 (Hlookup "Missing")).
Defined.

Lemma found_sheet_is_addressed_by_id_witness :
  log (snd (delete_sheet online json_loads cfg_default "Sheet1" (Some "abc")
              authenticated))
    = [Called (Execute sheets_handle "spreadsheets.get" [("spreadsheetId", PStr "abc")]);
       Called (Execute sheets_handle "spreadsheets.batchUpdate"
                 [("spreadsheetId", PStr "abc");
                  ("body", PDict [("requests", PList [
                     PDict [("deleteSheet", PDict [("sheetId", PInt 0)])]])])])].
Proof.
  destruct (found_sheet_is_addressed_by_id online json_loads cfg_default
              authenticated authenticated
              (snd (lookup_sheet_id online (Some sheets_handle) "abc" "Sheet1"
                      authenticated))
              (session authenticated) sheets_handle "Sheet1" (PInt 0)
              eq_refl eq_refl eq_refl) as (Hdelete & _).
  rewrite (Hdelete (Some "abc") "abc" eq_refl eq_refl).
  reflexivity.
Defined.

Lemma copy_sheet_renames_when_titles_differ_witness :
  fst (copy_sheet desk json_loads cfg_default "abc" "Data" "xyz" "Copy of Data"
         authenticated)
    = inr (PDict [("copy", PDict [("sheetId", PInt 99);
                                  ("title", PStr "Copy of Data")])]) /\
  List.length
    (calls_to "spreadsheets.batchUpdate"
       (log (snd (copy_sheet desk json_loads cfg_default "abc" "Data" "xyz" "Archive"
                    authenticated)))) = 1%nat.
Proof.
  destruct (copy_sheet_renames_when_titles_differ desk json_loads cfg_default
              authenticated authenticated
              (snd (lookup_sheet_id desk (Some sheets_handle) "abc" "Data" authenticated))
              (session authenticated) sheets_handle "abc" "Data" "xyz" "Copy of Data"
              (PInt 7) [("sheetId", PInt 99); ("title", PStr "Copy of Data")] 2%nat
              eq_refl eq_refl eq_refl eq_refl eq_refl) as [Hsame _].
  destruct (copy_sheet_renames_when_titles_differ desk json_loads cfg_default
              authenticated authenticated
              (snd (lookup_sheet_id desk (Some sheets_handle) "abc" "Data" authenticated))
              (session authenticated) sheets_handle "abc" "Data" "xyz" "Archive"
              (PInt 7) [("sheetId", PInt 99); ("title", PStr "Copy of Data")] 2%nat
              eq_refl eq_refl eq_refl eq_refl eq_refl) as [_ Hdiffer].
  rewrite (Hsame (or_intror eq_refl)).
  rewrite (Hdiffer (PStr "Copy of Data") (PInt 99) eq_refl eq_refl eq_refl).
  split; reflexivity.
Defined.

Lemma fetch_returns_one_entry_per_query_witness :
  exists entries s',
    get_multiple_sheet_data online json_loads cfg_default
      [query_ok; query_bad_range; query_no_id] authenticated = (inr (PList entries), s') /\
    List.length entries = 3%nat /\
    Forall2 (fun query entry =>
               forall k, k <> "data" -> k <> "error" ->
                         field k entry = dict_get k query)
            [query_ok; query_bad_range; query_no_id] entries.
Proof.
  exact (fetch_returns_one_entry_per_query online json_loads cfg_default
           [query_ok; query_bad_range; query_no_id] authenticated authenticated
           (session authenticated) eq_refl).
Defined.

Lemma fetch_sends_one_request_per_complete_query_witness :
  log (snd (get_multiple_sheet_data online json_loads cfg_default
              [query_ok; query_no_id; query_bad_range] authenticated))
    = [fetch_request sheets_handle query_ok; fetch_request sheets_handle query_bad_range].
Proof.
  exact (fetch_sends_one_request_per_complete_query online json_loads cfg_default
           [query_ok; query_no_id; query_bad_range] authenticated authenticated
           (session authenticated) sheets_handle eq_refl eq_refl).
Defined.

Lemma sheet_summary_keeps_leading_rows_witness :
  fst (sheet_summary_step desk (Some sheets_handle) "abc" 2
         (sheet_entry "Sheet1" 0) authenticated)
    = inr (PDict [("title", PStr "Sheet1");
                  ("sheet_id", PInt 0);
                  ("headers", PList [PStr "name"; PStr "qty"]);
                  ("first_rows", PList [PList [PStr "pen"; PStr "3"]]);
                  ("error", PNone)]).
Proof.
  destruct (sheet_summary_keeps_leading_rows desk sheets_handle "abc" 2
              [("properties", PDict [("sheetId", PInt 0); ("title", PStr "Sheet1")])]
              [("sheetId", PInt 0); ("title", PStr "Sheet1")] "Sheet1" authenticated
              [("values", PList [PList [PStr "name"; PStr "qty"];
                                 PList [PStr "pen"; PStr "3"];
                                 PList [PStr "ink"; PStr "1"]])]
              (PList [PStr "name"; PStr "qty"])
              [PList [PStr "pen"; PStr "3"]; PList [PStr "ink"; PStr "1"]] 1%nat
              eq_refl eq_refl ltac:(discriminate) eq_refl eq_refl) as (Hstep & _).
  exact Hstep.
Defined.



Lemma share_accounts_for_every_recipient_witness :
  exists successes failures,
    fst (share_spreadsheet online json_loads cfg_default
           [recipient_ok; recipient_no_email; recipient_owner] (Some "abc") true
           authenticated)
      = inr (PDict [("successes", PList successes); ("failures", PList failures)]) /\
    (List.length successes + List.length failures = 3)%nat.
Proof.
  destruct (share_accounts_for_every_recipient online json_loads cfg_default
              [recipient_ok; recipient_no_email; recipient_owner] (Some "abc") true
              authenticated _ _ eq_refl) as (successes & failures & Hresults & Hcount).
  exists successes, failures. split; [now rewrite <- Hresults | exact Hcount].
Defined.

Lemma share_checks_role_before_request_witness :
  share_step online json_loads (Some drive_handle) "abc" true recipient_owner [] []
    authenticated
    = (inr ([], [PDict [("email_address", PStr "eve@example.com");
                        ("error",
                         PStr "Invalid role 'owner'. Must be 'reader', 'commenter', or 'writer'.")]]),
       authenticated) /\
  log (snd (share_step online json_loads (Some drive_handle) "abc" true recipient_no_role
              [] [] authenticated))
    = [share_request drive_handle "abc" true (PStr "joe@example.com") (PStr "writer")].
Proof.
  destruct (share_checks_role_before_request online json_loads drive_handle "abc" true
              recipient_owner [] [] authenticated eq_refl) as (Hrefused & _ & _).
  destruct (share_checks_role_before_request online json_loads drive_handle "abc" true
              recipient_no_role [] [] authenticated eq_refl) as (_ & _ & Hdefault).
  split; [exact (Hrefused eq_refl) | exact (Hdefault eq_refl)].
Defined.

Lemma share_error_details_prefers_backend_message_witness :
  share_error_details json_loads (http_error "HttpError 404" None)
    = inr (PStr "HttpError 404") /\
  share_error_details json_loads (http_error "HttpError 502" (Some "Bad Gateway"))
    = inr (PStr "HttpError 502").
Proof.
  split.
  - apply (proj1 (share_error_details_prefers_backend_message json_loads
                    (http_error "HttpError 404" None))).
    reflexivity.
  - apply (proj1 (proj2 (share_error_details_prefers_backend_message json_loads
                           (http_error "HttpError 502" (Some "Bad Gateway"))))
             "Bad Gateway"
             (mkExn JSONDecodeError "Expecting value: line 1 column 1 (char 0)" None));
      reflexivity.
Defined.

Lemma create_spreadsheet_without_folder_witness :
  fst (create_spreadsheet online json_loads cfg_default "Plan" authenticated)
    = inr (PDict [("spreadsheetId", PStr "new-1"); ("title", PStr "Plan");
                  ("sheets", PList [PStr "Sheet1"]); ("folder", PStr "root")]) /\
  List.length (log (snd (create_spreadsheet online json_loads cfg_default "Plan"
                           authenticated))) = 1%nat.
Proof.
  destruct (create_spreadsheet_without_folder online json_loads cfg_default "Plan"
              authenticated authenticated (session authenticated) sheets_handle
              created_reply 1%nat
              (PDict [("spreadsheetId", PStr "new-1"); ("title", PStr "Plan");
                      ("sheets", PList [PStr "Sheet1"]); ("folder", PStr "root")])
              eq_refl eq_refl (or_introl eq_refl) eq_refl eq_refl) as [Hcreate _].
  rewrite Hcreate. split; reflexivity.
Defined.

Lemma create_sheet_reads_first_reply_witness :
  fst (create_sheet desk json_loads cfg_default "Notes" (Some "abc") authenticated)
    = inr (PDict [("sheetId", PInt 12); ("title", PStr "Notes"); ("index", PNone);
                  ("spreadsheetId", PStr "abc")]).
Proof.
  destruct (create_sheet_reads_first_reply desk json_loads cfg_default "Notes"
              (Some "abc") "abc" authenticated authenticated (session authenticated)
              sheets_handle
              (PDict [("spreadsheetId", PStr "abc");
                      ("replies",
                       PList [PDict [("addSheet",
                                      PDict [("properties",
                                              PDict [("sheetId", PInt 12);
                                                     ("title", PStr "Notes")])])]])])
              1%nat eq_refl eq_refl eq_refl eq_refl) as [Hread _].
  rewrite (Hread _ _ _ _ _ _ eq_refl eq_refl eq_refl eq_refl eq_refl).
  reflexivity.
Defined.

Lemma batch_update_sends_one_entry_per_range_witness :
  log (snd (batch_update_cells online json_loads cfg_default "Sheet1" ranges_two
              (Some "abc") authenticated))
    = [Called (Execute sheets_handle "spreadsheets.values.batchUpdate"
                 [("spreadsheetId", PStr "abc");
                  ("body",
                   PDict [("valueInputOption", PStr "USER_ENTERED");
                          ("data",
                           PList [PDict [("range", PStr "Sheet1!A1:B1");
                                         ("values", PList [PList [PInt 1; PInt 2]])];
                                  PDict [("range", PStr "Sheet1!D4");
                                         ("values", PList [PList [PStr "x"]])]])])])].
Proof.
  rewrite (batch_update_sends_one_entry_per_range online json_loads cfg_default
             "Sheet1" ranges_two (Some "abc") "abc" authenticated authenticated
             (session authenticated) sheets_handle eq_refl eq_refl eq_refl).
  reflexivity.
Defined.

Lemma write_requests_always_qualify_witness :
  log (snd (update_cells online json_loads cfg_default "Sheet1" "" (PList [])
              (Some "abc") authenticated))
    = [Called (Execute sheets_handle "spreadsheets.values.update"
                 [("spreadsheetId", PStr "abc");
                  ("range", PStr "Sheet1!");
                  ("valueInputOption", PStr "USER_ENTERED");
                  ("body", PDict [("values", PList [])])])].
Proof.
  destruct (write_requests_always_qualify online json_loads cfg_default "Sheet1" ""
              (PList []) (Some "abc") "abc" authenticated authenticated
              (session authenticated) sheets_handle eq_refl eq_refl eq_refl)
    as (Hupdate & _).
  rewrite Hupdate. reflexivity.
Defined.

Lemma list_spreadsheets_scopes_to_folder_witness :
  fst (list_spreadsheets desk json_loads cfg_default authenticated_in_folder)
    = inr (PList [PDict [("id", PStr "f1"); ("title", PStr "Budget")];
                  PDict [("id", PStr "f2"); ("title", PStr "Plan")]]) /\
  log (snd (list_spreadsheets desk json_loads cfg_default authenticated_in_folder))
    = [Called (Execute drive_handle "files.list"
                 [("q", PStr "mimeType='application/vnd.google-apps.spreadsheet' and 'folder-1' in parents");
                  ("spaces", PStr "drive");
                  ("fields", PStr "files(id, name)");
                  ("orderBy", PStr "modifiedTime desc")])].
Proof.
  destruct (list_spreadsheets_scopes_to_folder desk json_loads cfg_default
              authenticated_in_folder authenticated_in_folder
              (session authenticated_in_folder) drive_handle
              [("files",
                PList [PDict [("id", PStr "f1"); ("name", PStr "Budget")];
                       PDict [("id", PStr "f2"); ("name", PStr "Plan")]])]
              1%nat
              [PDict [("id", PStr "f1"); ("name", PStr "Budget")];
               PDict [("id", PStr "f2"); ("name", PStr "Plan")]]
              [PDict [("id", PStr "f1"); ("title", PStr "Budget")];
               PDict [("id", PStr "f2"); ("title", PStr "Plan")]]
              eq_refl eq_refl eq_refl eq_refl) as (Hlist & _).
  - repeat constructor; eexists; eexists; repeat split.
  - rewrite Hlist. split; reflexivity.
Defined.

Lemma query_step_failure_witness :
  exists s',
    query_step online (Some sheets_handle) query_bad_range authenticated
      = (inr (PDict [("spreadsheet_id", PStr "abc"); ("sheet", PStr "Sheet1");
                     ("range", PStr "ZZ"); ("error", PStr "Unable to parse range")]),
         s').
Proof.
  exact (query_step_failure online sheets_handle query_bad_range authenticated
           (http_error "Unable to parse range" None) 1%nat eq_refl eq_refl).
Defined.

Lemma summary_step_failure_witness :
  exists s',
    summary_step down (Some sheets_handle) 5 "abc" authenticated
      = (inr (PDict [("spreadsheet_id", PStr "abc"); ("title", PNone);
                     ("sheets", PList []);
                     ("error",
                      PStr "Error fetching spreadsheet abc: The service is currently unavailable.")]),
         s').
Proof.
  exact (summary_step_failure down sheets_handle 5 "abc" authenticated
           (http_error "The service is currently unavailable." None) 1%nat eq_refl).
Defined.

Lemma share_step_failure_witness :
  fst (share_step down json_loads (Some drive_handle) "abc" true recipient_ok [] []
         authenticated)
    = inr ([], [PDict [("email_address", PStr "ann@example.com");
                       ("error",
                        PStr "Failed to share: The service is currently unavailable.")]]).
Proof.
  exact (share_step_failure down json_loads drive_handle "abc" true recipient_ok [] []
           authenticated (http_error "The service is currently unavailable." None)
           1%nat (PStr "The service is currently unavailable.")
           eq_refl eq_refl eq_refl eq_refl).
Defined.

Lemma served_session_invariant_example :
  session_ok (session (serve offline json_loads cfg_default busy_day fresh)) /\
  _authenticated (session (serve offline json_loads cfg_default busy_day fresh)) = false.
Proof.
  split; [| reflexivity].
  exact (proj1 (served_session_invariant offline json_loads cfg_default busy_day 0%nat)).
Defined.
